(** * Hourly report: a shallow embedding of [hourly_report.py]

    The program reads spreadsheet extracts of payment transactions, stacks
    them into one table, builds a debtor and a creditor aggregate with
    [pandas.pivot_table], joins the two and appends a GRAND TOTAL row.

    The embedding follows the source function by function.  The parts of
    pandas and of Python the program calls are modelled next to it:

    - a spreadsheet cell is text or missing ([NaN]); every field of a
      transaction is text in the extracts this program is written for;
    - a [DataFrame] is a list of labelled columns, each with its dtype;
    - counts are integers ([Z]); binary64 holds every count a table in
      memory can reach exactly, so sums of counts are exact;
    - the success percentage is computed in binary64 ([SpecFloat], 53 bits of
      precision) and printed by an exact decimal conversion;
    - an exception is a value of [exn]; a function that can raise returns
      [exn + A]. *)

From Stdlib Require Import List String Ascii ZArith Bool Arith Lia Permutation.
From Stdlib Require Import Floats.SpecFloat Numbers.DecimalString.
Import ListNotations.

Open Scope string_scope.
Open Scope list_scope.

(** ** Exceptions *)

Inductive exn : Type :=
| FileNotFoundError (msg : string)
| KeyError (labels : list string)
| ValueError (msg : string)
| AttributeError (msg : string)
| TypeError (msg : string)
| IndexError (msg : string).

Definition result (A : Type) : Type := (exn + A)%type.

Definition ret {A} (x : A) : result A := inr x.
Definition raise {A} (e : exn) : result A := inl e.
Definition bind {A B} (m : result A) (k : A -> result B) : result B :=
  match m with
  | inl e => inl e
  | inr x => k x
  end.

Notation "x <- m ;; k" := (bind m (fun x => k))
  (at level 61, m at next level, right associativity).

(** ** Python strings and paths *)

Module Py.

Definition sep : ascii := "/"%char.

Definition startswith (c : ascii) (s : string) : bool :=
  match s with
  | String a _ => Ascii.eqb a c
  | EmptyString => false
  end.

Fixpoint endswith (c : ascii) (s : string) : bool :=
  match s with
  | EmptyString => false
  | String a EmptyString => Ascii.eqb a c
  | String _ rest => endswith c rest
  end.

(** [os.path.join a b] on a POSIX system. *)
Definition join (a b : string) : string :=
  if startswith sep b then b
  else if orb (String.eqb a "") (endswith sep a) then a ++ b
  else a ++ String sep b.

(** [x in l] for a list of strings. *)
Definition mem (x : string) (l : list string) : bool :=
  existsb (String.eqb x) l.

(** A [dict] with text keys and text values, as an association list. *)
Definition dict : Type := list (string * string).

Fixpoint get (k : string) (d : dict) : option string :=
  match d with
  | [] => None
  | (k', v) :: rest => if String.eqb k k' then Some v else get k rest
  end.

(** [k in d] *)
Definition contains (k : string) (d : dict) : bool :=
  match get k d with
  | Some _ => true
  | None => false
  end.

(** Scanning a text from its right end for the separator: the characters
    read so far (in text order) and, when the separator was met, the
    characters to its left (still reversed). *)
Fixpoint scan_right (c : ascii) (reversed : list ascii) (seen : list ascii)
  : list ascii * option (list ascii) :=
  match reversed with
  | [] => (seen, None)
  | a :: rest =>
      if Ascii.eqb a c then (seen, Some rest)
      else scan_right c rest (a :: seen)
  end.

(** [s.rsplit(c, 1)]: split once, at the last occurrence of [c]. *)
Definition rsplit1 (c : ascii) (s : string) : list string :=
  match scan_right c (rev (list_ascii_of_string s)) [] with
  | (_, None) => [s]
  | (after, Some before) =>
      [string_of_list_ascii (rev before); string_of_list_ascii after]
  end.

(** [d[k]] for a key that is known to be in [d]. *)
Definition item (k : string) (d : dict) : string :=
  match get k d with
  | Some v => v
  | None => ""
  end.

(** [l[0]] *)
Definition first (l : list string) : string := hd "" l.

(** [s.replace(c, "")] for a one-character [c]. *)
Fixpoint remove_char (c : ascii) (s : string) : string :=
  match s with
  | EmptyString => EmptyString
  | String a rest =>
      if Ascii.eqb a c then remove_char c rest
      else String a (remove_char c rest)
  end.

End Py.

(** ** Binary64 arithmetic and the [.2f] format *)

Module F64.

Definition prec : Z := 53.
Definition emax : Z := 1024.

Definition float : Type := spec_float.

(** The float nearest to an integer ([float(n)], [astype(float)]). *)
Definition of_Z (n : Z) : float := binary_normalize prec emax n 0 false.

Definition add : float -> float -> float := SFadd prec emax.
Definition mul : float -> float -> float := SFmul prec emax.
Definition div : float -> float -> float := SFdiv prec emax.

(** The float nearest to [n / 10^k], for [n >= 0]: a decimal literal with
    [k] digits after the point. *)
Definition of_decimal (negative : bool) (n : N) (k : nat) : float :=
  match n with
  | N0 => S754_zero negative
  | Npos m =>
      div (S754_finite negative m 0)
          (S754_finite false (Z.to_pos (10 ^ Z.of_nat k)) 0)
  end.

(** [m * 2^e * 100] rounded to the nearest integer, ties to even: the
    number of hundredths that [.2f] prints (the conversion is exact). *)
Definition hundredths (m : positive) (e : Z) : Z :=
  let n := (Zpos m * 100)%Z in
  match e with
  | Zneg p =>
      let d := Z.pow_pos 2 p in
      let q := (n / d)%Z in
      let r := (n mod d)%Z in
      match (2 * r ?= d)%Z with
      | Lt => q
      | Gt => (q + 1)%Z
      | Eq => if Z.even q then q else (q + 1)%Z
      end
  | _ => (n * 2 ^ e)%Z
  end.

Definition digits (n : Z) : string :=
  NilZero.string_of_uint (N.to_uint (Z.to_N n)).

Definition two_digits (n : Z) : string :=
  digits (n / 10) ++ digits (n mod 10).

(** A non-negative number of hundredths in fixed notation. *)
Definition fixed2 (q : Z) : string :=
  digits (q / 100) ++ "." ++ two_digits (q mod 100).

Definition sign (s : bool) : string := if s then "-" else "".

(** ['{:.2f}'.format(x)] *)
Definition format_2f (x : float) : string :=
  match x with
  | S754_nan => "nan"
  | S754_infinity s => sign s ++ "inf"
  | S754_zero s => sign s ++ "0.00"
  | S754_finite s m e => sign s ++ fixed2 (hundredths m e)
  end.

Definition digit_value (a : ascii) : option N :=
  let n := N_of_ascii a in
  if andb (48 <=? n)%N (n <=? 57)%N then Some (n - 48)%N else None.

(** Reading a run of decimal digits: the number read so far, the count
    of digits, and the text left. *)
Fixpoint read_digits (s : string) (acc : N) (count : nat) : N * nat * string :=
  match s with
  | EmptyString => (acc, count, EmptyString)
  | String a rest =>
      match digit_value a with
      | Some d => read_digits rest (acc * 10 + d)%N (S count)
      | None => (acc, count, s)
      end
  end.

Definition read_sign (s : string) : bool * string :=
  match s with
  | String "-"%char rest => (true, rest)
  | String "+"%char rest => (false, rest)
  | _ => (false, s)
  end.

(** [float(s)] on the texts that [format_2f] prints: an optional sign,
    then [nan], [inf], or digits with an optional fraction.  Any other
    text is refused ([None]; Python raises [ValueError]). *)
Definition parse (s : string) : option float :=
  let '(neg, body) := read_sign s in
  if String.eqb body "nan" then Some S754_nan
  else if String.eqb body "inf" then Some (S754_infinity neg)
  else
    let '(ip, ni, rest) := read_digits body 0 0 in
    match rest with
    | EmptyString =>
        if Nat.eqb ni 0 then None else Some (of_decimal neg ip 0)
    | String "."%char frac =>
        let '(n, nf, rest') := read_digits frac ip 0 in
        match rest' with
        | EmptyString =>
            if Nat.eqb (ni + nf) 0 then None else Some (of_decimal neg n nf)
        | _ => None
        end
    | _ => None
    end.

Definition is_nan (x : float) : bool :=
  match x with
  | S754_nan => true
  | _ => false
  end.

(** [notna] *)
Definition present (x : float) : bool := negb (is_nan x).

(** [Series.mean()] of a float column: missing values are skipped, the
    rest are added and their sum is divided by their number; the mean of
    nothing is NaN.  The values are added from left to right, as numpy adds
    a short array (it adds a longer one in blocks, which can change the last
    bit of the sum). *)
Definition mean (xs : list float) : float :=
  let values := filter present xs in
  match values with
  | [] => S754_nan
  | _ => div (fold_left add values (S754_zero false))
             (of_Z (Z.of_nat (List.length values)))
  end.

End F64.

(** ** Extracts and transactions *)

(** A spreadsheet cell: missing, or text. *)
Inductive cell : Type :=
| NaN
| Str (s : string).

Definition cell_eqb (a b : cell) : bool :=
  match a, b with
  | NaN, NaN => true
  | Str x, Str y => String.eqb x y
  | _, _ => false
  end.

(** [series != "text"], element-wise: a missing cell differs from any text. *)
Definition ne (c : cell) (s : string) : bool :=
  match c with
  | NaN => true
  | Str x => negb (String.eqb x s)
  end.

Definition isna (c : cell) : bool :=
  match c with
  | NaN => true
  | Str _ => false
  end.

(** What [pd.read_excel] returns: the header row and the rows below it. *)
Record sheet : Type := {
  header : list string;
  body : list (list cell)
}.

(** One row of the six columns the program keeps. *)
Record transaction : Type := {
  ENDTOENDID : cell;
  DB_PARTIC_NAME : cell;
  CR_PARTIC_NAME : cell;
  TR_STATUS_NAME : cell;
  BANK_OP_CODE : cell;
  REJECT_MOTIVE_DESCRITION : cell
}.

(** The file system: the sheet stored at a path, if the path exists. *)
Definition filesystem : Type := string -> option sheet.

Definition required_columns : list string :=
  ["ENDTOENDID"; "DB_PARTIC_NAME"; "CR_PARTIC_NAME"; "TR_STATUS_NAME";
   "BANK_OP_CODE"; "REJECT_MOTIVE_DESCRITION"].

Fixpoint position (c : string) (h : list string) : option nat :=
  match h with
  | [] => None
  | x :: rest =>
      if String.eqb x c then Some 0
      else option_map S (position c rest)
  end.

(** The cell of row [row] under the column labelled [c]. *)
Definition at_column (h : list string) (row : list cell) (c : string) : cell :=
  match position c h with
  | Some i => nth i row NaN
  | None => NaN
  end.

(** The labels of [wanted] that the header lacks. *)
Definition missing_columns (h wanted : list string) : list string :=
  filter (fun c => negb (Py.mem c h)) wanted.

Definition project (h : list string) (row : list cell) : transaction :=
  {| ENDTOENDID := at_column h row "ENDTOENDID";
     DB_PARTIC_NAME := at_column h row "DB_PARTIC_NAME";
     CR_PARTIC_NAME := at_column h row "CR_PARTIC_NAME";
     TR_STATUS_NAME := at_column h row "TR_STATUS_NAME";
     BANK_OP_CODE := at_column h row "BANK_OP_CODE";
     REJECT_MOTIVE_DESCRITION := at_column h row "REJECT_MOTIVE_DESCRITION" |}.

(** [df.loc[:, labels]] with a list of labels: pandas raises [KeyError]
    listing the labels that are not columns. *)
Definition loc_required (sh : sheet) : result (list transaction) :=
  match missing_columns (header sh) required_columns with
  | [] => ret (map (project (header sh)) (body sh))
  | not_found => raise (KeyError not_found)
  end.

Definition keep_op_code (t : transaction) : bool :=
  ne (BANK_OP_CODE t) "CSDC" && ne (BANK_OP_CODE t) "PMCT".

(** [check_file_exists] *)
Definition check_file_exists (fs : filesystem) (path name : string) : result unit :=
  match fs path with
  | Some _ => ret tt
  | None => raise (FileNotFoundError (name ++ " does not exist!"))
  end.

(** [filter_file].  [pd.read_excel] of a path that does not exist raises
    [FileNotFoundError] too. *)
Definition filter_file (fs : filesystem) (file_name : string) : result (list transaction) :=
  match fs file_name with
  | None => raise (FileNotFoundError file_name)
  | Some pivot_df =>
      pivot_df <- loc_required pivot_df ;;
      ret (filter keep_op_code pivot_df)
  end.

(** [data.fillna("")] on the six text columns. *)
Definition fill (c : cell) : cell :=
  match c with
  | NaN => Str ""
  | Str s => Str s
  end.

Definition fillna_empty (t : transaction) : transaction :=
  {| ENDTOENDID := fill (ENDTOENDID t);
     DB_PARTIC_NAME := fill (DB_PARTIC_NAME t);
     CR_PARTIC_NAME := fill (CR_PARTIC_NAME t);
     TR_STATUS_NAME := fill (TR_STATUS_NAME t);
     BANK_OP_CODE := fill (BANK_OP_CODE t);
     REJECT_MOTIVE_DESCRITION := fill (REJECT_MOTIVE_DESCRITION t) |}.

(** The loop of [merge_files]: [data] is the table accumulated so far. *)
Fixpoint merge_loop (fs : filesystem) (source_path : string) (files : list string)
    (data : list transaction) : result (list transaction) :=
  match files with
  | [] => ret data
  | f :: rest =>
      let file_path := Py.join source_path f in
      _ <- check_file_exists fs file_path "Sheet Not Found!" ;;
      temp_df <- filter_file fs file_path ;;
      let data := data ++ temp_df in
      let data := map fillna_empty data in
      merge_loop fs source_path rest data
  end.

(** [merge_files]; [source_path] is [args.source_path]. *)
Definition merge_files (fs : filesystem) (source_path : string) (files : list string)
  : result (list transaction) :=
  merge_loop fs source_path files [].

(** ** Sorting labels *)

Section Sorting.
Context {A : Type}.
Variable leb : A -> A -> bool.

Fixpoint insert_sorted (x : A) (l : list A) : list A :=
  match l with
  | [] => [x]
  | y :: rest => if leb x y then x :: l else y :: insert_sorted x rest
  end.

Definition sort (l : list A) : list A := fold_right insert_sorted [] l.
End Sorting.

(** The order of Python on 2-tuples of text. *)
Definition pair_leb (a b : string * string) : bool :=
  if String.eqb (fst a) (fst b) then String.leb (snd a) (snd b)
  else String.leb (fst a) (fst b).

Definition pair_dec (a b : string * string) : {a = b} + {a <> b}.
Proof. decide equality; apply string_dec. Defined.

(** A 2-tuple of texts (without quotes or escapes) as Python prints it. *)
Definition pair_str (a : string * string) : string :=
  "('" ++ fst a ++ "', '" ++ snd a ++ "')".

(** ** Data frames *)

Module Pd.

(** A cell of a frame: missing, text, or a number. *)
Inductive value : Type :=
| nan
| text (s : string)
| num (z : Z).

Inductive dtype : Type :=
| object
| number.

Record column (L : Type) : Type := {
  label : L;
  dtype_of : dtype;
  values : list value
}.
Arguments label {L} _.
Arguments dtype_of {L} _.
Arguments values {L} _.

(** A frame is the list of its columns, left to right; all columns have
    the same number of cells. *)
Definition frame (L : Type) : Type := list (column L).

Definition labels {L} (df : frame L) : list L := map label df.

Definition height {L} (df : frame L) : nat :=
  match df with
  | [] => 0
  | c :: _ => List.length (values c)
  end.

Definition is_nan (v : value) : bool :=
  match v with
  | nan => true
  | _ => false
  end.

Definition is_number (d : dtype) : bool :=
  match d with
  | number => true
  | object => false
  end.

Definition value_eqb (a b : value) : bool :=
  match a, b with
  | nan, nan => true
  | text x, text y => String.eqb x y
  | num x, num y => Z.eqb x y
  | _, _ => false
  end.

(** Order of the join keys: texts as Python orders them; numbers come
    before texts and missing keys last. *)
Definition value_leb (a b : value) : bool :=
  match a, b with
  | num x, num y => Z.leb x y
  | num _, _ => true
  | text _, num _ => false
  | text x, text y => String.leb x y
  | text _, nan => true
  | nan, nan => true
  | nan, _ => false
  end.

Definition value_dec (a b : value) : {a = b} + {a <> b}.
Proof. decide equality; [apply string_dec | apply Z.eq_dec]. Defined.

Definition map_values {L} (f : value -> value) (df : frame L) : frame L :=
  map (fun c => {| label := label c; dtype_of := dtype_of c;
                   values := map f (values c) |}) df.

(** [df.fillna(v)] *)
Definition fillna {L} (v : value) (df : frame L) : frame L :=
  map_values (fun x => if is_nan x then v else x) df.

(** *** [pivot_table(..., aggfunc='count')] *)

Section PivotTable.
Context {K : Type}.
Variable K_dec : forall a b : K, {a = b} + {a <> b}.
Variable K_leb : K -> K -> bool.
(** A label as an error message prints it. *)
Variable K_str : K -> string.
(** [index=], [columns=] and [values=]; a missing column key is [None]. *)
Variable index_key : transaction -> cell.
Variable column_key : transaction -> option K.
Variable counted : transaction -> cell.

(** [groupby] drops a row when one of its keys is missing. *)
Definition group_key (t : transaction) : option (string * K) :=
  match index_key t, column_key t with
  | Str n, Some k => Some (n, k)
  | _, _ => None
  end.

Definition groups (data : list transaction) : list (string * K) :=
  flat_map (fun t => match group_key t with
                     | Some g => [g]
                     | None => []
                     end) data.

Definition in_group (n : string) (k : K) (t : transaction) : bool :=
  match group_key t with
  | Some (n', k') => String.eqb n n' && (if K_dec k k' then true else false)
  | None => false
  end.

(** [count]: the rows of the group whose counted cell is present. *)
Definition count (n : string) (k : K) (data : list transaction) : Z :=
  Z.of_nat (List.length
    (filter (fun t => in_group n k t && negb (isna (counted t))) data)).

(** A combination without a group is missing after [unstack]. *)
Definition entry (n : string) (k : K) (data : list transaction) : value :=
  if existsb (in_group n k) data then num (count n k data) else nan.

(** [dropna(how='all', axis=1)] *)
Definition dropna_columns (df : frame K) : frame K :=
  filter (fun c => negb (forallb is_nan (values c))) df.

(** The distinct index keys and the distinct column keys, sorted. *)
Definition index_labels (data : list transaction) : list string :=
  sort String.leb (nodup string_dec (map fst (groups data))).

Definition column_labels (data : list transaction) : list K :=
  sort K_leb (nodup K_dec (map snd (groups data))).

(** The pivot: its index labels and its columns. *)
Definition pivot_table (data : list transaction) : list string * frame K :=
  let index := index_labels data in
  let cols := column_labels data in
  let table :=
    map (fun k => {| label := k; dtype_of := number;
                     values := map (fun n => entry n k data) index |}) cols in
  (index, dropna_columns table).

(** [reset_index()]: the index becomes the first column, under
    [name]; pandas refuses when a column has that label already. *)
Definition reset_index (name : K) (pv : list string * frame K) : result (frame K) :=
  let '(index, table) := pv in
  if existsb (fun k => if K_dec name k then true else false) (labels table)
  then raise (ValueError ("cannot insert " ++ K_str name ++ ", already exists"))
  else ret ({| label := name; dtype_of := object;
               values := map text index |} :: table).
End PivotTable.

(** *** Columns by label *)

Definition has_label (name : string) (c : column string) : bool :=
  String.eqb (label c) name.

(** The columns labelled [name]. *)
Definition select (name : string) (df : frame string) : frame string :=
  filter (has_label name) df.

Definition drop (name : string) (df : frame string) : frame string :=
  filter (fun c => negb (has_label name c)) df.

(** [df[name]] is a Series when one column has the label and a frame
    when several do. *)
Inductive selection : Type :=
| Series (c : column string)
| DataFrame (cs : frame string).

(** [df[name]] *)
Definition getitem (name : string) (df : frame string) : result selection :=
  match select name df with
  | [] => raise (KeyError [name])
  | [c] => ret (Series c)
  | cs => ret (DataFrame cs)
  end.

(** [df.pop(name)]: [df[name]], and the frame without it. *)
Definition pop (name : string) (df : frame string) : result (selection * frame string) :=
  sel <- getitem name df ;;
  ret (sel, drop name df).

(** [sel.name]: a frame has no such attribute. *)
Definition name (sel : selection) : result string :=
  match sel with
  | Series c => ret (label c)
  | DataFrame _ => raise (AttributeError "'DataFrame' object has no attribute 'name'")
  end.

(** The column of a selection that is used as a Series. *)
Definition series (sel : selection) : result (column string) :=
  match sel with
  | Series c => ret c
  | DataFrame _ => raise (TypeError "a Series is expected")
  end.

(** [df.insert(loc, name, col)] *)
Definition insert (loc : nat) (name : string) (col : column string)
    (df : frame string) : result (frame string) :=
  if Py.mem name (labels df) then
    raise (ValueError ("cannot insert " ++ name ++ ", already exists"))
  else if (List.length df <? loc)%nat then
    raise (IndexError "index out of bounds")
  else
    ret (firstn loc df
         ++ {| label := name; dtype_of := dtype_of col; values := values col |}
         :: skipn loc df).

(** [df[name] = col]: the columns labelled [name] take the new cells, or
    a new last column is added. *)
Definition setitem (name : string) (d : dtype) (vs : list value)
    (df : frame string) : frame string :=
  if Py.mem name (labels df) then
    map (fun c => if has_label name c
                  then {| label := name; dtype_of := d; values := vs |}
                  else c) df
  else df ++ [{| label := name; dtype_of := d; values := vs |}].

(** [df.columns = new_cols] *)
Definition set_columns {K} (new_cols : list string) (df : frame K) : result (frame string) :=
  if Nat.eqb (List.length new_cols) (List.length df) then
    ret (map (fun '(l, c) => {| label := l; dtype_of := dtype_of c;
                                values := values c |}) (combine new_cols df))
  else raise (ValueError "Length mismatch").

(** [df.loc[:, wanted]] *)
Definition loc_columns (wanted : list string) (df : frame string) : result (frame string) :=
  match filter (fun l => negb (Py.mem l (labels df))) wanted with
  | [] => ret (flat_map (fun l => select l df) wanted)
  | not_found => raise (KeyError not_found)
  end.

(** [df.rename(columns=mapping)] *)
Definition rename (mapping : Py.dict) (df : frame string) : frame string :=
  map (fun c => {| label := match Py.get (label c) mapping with
                            | Some l => l
                            | None => label c
                            end;
                   dtype_of := dtype_of c; values := values c |}) df.

(** *** Sums *)

(** A cell as a summand: missing cells are skipped. *)
Definition as_Z (v : value) : Z :=
  match v with
  | num z => z
  | _ => 0%Z
  end.

Definition numeric {L} (df : frame L) : frame L :=
  filter (fun c => is_number (dtype_of c)) df.

Definition add_cells (col : list value) (acc : list Z) : list Z :=
  map (fun '(v, a) => (as_Z v + a)%Z) (combine col acc).

(** [df.sum(numeric_only=True, axis=1)]: one sum per row. *)
Definition sum_rows {L} (df : frame L) : list Z :=
  fold_right (fun c acc => add_cells (values c) acc)
             (repeat 0%Z (height df)) (numeric df).

Definition total (col : list value) : Z :=
  fold_right (fun v acc => (as_Z v + acc)%Z) 0%Z col.

(** [df.sum(numeric_only=True, axis=0)]: one labelled sum per numeric
    column. *)
Definition sum_columns (df : frame string) : list (string * Z) :=
  map (fun c => (label c, total (values c))) (numeric df).

Fixpoint lookup (name : string) (s : list (string * Z)) : option Z :=
  match s with
  | [] => None
  | (l, z) :: rest => if String.eqb l name then Some z else lookup name rest
  end.

Fixpoint unique (l : list string) : bool :=
  match l with
  | [] => true
  | x :: rest => negb (Py.mem x rest) && unique rest
  end.

(** [df.loc[new_row] = s]: the Series is aligned with the columns by label
    (pandas refuses a Series with a repeated label); a column without a
    sum gets a missing cell. *)
Definition append_row (s : list (string * Z)) (df : frame string) : result (frame string) :=
  if unique (map fst s) then
    ret (map (fun c => {| label := label c; dtype_of := dtype_of c;
                          values := values c ++ [match lookup (label c) s with
                                                 | Some z => num z
                                                 | None => nan
                                                 end] |}) df)
  else raise (ValueError "cannot reindex on an axis with duplicate labels").

(** [df[df.eq(0)] = np.nan] *)
Definition blank_zero (v : value) : value :=
  match v with
  | num 0 => nan
  | _ => v
  end.

Definition mask_zero {L} (df : frame L) : frame L := map_values blank_zero df.

Definition set_last (v : value) (col : list value) : list value :=
  removelast col ++ [v].

(** Writing into the last cell of a column; a text makes the column an
    object column. *)
Definition set_last_cell {L} (v : value) (c : column L) : column L :=
  {| label := label c;
     dtype_of := match v with
                 | text _ => object
                 | _ => dtype_of c
                 end;
     values := set_last v (values c) |}.

(** [df.iloc[-1, 0] = v] *)
Definition iloc_last_first (v : value) (df : frame string) : result (frame string) :=
  match df with
  | [] => raise (IndexError "index out of bounds")
  | c :: rest =>
      if Nat.eqb (height df) 0 then raise (IndexError "index out of bounds")
      else ret (set_last_cell v c :: rest)
  end.

(** [df.iloc[-1, -1] = v] *)
Definition iloc_last_last (v : value) (df : frame string) : result (frame string) :=
  match rev df with
  | [] => raise (IndexError "index out of bounds")
  | c :: front =>
      if Nat.eqb (height df) 0 then raise (IndexError "index out of bounds")
      else ret (rev front ++ [set_last_cell v c])
  end.

(** *** [merge(how='outer', on=key)] *)

Fixpoint positions_from (i : nat) (k : value) (keys : list value) : list nat :=
  match keys with
  | [] => []
  | x :: rest =>
      if value_eqb x k then i :: positions_from (S i) k rest
      else positions_from (S i) k rest
  end.

(** The rows of the join for one key: every left row with the key paired
    with every right row with it, or the rows of one side alone. *)
Definition join_key (lkeys rkeys : list value) (k : value)
  : list (value * option nat * option nat) :=
  match positions_from 0 k lkeys, positions_from 0 k rkeys with
  | ls, [] => map (fun l => (k, Some l, None)) ls
  | [], rs => map (fun r => (k, None, Some r)) rs
  | ls, rs => flat_map (fun l => map (fun r => (k, Some l, Some r)) rs) ls
  end.

(** The rows of the outer join, by sorted key. *)
Definition join_rows (lkeys rkeys : list value)
  : list (value * option nat * option nat) :=
  flat_map (join_key lkeys rkeys)
           (sort value_leb (nodup value_dec (lkeys ++ rkeys))).

Definition take (col : list value) (i : option nat) : value :=
  match i with
  | Some n => nth n col nan
  | None => nan
  end.

Definition key_column (key : string) (df : frame string) : result (column string) :=
  match select key df with
  | [] => raise (KeyError [key])
  | [c] => ret c
  | _ => raise (ValueError "The column label is not unique")
  end.

Definition suffixed (others : list string) (suffix : string) (l : string) : string :=
  if Py.mem l others then l ++ suffix else l.

(** [left.merge(right, how='outer', on=key)]: the columns of [left], then
    those of [right] but the key; a label on both sides gets a suffix. *)
Definition merge_outer (key : string) (left right : frame string) : result (frame string) :=
  lk <- key_column key left ;;
  rk <- key_column key right ;;
  let rows := join_rows (values lk) (values rk) in
  let lrest := labels (drop key left) in
  let rrest := labels (drop key right) in
  let from_left (c : column string) :=
    if has_label key c then
      {| label := key; dtype_of := dtype_of c;
         values := map (fun r => fst (fst r)) rows |}
    else
      {| label := suffixed rrest "_x" (label c); dtype_of := dtype_of c;
         values := map (fun r => take (values c) (snd (fst r))) rows |} in
  let from_right (c : column string) :=
    {| label := suffixed lrest "_y" (label c); dtype_of := dtype_of c;
       values := map (fun r => take (values c) (snd r)) rows |} in
  ret (map from_left left ++ map from_right (drop key right)).

(** *** Text and float columns *)

(** [col.str.replace(c, "")]: a cell that is not text becomes missing. *)
Definition str_replace (c : ascii) (col : list value) : list value :=
  map (fun v => match v with
                | text s => text (Py.remove_char c s)
                | _ => nan
                end) col.

(** One cell of [astype(float)]. *)
Definition to_float (v : value) : result F64.float :=
  match v with
  | nan => ret S754_nan
  | num z => ret (F64.of_Z z)
  | text s =>
      match F64.parse s with
      | Some x => ret x
      | None => raise (ValueError "could not convert string to float")
      end
  end.

Fixpoint astype_float (col : list value) : result (list F64.float) :=
  match col with
  | [] => ret []
  | v :: rest =>
      x <- to_float v ;;
      xs <- astype_float rest ;;
      ret (x :: xs)
  end.

(** One cell of [astype(int)]. *)
Definition to_int (v : value) : result value :=
  match v with
  | num z => ret (num z)
  | nan => raise (ValueError "Cannot convert non-finite values (NA or inf) to integer")
  | text _ => raise (ValueError "invalid literal for int()")
  end.

Fixpoint astype_int (col : list value) : result (list value) :=
  match col with
  | [] => ret []
  | v :: rest =>
      x <- to_int v ;;
      xs <- astype_int rest ;;
      ret (x :: xs)
  end.

(** [a / b] on two numeric columns, cell by cell. *)
Definition divide (a b : column string) : result (list F64.float) :=
  if is_number (dtype_of a) && is_number (dtype_of b) then
    xs <- astype_float (values a) ;;
    ys <- astype_float (values b) ;;
    ret (map (fun '(x, y) => F64.div x y) (combine xs ys))
  else raise (TypeError "unsupported operand type(s) for /").

(** [col.str]: only an object column has text methods. *)
Definition str (c : column string) : result (list value) :=
  match dtype_of c with
  | object => ret (values c)
  | number => raise (AttributeError "Can only use .str accessor with string values")
  end.

End Pd.

(** ** The label dictionaries *)

Definition STATUSES : Py.dict :=
  [ ("Declined", "Declined");
    ("Rejected", "Rejected");
    ("Returned", "Returned");
    ("Posted", "Posted");
    ("CR_PARTIC_NAME", "CR_PARTIC_NAME") ].

Definition SUB_STATUSES : Py.dict :=
  [ ("Duplication", " Duplication");
    ("No response from Beneficiary", " No Response");
    ("Amount is invalid or missing", " Amount Invalid");
    ("Already returned original SCT", " Already Returned");
    ("Account number is invalid or missing", " Account Invalid");
    ("Account currency is invalid or missing", " Currency Invalid");
    ("Payment is a duplicate of another payment", " Duplicate Payment");
    ("Reason has not been specified by end customer", " Reason Not Specified");
    ("Creditor account number invalid or missing", " Creditor Account Invalid");
    ("Specific transaction/message amount is greater than allowed maximum", " Amount Exceed");
    ("Transaction forbidden on this type of account (formerly No Agreement)", " Transaction Forbidden");
    ("Account specified is blocked, prohibiting posting of transactions against it", " Account Blocked");
    ("Account number specified has been closed on the bank of accounts books", " Account Specified Closed");
    ("Cancellation requested following technical problems resulting in an erroneous transaction", " Technical Problems");
    ("Specification of the debtor’s name and/or address needed for regulatory requirements is insufficient or missing", " Missing Debtor Name Or Address");
    ("Success", " Success");
    ("Invalid value", " Invalid Value");
    ("Lack of funds", " Lack of Funds");
    ("Wrong rejection motive", " Wrong motive");
    ("Invalid value date", " Invalid value date");
    ("Payment is not found", " Payment not Found");
    ("Document was rejected by timeout", " Timeout");
    ("On-us dynamic QR code payment", " DQRC Payment");
    ("Cancellation requested by the Debtor", " Cancelled by Debtor");
    ("Partial return requested by customer", " Partial return by Customer");
    ("Reason has not been specified by agent", " Reason not specified by Agent");
    ("Return for original payment is already registered", " Return already Registered");
    ("Original credit transfer never received", " Original credit transfer never received");
    ("Amount of funds available to cover specified message amount is insufficient", " Amount Insufficient");
    ("Transaction type not supported/authorized on this account", " Transaction not supported on this account");
    ("Invalid value customer identification (such as CNIC, NTN, POC, etc.)", " Invalid Customer Identification");
    ("Specification of the debtors account or unique identification needed for reasons of regulatory requirements is insufficient or missing", " Regulatory requirements are insufficient") ].

(** ** The aggregators *)

(** [columns="TR_STATUS_NAME"] *)
Definition status_key (t : transaction) : option string :=
  match TR_STATUS_NAME t with
  | Str s => Some s
  | NaN => None
  end.

(** [columns=["TR_STATUS_NAME", "REJECT_MOTIVE_DESCRITION"]] *)
Definition status_motive_key (t : transaction) : option (string * string) :=
  match TR_STATUS_NAME t, REJECT_MOTIVE_DESCRITION t with
  | Str s, Str m => Some (s, m)
  | _, _ => None
  end.

(** The body of the loop over the columns: the new name of the column
    [item], a pair (status, reject motive). *)
Definition new_col_name (item : string * string) : string :=
  let temp_col_name := "" in
  let temp_col_name :=
    if Py.contains (fst item) STATUSES
    then (temp_col_name ++ Py.item (fst item) STATUSES)%string
    else temp_col_name in
  let sub_status := Py.first (Py.rsplit1 "." (snd item)) in
  let sub_status := Py.remove_char "'" sub_status in
  let temp_col_name :=
    if Py.contains sub_status SUB_STATUSES
    then (temp_col_name ++ Py.item sub_status SUB_STATUSES)%string
    else temp_col_name in
  temp_col_name.

(** The loop: [new_cols.append(temp_col_name)] for each column in turn. *)
Definition rename_loop (cols : list (string * string)) : list string :=
  fold_left (fun new_cols item => new_cols ++ [new_col_name item]) cols [].

(** ['{0:.2f}%'.format(x)] *)
Definition percent (x : F64.float) : string := (F64.format_2f x ++ "%")%string.

(** The index of the creditor pivot, as [reset_index] labels it among
    two-level columns. *)
Definition CR_INDEX : string * string := ("CR_PARTIC_NAME", "").

(** The first statement of [extract_creditor_details]: the pivot of the
    counts by creditor and by (status, reject motive), index reset. *)
Definition creditor_pivot (df_cred : list transaction) : result (Pd.frame (string * string)) :=
  Pd.reset_index pair_dec pair_str CR_INDEX
    (Pd.pivot_table pair_dec pair_leb
       CR_PARTIC_NAME status_motive_key ENDTOENDID df_cred).

(** [extract_creditor_details] *)
Definition extract_creditor_details (df_cred : list transaction) : result (Pd.frame string) :=
  df_cred <- creditor_pivot df_cred ;;
  let df_cred := Pd.fillna (Pd.num 0) df_cred in
  let cols := Pd.labels df_cred in
  let new_cols := rename_loop cols in
  df_cred <- Pd.set_columns new_cols df_cred ;;
  popped <- Pd.pop "Posted" df_cred ;;
  let '(col_posted, df_cred) := popped in
  name <- Pd.name col_posted ;;
  col_posted <- Pd.series col_posted ;;
  df_cred <- Pd.insert 1 name col_posted df_cred ;;
  let df_cred :=
    Pd.setitem "Grand Total" Pd.number (map Pd.num (Pd.sum_rows df_cred)) df_cred in
  posted <- (sel <- Pd.getitem "Posted" df_cred ;; Pd.series sel) ;;
  grand_total <- (sel <- Pd.getitem "Grand Total" df_cred ;; Pd.series sel) ;;
  ratio <- Pd.divide posted grand_total ;;
  (* the float column [df_cred['Success']], before it is formatted *)
  let success := map (fun x => F64.mul x (F64.of_Z 100)) ratio in
  let df_cred :=
    Pd.setitem "Success" Pd.object
               (map (fun x => Pd.text (percent x)) success) df_cred in
  ret (Pd.rename [("CR_PARTIC_NAME", "PARTICIPANT_NAME");
                  ("Posted", "Received Posted")] df_cred).

(** The first statement of [extract_debitor_details]: the pivot of the
    counts by debtor and by status, index reset. *)
Definition debitor_pivot (df_deb : list transaction) : result (Pd.frame string) :=
  Pd.reset_index string_dec (fun name => name) "DB_PARTIC_NAME"
    (Pd.pivot_table string_dec String.leb
       DB_PARTIC_NAME status_key ENDTOENDID df_deb).

(** [extract_debitor_details] *)
Definition extract_debitor_details (df_deb : list transaction) : result (Pd.frame string) :=
  df_deb <- debitor_pivot df_deb ;;
  df_deb <- Pd.loc_columns ["DB_PARTIC_NAME"; "Posted"] df_deb ;;
  let df_deb := Pd.fillna (Pd.num 0) df_deb in
  posted <- (sel <- Pd.getitem "Posted" df_deb ;; Pd.series sel) ;;
  posted <- Pd.astype_int (Pd.values posted) ;;
  let df_deb := Pd.setitem "Posted" Pd.number posted df_deb in
  ret (Pd.rename [("DB_PARTIC_NAME", "PARTICIPANT_NAME");
                  ("Posted", "Sent Posted")] df_deb).

(** ** The reconciler *)

(** [post_processing] *)
Definition post_processing (df1 df2 : Pd.frame string) : result (Pd.frame string) :=
  df_merged <- Pd.merge_outer "PARTICIPANT_NAME" df1 df2 ;;
  let df_merged := Pd.fillna (Pd.num 0) df_merged in
  df_merged <- Pd.append_row (Pd.sum_columns df_merged) df_merged ;;
  let df_merged := Pd.mask_zero df_merged in
  df_merged <- Pd.iloc_last_first (Pd.text "GRAND TOTAL") df_merged ;;
  success <- (sel <- Pd.getitem "Success" df_merged ;; Pd.series sel) ;;
  success <- Pd.str success ;;
  success <- Pd.astype_float (Pd.str_replace "%" success) ;;
  let avg_success := F64.mean success in
  Pd.iloc_last_last (Pd.text (percent avg_success)) df_merged.

(** The pipeline of the main block, up to the report that is saved. *)
Definition report (fs : filesystem) (source_path : string) (all_files : list string)
  : result (Pd.frame string) :=
  df <- merge_files fs source_path all_files ;;
  df_debit <- extract_debitor_details df ;;
  df_credit <- extract_creditor_details df ;;
  post_processing df_debit df_credit.

(** ** Vocabulary of the statements *)

(** A corpus in which no cell is missing, as [merge_files] leaves it. *)
Definition filled (t : transaction) : Prop :=
  ENDTOENDID t <> NaN /\ DB_PARTIC_NAME t <> NaN /\ CR_PARTIC_NAME t <> NaN /\
  TR_STATUS_NAME t <> NaN /\ BANK_OP_CODE t <> NaN /\
  REJECT_MOTIVE_DESCRITION t <> NaN.

(** What the loop of [merge_files] keeps true of every row of [data]. *)
Definition clean (t : transaction) : Prop :=
  BANK_OP_CODE t <> Str "CSDC" /\ BANK_OP_CODE t <> Str "PMCT".

(** *** The column names, in the words of the specification *)

Fixpoint has_char (c : ascii) (s : string) : bool :=
  match s with
  | EmptyString => false
  | String a rest => Ascii.eqb a c || has_char c rest
  end.

(** The text without its last [c] and the segment that follows it; a text
    without [c] is left as it is. *)
Fixpoint strip_qualifier (c : ascii) (s : string) : string :=
  match s with
  | EmptyString => EmptyString
  | String a rest =>
      if Ascii.eqb a c && negb (has_char c rest) then EmptyString
      else String a (strip_qualifier c rest)
  end.

(** The text without its quote characters. *)
Definition strip_quotes (s : string) : string :=
  string_of_list_ascii
    (filter (fun a => negb (Ascii.eqb a "'")) (list_ascii_of_string s)).

(** The label a dictionary gives a text, or nothing. *)
Definition label_or_empty (d : Py.dict) (k : string) : string :=
  match Py.get k d with
  | Some l => l
  | None => ""
  end.

(** The status label first, then the label of the residual motive. *)
Definition spec_column_name (item : string * string) : string :=
  (label_or_empty STATUSES (fst item)
   ++ label_or_empty SUB_STATUSES (strip_quotes (strip_qualifier "." (snd item))))%string.

(** [s] occurs in [t]. *)
Definition occurs (s t : string) : bool :=
  match String.index 0 s t with
  | Some _ => true
  | None => false
  end.

(** The text an exception carries mentions [s]. *)
Definition mentions (e : exn) (s : string) : bool :=
  match e with
  | KeyError labels => existsb (occurs s) labels
  | FileNotFoundError msg | ValueError msg | AttributeError msg
  | TypeError msg | IndexError msg => occurs s msg
  end.

(** *** The aggregates, column by column *)

(** The labels of the debtor pivot: its index and its columns. *)
Definition debtors (data : list transaction) : list string :=
  Pd.index_labels DB_PARTIC_NAME status_key data.

Definition statuses (data : list transaction) : list string :=
  Pd.column_labels string_dec String.leb DB_PARTIC_NAME status_key data.

Definition debtor_count (data : list transaction) (n s : string) : Z :=
  Pd.count string_dec DB_PARTIC_NAME status_key ENDTOENDID n s data.

(** The labels of the creditor pivot: its index and its columns. *)
Definition creditors (data : list transaction) : list string :=
  Pd.index_labels CR_PARTIC_NAME status_motive_key data.

Definition combinations (data : list transaction) : list (string * string) :=
  Pd.column_labels pair_dec pair_leb CR_PARTIC_NAME status_motive_key data.

Definition creditor_count (data : list transaction) (n : string) (k : string * string) : Z :=
  Pd.count pair_dec CR_PARTIC_NAME status_motive_key ENDTOENDID n k data.

(** The columns that the loop names "Posted". *)
Definition names_posted (k : string * string) : bool :=
  String.eqb (new_col_name k) "Posted".

(** The sum of the counts of row [n] over the columns [ks]. *)
Definition row_total {K} (cnt : string -> K -> Z) (ks : list K) (n : string) : Z :=
  fold_right (fun k acc => (cnt n k + acc)%Z) 0%Z ks.

(** [posted / total * 100] in binary64, as the percentage text. *)
Definition success_of (posted total : Z) : string :=
  percent (F64.mul (F64.div (F64.of_Z posted) (F64.of_Z total)) (F64.of_Z 100)).

(** The last [rename] of [extract_creditor_details], on one label. *)
Definition renamed (l : string) : string :=
  match Py.get l [("CR_PARTIC_NAME", "PARTICIPANT_NAME"); ("Posted", "Received Posted")] with
  | Some l' => l'
  | None => l
  end.

(** The creditor aggregate, when [k0] is the one column named "Posted" and
    [others] are the other columns of the pivot. *)
Definition creditor_frame (data : list transaction) (k0 : string * string)
    (others : list (string * string)) : Pd.frame string :=
  let idx := creditors data in
  let cnt := creditor_count data in
  {| Pd.label := "PARTICIPANT_NAME"; Pd.dtype_of := Pd.object;
     Pd.values := map Pd.text idx |}
  :: {| Pd.label := "Received Posted"; Pd.dtype_of := Pd.number;
        Pd.values := map (fun n => Pd.num (cnt n k0)) idx |}
  :: map (fun k => {| Pd.label := renamed (new_col_name k); Pd.dtype_of := Pd.number;
                      Pd.values := map (fun n => Pd.num (cnt n k)) idx |}) others
  ++ [ {| Pd.label := "Grand Total"; Pd.dtype_of := Pd.number;
          Pd.values := map (fun n => Pd.num (row_total cnt (k0 :: others) n)) idx |};
       {| Pd.label := "Success"; Pd.dtype_of := Pd.object;
          Pd.values := map (fun n => Pd.text (success_of (cnt n k0)
                                                (row_total cnt (k0 :: others) n))) idx |} ].

(** Every name the loop can give a column. *)
Definition derived_names : list string :=
  flat_map (fun a => map (fun b => (a ++ b)%string) ("" :: map snd SUB_STATUSES))
           ("" :: map snd STATUSES).

(** The number of rows of a corpus with debtor [n] and status [s]. *)
Definition sent (corpus : list transaction) (n s : string) : Z :=
  Z.of_nat (List.length
    (filter (fun t => cell_eqb (DB_PARTIC_NAME t) (Str n)
                      && cell_eqb (TR_STATUS_NAME t) (Str s)) corpus)).

(** The sum of the cells of row [i] over the columns [cols]. *)
Definition cells_sum (cols : Pd.frame string) (i : nat) : Z :=
  fold_right (fun c acc => (Pd.as_Z (nth i (Pd.values c) Pd.nan) + acc)%Z) 0%Z cols.



(** *** The shape of a percentage text *)

Definition is_digit (a : ascii) : bool :=
  match F64.digit_value a with
  | Some _ => true
  | None => false
  end.

Fixpoint all_digits (s : string) : bool :=
  match s with
  | EmptyString => true
  | String a rest => is_digit a && all_digits rest
  end.

(** Two digits, then "%", and nothing more. *)
Definition decimals_percent (s : string) : bool :=
  match s with
  | String a (String b (String c EmptyString)) =>
      is_digit a && is_digit b && Ascii.eqb c "%"
  | _ => false
  end.

(** Digits up to a point, at least one ([seen]), then two decimals and "%". *)
Fixpoint digits_then_decimals (seen : bool) (s : string) : bool :=
  match s with
  | EmptyString => false
  | String a rest =>
      if Ascii.eqb a "." then seen && decimals_percent rest
      else is_digit a && digits_then_decimals true rest
  end.

(** A number with exactly two decimal places, followed by "%". *)
Definition two_decimal_percent (s : string) : bool :=
  digits_then_decimals false s.

(** *** Examples *)

Definition row (e d c s o m : string) : transaction :=
  {| ENDTOENDID := Str e; DB_PARTIC_NAME := Str d; CR_PARTIC_NAME := Str c;
     TR_STATUS_NAME := Str s; BANK_OP_CODE := Str o;
     REJECT_MOTIVE_DESCRITION := Str m |}.

(** An extract with the six columns (and one more), in another order. *)
Definition sheet_a : sheet :=
  {| header := ["BANK_OP_CODE"; "ENDTOENDID"; "AMOUNT"; "DB_PARTIC_NAME";
                "CR_PARTIC_NAME"; "TR_STATUS_NAME"; "REJECT_MOTIVE_DESCRITION"];
     body := [ [Str "CTWA"; Str "e1"; Str "10"; Str "X"; Str "Y"; Str "Posted"; NaN];
               [Str "CSDC"; Str "e2"; Str "20"; Str "X"; Str "Y"; Str "Posted"; NaN];
               [Str "CTAA"; Str "e3"; NaN; Str "X"; Str "Y"; Str "Declined"; Str "Lack of funds.1"];
               [Str "PMCT"; Str "e4"; NaN; Str "Y"; Str "X"; Str "Posted"; NaN];
               [NaN; Str "e5"; NaN; Str "Y"; Str "X"; Str "Posted"; NaN] ] |}.

(** An extract without the operation-code column. *)
Definition sheet_b : sheet :=
  {| header := ["ENDTOENDID"; "DB_PARTIC_NAME"; "CR_PARTIC_NAME";
                "TR_STATUS_NAME"; "REJECT_MOTIVE_DESCRITION"];
     body := [ [Str "e1"; Str "X"; Str "Y"; Str "Posted"; NaN] ] |}.

Definition disk : filesystem :=
  fun path =>
    if String.eqb path "/in/a.xlsx" then Some sheet_a
    else if String.eqb path "/in/b.xlsx" then Some sheet_b
    else None.

(** The corpus built from the first extract alone. *)
Definition corpus_a : list transaction :=
  [ row "e1" "X" "Y" "Posted" "CTWA" "";
    row "e3" "X" "Y" "Declined" "CTAA" "Lack of funds.1";
    row "e5" "Y" "X" "Posted" "" "" ].

(** A corpus of one row, whose status is the name of a column. *)
Definition corpus_c : list transaction :=
  [ row "e1" "X" "Y" "DB_PARTIC_NAME" "CTWA" "" ].

(** The two aggregates of [corpus_a] and the report, computed. *)
Definition credit_a : Pd.frame string :=
  Eval vm_compute in
    match extract_creditor_details corpus_a with
    | inr agg => agg
    | inl _ => []
    end.

Definition debit_a : Pd.frame string :=
  Eval vm_compute in
    match extract_debitor_details corpus_a with
    | inr agg => agg
    | inl _ => []
    end.

Definition report_a : Pd.frame string :=
  Eval vm_compute in
    match post_processing debit_a credit_a with
    | inr df => df
    | inl _ => []
    end.

(** ** The colouring of the success column *)

(** [s.split(c)[0]]: the text before the first [c]. *)
Fixpoint split_first (c : ascii) (s : string) : string :=
  match s with
  | EmptyString => EmptyString
  | String a rest =>
      if Ascii.eqb a c then EmptyString else String a (split_first c rest)
  end.

(** [x > y] on floats: false when either is NaN. *)
Definition float_gt (x y : F64.float) : bool :=
  match SFcompare x y with
  | Some Gt => true
  | _ => false
  end.

(** [highlight]: one style for each cell of the column [s].  The text of a
    cell is cut at its first "%" and read as a float; a cell without text
    is a missing number, which is not above 97. *)
Definition highlight (s : Pd.column string) : result (list string) :=
  texts <- Pd.str s ;;
  let heads := map (fun v => match v with
                             | Pd.text t => Pd.text (split_first "%" t)
                             | _ => Pd.nan
                             end) texts in
  numbers <- Pd.astype_float heads ;;
  let res := map (fun x => float_gt x (F64.of_Z 97)) numbers in
  ret (map (fun v : bool => if v then "background-color: red"
                            else "background-color: green") res).

(** ** Vocabulary of further statements *)

From Stdlib Require Sorting.Sorted.

(** The rows an extract gives the corpus: its rows on the six columns, but
    those of the excluded operation codes, missing cells filled. *)
Definition kept_rows (sh : sheet) : list transaction :=
  map fillna_empty (filter keep_op_code (map (project (header sh)) (body sh))).

(** An extract that [filter_file] accepts at [path]. *)
Definition loads (fs : filesystem) (path : string) (sh : sheet) : Prop :=
  fs path = Some sh /\ missing_columns (header sh) required_columns = [].


(** The number of rows of a corpus with creditor [n], status [s] and reject
    motive [m]. *)
Definition received (corpus : list transaction) (n s m : string) : Z :=
  Z.of_nat (List.length
    (filter (fun t => cell_eqb (CR_PARTIC_NAME t) (Str n)
                      && cell_eqb (TR_STATUS_NAME t) (Str s)
                      && cell_eqb (REJECT_MOTIVE_DESCRITION t) (Str m)) corpus)).

(** The column of the participant names of an aggregate. *)
Definition names_column (names : list string) : Pd.column string :=
  {| Pd.label := "PARTICIPANT_NAME"; Pd.dtype_of := Pd.object;
     Pd.values := map Pd.text names |}.

(** The count column of the creditor aggregate for the status and the
    reject motive [k], under its final label. *)
Definition received_column (corpus : list transaction) (names : list string)
    (k : string * string) : Pd.column string :=
  {| Pd.label := renamed (new_col_name k); Pd.dtype_of := Pd.number;
     Pd.values := map (fun n => Pd.num (received corpus n (fst k) (snd k))) names |}.

(** The order of Python on texts, strict. *)
Definition ascending (a b : string) : Prop := String.compare a b = Lt.

(** A reject motive that leaves the name "Posted" as it is: some row of the
    corpus is posted with it, and the loop finds no label for it. *)
Definition posted_motive (corpus : list transaction) (m : string) : Prop :=
  (exists t, In t corpus /\ TR_STATUS_NAME t = Str "Posted"
             /\ REJECT_MOTIVE_DESCRITION t = Str m) /\
  new_col_name ("Posted", m) = "Posted".

(** The participants of two aggregates: the names of either, each once, in
    the order of Python on texts. *)
Definition participants (left right : list string) : list string :=
  sort String.leb (nodup string_dec (left ++ right)).

(** The first place of a value in a column. *)
Fixpoint find_value (v : Pd.value) (col : list Pd.value) : option nat :=
  match col with
  | [] => None
  | x :: rest =>
      if Pd.value_eqb x v then Some 0 else option_map S (find_value v rest)
  end.

(** The row of the participant [n] in a frame whose first column holds the
    names. *)
Definition row_of (n : string) (df : Pd.frame string) : option nat :=
  match df with
  | [] => None
  | names :: _ => find_value (Pd.text n) (Pd.values names)
  end.

(** The cell of the column [c] of [df] in the row of [n]; it is missing when
    [n] has no row. *)
Definition cell_of (df : Pd.frame string) (c : Pd.column string) (n : string) : Pd.value :=
  Pd.take (Pd.values c) (row_of n df).

(** The column [c'] of the report shows the column [c] of the aggregate
    [df]: under the same label, for each participant the cell of the
    aggregate, blank when it is zero; then one cell for the last row. *)
Definition shown (df : Pd.frame string) (names : list string)
    (c c' : Pd.column string) : Prop :=
  Pd.label c' = Pd.label c /\
  List.length (Pd.values c') = S (List.length names) /\
  forall i, i < List.length names ->
    nth i (Pd.values c') Pd.nan = Pd.blank_zero (cell_of df c (nth i names "")).

(** A column of the report against the column of the merged frame it comes
    from: the cells of the merged column, zeros blanked, and the cell of
    the last row. *)
Definition reported (c c' : Pd.column string) : Prop :=
  Pd.label c' = Pd.label c /\
  exists x, Pd.values c' = map Pd.blank_zero (Pd.values c) ++ [x]
            /\ x <> Pd.num 0.

(** A cell of a success column: a percentage of [q] hundredths, or
    nothing. *)
Definition percentage_cell (q : option Z) : Pd.value :=
  match q with
  | Some q => Pd.text (F64.fixed2 q ++ "%")
  | None => Pd.nan
  end.

(** The style of such a cell: red above 97 percent, green otherwise. *)
Definition style_of (q : option Z) : string :=
  match q with
  | Some q => if (9700 <? q)%Z then "background-color: red"
              else "background-color: green"
  | None => "background-color: green"
  end.

(** What [highlight] does with one percentage of [n] hundredths, checked
    against [style_of]. *)
Definition highlight_agrees (n : nat) : bool :=
  let q := Z.of_nat n in
  match F64.parse (split_first "%" (F64.fixed2 q ++ "%")) with
  | Some x => Bool.eqb (float_gt x (F64.of_Z 97)) (9700 <? q)%Z
  | None => false
  end.

(** *** Further examples *)

(** A source folder given by a relative path. *)
Definition disk_rel : filesystem :=
  fun path => if String.eqb path "in/a.xlsx" then Some sheet_a else None.

(** A corpus with posted rows under two reject motives without a label. *)
Definition corpus_d : list transaction :=
  [ row "e1" "X" "Y" "Posted" "CTWA" "";
    row "e2" "X" "Y" "Posted" "CTWA" "Done" ].

(** The extract that gives [corpus_d]. *)
Definition sheet_d : sheet :=
  {| header := required_columns;
     body := [ [Str "e1"; Str "X"; Str "Y"; Str "Posted"; Str "CTWA"; NaN];
               [Str "e2"; Str "X"; Str "Y"; Str "Posted"; Str "CTWA"; Str "Done"] ] |}.

Definition disk_d : filesystem :=
  fun path => if String.eqb path "/in/d.xlsx" then Some sheet_d else None.

(** The creditor pivot of the example corpus, computed. *)
Definition pivot_a : Pd.frame (string * string) :=
  Eval vm_compute in
    match creditor_pivot corpus_a with
    | inr pv => pv
    | inl _ => []
    end.
(** * Properties *)

(** ** Basic facts *)

Lemma mem_In (x : string) (l : list string) : Py.mem x l = true <-> In x l.
Proof.
  unfold Py.mem. rewrite existsb_exists. split.
  - intros [y [Hy He]]. apply String.eqb_eq in He. now subst.
  - intros H. exists x. split; [assumption | apply String.eqb_refl].
Qed.

Lemma mem_false (x : string) (l : list string) : Py.mem x l = false <-> ~ In x l.
Proof.
  rewrite <- mem_In. destruct (Py.mem x l); split; congruence.
Qed.

Lemma bind_inr {A B} (m : result A) (k : A -> result B) (b : B) :
  bind m k = inr b -> exists a, m = inr a /\ k a = inr b.
Proof.
  destruct m as [e | a]; simpl; [discriminate |]. intros H. now exists a.
Qed.

(** ** The corpus builder *)

Lemma ne_true_iff (c : cell) (s : string) : ne c s = true <-> c <> Str s.
Proof.
  destruct c as [| x]; simpl.
  - split; [discriminate | reflexivity].
  - rewrite negb_true_iff, String.eqb_neq. split; congruence.
Qed.

Lemma fill_not_nan (c : cell) : fill c <> NaN.
Proof. destruct c; discriminate. Qed.

Lemma fill_ne (c : cell) (s : string) : s <> "" -> c <> Str s -> fill c <> Str s.
Proof. destruct c; simpl; congruence. Qed.

Lemma fillna_empty_filled (t : transaction) : filled (fillna_empty t).
Proof. repeat split; apply fill_not_nan. Qed.

Lemma filter_file_kept (fs : filesystem) (file_name : string) (df : list transaction) :
  filter_file fs file_name = inr df ->
  forall t, In t df -> keep_op_code t = true.
Proof.
  unfold filter_file. destruct (fs file_name) as [sh |]; [| discriminate].
  intros H. apply bind_inr in H. destruct H as [rows [_ H]].
  injection H as <-. intros t Ht. apply filter_In in Ht. tauto.
Qed.

Lemma keep_op_code_clean (t : transaction) : keep_op_code t = true -> clean t.
Proof.
  unfold keep_op_code, clean. rewrite andb_true_iff, !ne_true_iff. tauto.
Qed.

Lemma fillna_empty_clean (t : transaction) : clean t -> clean (fillna_empty t).
Proof.
  unfold clean. intros [H1 H2]. simpl. split; apply fill_ne; congruence.
Qed.

Lemma merge_loop_invariant (fs : filesystem) (src : string) (files : list string) :
  forall data corpus,
    merge_loop fs src files data = inr corpus ->
    Forall clean data ->
    Forall clean corpus.
Proof.
  induction files as [| f rest IH]; intros data corpus H Hdata; simpl in H.
  - injection H as <-. assumption.
  - apply bind_inr in H. destruct H as [[] [_ H]].
    apply bind_inr in H. destruct H as [temp [Htemp H]].
    apply IH in H; [assumption |].
    rewrite Forall_forall. intros t Ht.
    apply in_map_iff in Ht. destruct Ht as [u [<- Hu]].
    apply fillna_empty_clean. apply in_app_or in Hu. destruct Hu as [Hu | Hu].
    + rewrite Forall_forall in Hdata. now apply Hdata.
    + apply keep_op_code_clean. eapply filter_file_kept; eassumption.
Qed.

Lemma merge_loop_filled (fs : filesystem) (src : string) (files : list string) :
  forall data corpus,
    merge_loop fs src files data = inr corpus ->
    Forall filled data ->
    Forall filled corpus.
Proof.
  induction files as [| f rest IH]; intros data corpus H Hdata; simpl in H.
  - injection H as <-. assumption.
  - apply bind_inr in H. destruct H as [[] [_ H]].
    apply bind_inr in H. destruct H as [temp [Htemp H]].
    apply IH in H; [assumption |].
    rewrite Forall_forall. intros t Ht.
    apply in_map_iff in Ht. destruct Ht as [u [<- Hu]].
    apply fillna_empty_filled.
Qed.

(** Every cell of the Unified Corpus is present. *)
Lemma merge_files_filled (fs : filesystem) (src : string) (files : list string)
    (corpus : list transaction) :
  merge_files fs src files = inr corpus -> Forall filled corpus.
Proof.
  intros H. eapply merge_loop_filled; [exact H | constructor].
Qed.

(** C4. No row of the Unified Corpus has the operation code CSDC or PMCT,
    whatever the extracts hold. *)
Theorem merge_files_excludes_op_codes
    (fs : filesystem) (source_path : string) (files : list string)
    (corpus : list transaction) :
  merge_files fs source_path files = inr corpus ->
  forall t, In t corpus ->
    BANK_OP_CODE t <> Str "CSDC" /\ BANK_OP_CODE t <> Str "PMCT".
Proof.
  intros H t Ht.
  assert (Hall : Forall clean corpus).
  { eapply merge_loop_invariant; [exact H | constructor]. }
  rewrite Forall_forall in Hall. exact (Hall t Ht).
Qed.

Lemma merge_files_excludes_op_codes_witness :
  merge_files disk "/in" ["a.xlsx"]
    = inr [row "e1" "X" "Y" "Posted" "CTWA" "";
           row "e3" "X" "Y" "Declined" "CTAA" "Lack of funds.1";
           row "e5" "Y" "X" "Posted" "" ""] /\
  forall t, In t [row "e1" "X" "Y" "Posted" "CTWA" "";
                  row "e3" "X" "Y" "Declined" "CTAA" "Lack of funds.1";
                  row "e5" "Y" "X" "Posted" "" ""] ->
    BANK_OP_CODE t <> Str "CSDC" /\ BANK_OP_CODE t <> Str "PMCT".
Proof.
  split; [reflexivity |].
  apply (merge_files_excludes_op_codes disk "/in" ["a.xlsx"]). reflexivity.
Defined.

(** ** The record filter *)

Lemma missing_columns_spec (h wanted : list string) (c : string) :
  In c (missing_columns h wanted) <-> In c wanted /\ ~ In c h.
Proof.
  unfold missing_columns. rewrite filter_In, negb_true_iff, mem_false. tauto.
Qed.

Lemma filter_file_raises (fs : filesystem) (file_name : string) (sh : sheet) :
  fs file_name = Some sh ->
  missing_columns (header sh) required_columns <> [] ->
  filter_file fs file_name
    = inl (KeyError (missing_columns (header sh) required_columns)).
Proof.
  intros Hfs Hne. unfold filter_file, loc_required. rewrite Hfs.
  destruct (missing_columns (header sh) required_columns); [congruence | reflexivity].
Qed.

Lemma merge_loop_raises (fs : filesystem) (src : string) (file_name : string)
    (sh : sheet) (files : list string) :
  fs file_name = Some sh ->
  missing_columns (header sh) required_columns <> [] ->
  (exists f, In f files /\ Py.join src f = file_name) ->
  forall data, exists e, merge_loop fs src files data = inl e.
Proof.
  intros Hfs Hne. induction files as [| f rest IH]; intros [g [Hg Hjoin]] data.
  - destruct Hg.
  - simpl.
    destruct (check_file_exists fs (Py.join src f) "Sheet Not Found!") as [e | []];
      [now exists e |].
    simpl. destruct Hg as [-> | Hg].
    + rewrite Hjoin, (filter_file_raises fs file_name sh Hfs Hne). simpl. eauto.
    + destruct (filter_file fs (Py.join src f)) as [e | temp]; [now exists e |].
      simpl. apply IH. eauto.
Qed.

(** C8, as the code has it.  An extract that lacks a required column makes
    the record filter raise pandas' [KeyError], which carries exactly the
    missing columns (and not the file); the corpus builder does not catch
    it, so a run over such an extract fails as a whole. *)
Theorem filter_file_missing_column
    (fs : filesystem) (file_name : string) (sh : sheet) :
  fs file_name = Some sh ->
  (exists c, In c required_columns /\ ~ In c (header sh)) ->
  let not_found := missing_columns (header sh) required_columns in
  filter_file fs file_name = inl (KeyError not_found) /\
  not_found <> [] /\
  (forall c, In c not_found <-> In c required_columns /\ ~ In c (header sh)) /\
  (forall source_path files,
      (exists f, In f files /\ Py.join source_path f = file_name) ->
      exists e, merge_files fs source_path files = inl e).
Proof.
  intros Hfs [c Hc] not_found.
  assert (Hne : not_found <> []).
  { intros Hnil. apply missing_columns_spec in Hc. fold not_found in Hc.
    rewrite Hnil in Hc. destruct Hc. }
  split; [now apply filter_file_raises |].
  split; [assumption |].
  split; [intros; apply missing_columns_spec |].
  intros src files Hf. unfold merge_files.
  eapply merge_loop_raises; eassumption.
Qed.

Lemma filter_file_missing_column_witness :
  filter_file disk "/in/b.xlsx" = inl (KeyError ["BANK_OP_CODE"]) /\
  exists e, merge_files disk "/in" ["a.xlsx"; "b.xlsx"] = inl e.
Proof.
  assert (Hc : exists c, In c required_columns /\ ~ In c (header sheet_b)).
  { exists "BANK_OP_CODE". split; [simpl; tauto |].
    simpl. intuition discriminate. }
  destruct (filter_file_missing_column disk "/in/b.xlsx" sheet_b eq_refl Hc)
    as [H1 [_ [_ H4]]].
  split; [exact H1 |].
  apply H4. exists "b.xlsx". split; [simpl; tauto | reflexivity].
Defined.

(** C8, as the specification words it, fails: the error raised for an extract
    without its operation-code column is a [KeyError] whose text does not
    name the file. *)
Lemma filter_file_error_omits_file :
  filter_file disk "/in/b.xlsx" = inl (KeyError ["BANK_OP_CODE"]) /\
  ~ (exists e, filter_file disk "/in/b.xlsx" = inl e /\
               mentions e "/in/b.xlsx" = true).
Proof.
  split; [reflexivity |].
  intros [e [He Hm]]. vm_compute in He. injection He as <-.
  vm_compute in Hm. discriminate.
Qed.

(** ** The column names *)

Lemma rename_loop_map_from (cols : list (string * string)) :
  forall acc,
    fold_left (fun new_cols item => new_cols ++ [new_col_name item]) cols acc
    = acc ++ map new_col_name cols.
Proof.
  induction cols as [| item rest IH]; intros acc; simpl.
  - now rewrite app_nil_r.
  - rewrite IH, <- app_assoc. reflexivity.
Qed.

Lemma rename_loop_map (cols : list (string * string)) :
  rename_loop cols = map new_col_name cols.
Proof. unfold rename_loop. now rewrite rename_loop_map_from. Qed.

Lemma scan_right_absent (c : ascii) (l : list ascii) :
  forall seen, ~ In c l -> Py.scan_right c l seen = (rev l ++ seen, None).
Proof.
  induction l as [| a rest IH]; intros seen Hc; simpl; [reflexivity |].
  destruct (Ascii.eqb_spec a c) as [-> | Hne].
  - exfalso. apply Hc. now left.
  - rewrite IH by (intros H; apply Hc; now right).
    now rewrite <- app_assoc.
Qed.

Lemma scan_right_found (c : ascii) (l1 l2 : list ascii) :
  forall seen, ~ In c l1 ->
    Py.scan_right c (l1 ++ c :: l2) seen = (rev l1 ++ seen, Some l2).
Proof.
  induction l1 as [| a rest IH]; intros seen Hc; simpl.
  - now rewrite Ascii.eqb_refl.
  - destruct (Ascii.eqb_spec a c) as [-> | Hne].
    + exfalso. apply Hc. now left.
    + rewrite IH by (intros H; apply Hc; now right).
      now rewrite <- app_assoc.
Qed.

Lemma has_char_In (c : ascii) (s : string) :
  has_char c s = true <-> In c (list_ascii_of_string s).
Proof.
  induction s as [| a rest IH]; simpl.
  - split; [discriminate | tauto].
  - rewrite orb_true_iff, IH, Ascii.eqb_eq. tauto.
Qed.

Lemma strip_qualifier_absent (c : ascii) (s : string) :
  has_char c s = false -> strip_qualifier c s = s.
Proof.
  induction s as [| a rest IH]; simpl; [reflexivity |].
  intros H. apply orb_false_iff in H. destruct H as [Ha Hrest].
  rewrite Ha. simpl. now rewrite IH.
Qed.

Lemma strip_qualifier_last (c : ascii) (p q : list ascii) :
  ~ In c q ->
  strip_qualifier c (string_of_list_ascii (p ++ c :: q)) = string_of_list_ascii p.
Proof.
  intros Hq. induction p as [| a rest IH]; simpl.
  - rewrite Ascii.eqb_refl. simpl.
    destruct (has_char c (string_of_list_ascii q)) eqn:E; [| reflexivity].
    apply has_char_In in E. rewrite list_ascii_of_string_of_list_ascii in E.
    contradiction.
  - assert (E : has_char c (string_of_list_ascii (rest ++ c :: q)) = true).
    { apply has_char_In. rewrite list_ascii_of_string_of_list_ascii.
      apply in_or_app. right. now left. }
    rewrite E, andb_false_r, IH. reflexivity.
Qed.

(** The last occurrence of a character that occurs. *)
Lemma last_occurrence (c : ascii) (l : list ascii) :
  In c l -> exists p q, l = p ++ c :: q /\ ~ In c q.
Proof.
  induction l as [| a rest IH]; intros H; [destruct H |].
  destruct (in_dec ascii_dec c rest) as [Hin | Hout].
  - destruct (IH Hin) as [p [q [-> Hq]]]. exists (a :: p), q. now split.
  - destruct H as [-> | H]; [| contradiction].
    exists [], rest. now split.
Qed.

(** [rsplit] keeps, as its first piece, what the specification describes. *)
Lemma rsplit1_first (c : ascii) (s : string) :
  Py.first (Py.rsplit1 c s) = strip_qualifier c s.
Proof.
  unfold Py.rsplit1.
  destruct (in_dec ascii_dec c (list_ascii_of_string s)) as [Hin | Hout].
  - destruct (last_occurrence c _ Hin) as [p [q [E Hq]]].
    rewrite E, rev_app_distr. simpl. rewrite <- app_assoc. simpl.
    rewrite scan_right_found by (now rewrite <- in_rev).
    simpl. rewrite rev_involutive.
    rewrite <- (string_of_list_ascii_of_string s) at 1. rewrite E.
    symmetry. now apply strip_qualifier_last.
  - rewrite scan_right_absent by (now rewrite <- in_rev).
    simpl. symmetry. apply strip_qualifier_absent.
    destruct (has_char c s) eqn:E; [| reflexivity].
    apply has_char_In in E. contradiction.
Qed.

Lemma remove_char_quotes (s : string) : Py.remove_char "'" s = strip_quotes s.
Proof.
  unfold strip_quotes. induction s as [| a rest IH]; simpl; [reflexivity |].
  destruct (Ascii.eqb a "'"); simpl; now rewrite IH.
Qed.

Lemma dict_label (d : Py.dict) (k : string) (prefix : string) :
  (if Py.contains k d then (prefix ++ Py.item k d)%string else prefix)
  = (prefix ++ label_or_empty d k)%string.
Proof.
  unfold Py.contains, Py.item, label_or_empty.
  destruct (Py.get k d); [reflexivity |].
  induction prefix as [| a rest IH]; simpl; [reflexivity | now rewrite <- IH].
Qed.

Lemma new_col_name_spec (item : string * string) :
  new_col_name item = spec_column_name item.
Proof.
  unfold new_col_name, spec_column_name.
  rewrite !dict_label, rsplit1_first, remove_char_quotes. reflexivity.
Qed.

(** C7. The loop over the columns of the creditor pivot gives each
    (status, reject motive) column the name the specification describes:
    the status label (or nothing), then the label of the motive without
    its last '.' segment and without quotes (or nothing). *)
Theorem rename_loop_spec (cols : list (string * string)) :
  rename_loop cols = map spec_column_name cols.
Proof.
  rewrite rename_loop_map. apply map_ext. exact new_col_name_spec.
Qed.

(** ** Sorting *)

Section SortFacts.
Context {A : Type} (leb : A -> A -> bool).

Lemma insert_sorted_perm (x : A) (l : list A) :
  Permutation (insert_sorted leb x l) (x :: l).
Proof.
  induction l as [| y rest IH]; simpl; [reflexivity |].
  destruct (leb x y); [reflexivity |].
  rewrite IH. apply perm_swap.
Qed.

Lemma sort_perm (l : list A) : Permutation (sort leb l) l.
Proof.
  induction l as [| x rest IH]; simpl; [reflexivity |].
  rewrite insert_sorted_perm. now constructor.
Qed.

Lemma sort_In (x : A) (l : list A) : In x (sort leb l) <-> In x l.
Proof.
  split; apply Permutation_in; [| symmetry]; apply sort_perm.
Qed.

Lemma sort_NoDup (l : list A) : NoDup l -> NoDup (sort leb l).
Proof.
  apply Permutation_NoDup. symmetry. apply sort_perm.
Qed.
End SortFacts.

(** ** The pivot table *)

Section PivotFacts.
Context {K : Type}.
Variable K_dec : forall a b : K, {a = b} + {a <> b}.
Variable K_leb : K -> K -> bool.
Variable index_key : transaction -> cell.
Variable column_key : transaction -> option K.
Variable counted : transaction -> cell.

Local Abbreviation group_key := (Pd.group_key index_key column_key).
Local Abbreviation groups := (Pd.groups index_key column_key).
Local Abbreviation in_group := (Pd.in_group K_dec index_key column_key).
Local Abbreviation count := (Pd.count K_dec index_key column_key counted).
Local Abbreviation entry := (Pd.entry K_dec index_key column_key counted).
Local Abbreviation index_labels := (Pd.index_labels index_key column_key).
Local Abbreviation column_labels := (Pd.column_labels K_dec K_leb index_key column_key).

Lemma in_groups (data : list transaction) (g : string * K) :
  In g (groups data) <-> exists t, In t data /\ group_key t = Some g.
Proof.
  unfold Pd.groups. rewrite in_flat_map. split.
  - intros [t [Ht Hg]]. exists t. split; [assumption |].
    destruct (group_key t) as [g' |]; simpl in Hg; [| contradiction].
    destruct Hg as [-> | []]. reflexivity.
  - intros [t [Ht Hg]]. exists t. split; [assumption |].
    rewrite Hg. now left.
Qed.

Lemma in_group_true (n : string) (k : K) (t : transaction) :
  in_group n k t = true <-> group_key t = Some (n, k).
Proof.
  unfold Pd.in_group. destruct (group_key t) as [[n' k'] |].
  - rewrite andb_true_iff, String.eqb_eq.
    destruct (K_dec k k') as [-> | Hne]; split.
    + intros [-> _]. reflexivity.
    + intros H. injection H as ->. split; reflexivity.
    + intros [_ H]. discriminate.
    + intros H. injection H as -> ->. contradiction.
  - split; discriminate.
Qed.

Lemma group_exists (data : list transaction) (n : string) (k : K) :
  existsb (in_group n k) data = true <-> In (n, k) (groups data).
Proof.
  rewrite existsb_exists, in_groups.
  split; intros [t [Ht H]]; exists t; (split; [assumption |]);
    now apply in_group_true.
Qed.

Lemma index_labels_In (data : list transaction) (n : string) :
  In n (index_labels data) <-> exists k, In (n, k) (groups data).
Proof.
  unfold Pd.index_labels. rewrite sort_In, nodup_In, in_map_iff. split.
  - intros [[n' k] [E H]]. simpl in E. subst. now exists k.
  - intros [k H]. now exists (n, k).
Qed.

Lemma column_labels_In (data : list transaction) (k : K) :
  In k (column_labels data) <-> exists n, In (n, k) (groups data).
Proof.
  unfold Pd.column_labels. rewrite sort_In, nodup_In, in_map_iff. split.
  - intros [[n k'] [E H]]. simpl in E. subst. now exists n.
  - intros [n H]. now exists (n, k).
Qed.

Lemma index_labels_NoDup (data : list transaction) : NoDup (index_labels data).
Proof. apply sort_NoDup, NoDup_nodup. Qed.

Lemma column_labels_NoDup (data : list transaction) : NoDup (column_labels data).
Proof. apply sort_NoDup, NoDup_nodup. Qed.

Lemma count_nonneg (data : list transaction) (n : string) (k : K) :
  (0 <= count n k data)%Z.
Proof. unfold Pd.count. lia. Qed.

(** Without a group there is nothing to count. *)
Lemma count_no_group (data : list transaction) (n : string) (k : K) :
  existsb (in_group n k) data = false -> count n k data = 0%Z.
Proof.
  intros H. unfold Pd.count.
  replace (filter _ data) with (@nil transaction); [reflexivity |].
  symmetry. induction data as [| t rest IH]; simpl in *; [reflexivity |].
  apply orb_false_iff in H. destruct H as [Ht Hrest].
  rewrite Ht. simpl. now apply IH.
Qed.

(** A cell of the pivot after [fillna(0)]. *)
Lemma entry_filled (data : list transaction) (n : string) (k : K) :
  (if Pd.is_nan (entry n k data) then Pd.num 0 else entry n k data)
  = Pd.num (count n k data).
Proof.
  unfold Pd.entry. destruct (existsb (in_group n k) data) eqn:E; simpl.
  - reflexivity.
  - now rewrite count_no_group.
Qed.

(** No column of the pivot is entirely missing. *)
Lemma dropna_columns_pivot (data : list transaction) :
  Pd.dropna_columns
    (map (fun k => {| Pd.label := k; Pd.dtype_of := Pd.number;
                      Pd.values := map (fun n => entry n k data) (index_labels data) |})
         (column_labels data))
  = map (fun k => {| Pd.label := k; Pd.dtype_of := Pd.number;
                     Pd.values := map (fun n => entry n k data) (index_labels data) |})
        (column_labels data).
Proof.
  unfold Pd.dropna_columns. apply forallb_filter_id.
  apply forallb_forall. intros c Hc. apply in_map_iff in Hc.
  destruct Hc as [k [<- Hk]]. simpl.
  apply column_labels_In in Hk. destruct Hk as [n Hg].
  apply negb_true_iff. apply not_true_is_false. intros Hall.
  rewrite forallb_forall in Hall.
  assert (Hn : In n (index_labels data)) by (apply index_labels_In; eauto).
  specialize (Hall (entry n k data) (in_map _ _ _ Hn)).
  unfold Pd.entry in Hall. apply group_exists in Hg. rewrite Hg in Hall.
  discriminate.
Qed.

Lemma pivot_table_eq (data : list transaction) :
  Pd.pivot_table K_dec K_leb index_key column_key counted data
  = (index_labels data,
     map (fun k => {| Pd.label := k; Pd.dtype_of := Pd.number;
                      Pd.values := map (fun n => entry n k data) (index_labels data) |})
         (column_labels data)).
Proof.
  unfold Pd.pivot_table. now rewrite dropna_columns_pivot.
Qed.
End PivotFacts.

(** ** Frames built from a list of keys *)

Lemma filter_eqb_NoDup (name : string) (ks : list string) :
  NoDup ks ->
  filter (fun k => String.eqb k name) ks = if Py.mem name ks then [name] else [].
Proof.
  induction 1 as [| k rest Hk Hnd IH]; simpl; [reflexivity |].
  rewrite IH. rewrite (String.eqb_sym name k).
  destruct (String.eqb_spec k name) as [-> | Hne]; simpl.
  - apply mem_false in Hk. now rewrite Hk.
  - reflexivity.
Qed.

Lemma existsb_dec_mem (name : string) (ks : list string) :
  existsb (fun k => if string_dec name k then true else false) ks = Py.mem name ks.
Proof.
  unfold Py.mem. induction ks as [| k rest IH]; simpl; [reflexivity |].
  rewrite IH. destruct (string_dec name k) as [-> | Hne].
  - now rewrite String.eqb_refl.
  - apply String.eqb_neq in Hne. now rewrite Hne.
Qed.

Lemma astype_int_num (zs : list Z) :
  Pd.astype_int (map Pd.num zs) = inr (map Pd.num zs).
Proof.
  induction zs as [| z rest IH]; simpl; [reflexivity |].
  now rewrite IH.
Qed.

Lemma debitor_pivot_eq (data : list transaction) :
  debitor_pivot data =
  if Py.mem "DB_PARTIC_NAME" (statuses data) then
    inl (ValueError "cannot insert DB_PARTIC_NAME, already exists")
  else
    inr ({| Pd.label := "DB_PARTIC_NAME"; Pd.dtype_of := Pd.object;
            Pd.values := map Pd.text (debtors data) |}
         :: map (fun k => {| Pd.label := k; Pd.dtype_of := Pd.number;
                             Pd.values := map (fun n => Pd.entry string_dec DB_PARTIC_NAME status_key ENDTOENDID n k data) (debtors data) |})
                (statuses data)).
Proof.
  unfold debitor_pivot. rewrite pivot_table_eq. unfold Pd.reset_index, Pd.labels.
  rewrite map_map. simpl. rewrite map_id, existsb_dec_mem. reflexivity.
Qed.

Lemma fillna_text (v : Pd.value) (l : list string) :
  map (fun x => if Pd.is_nan x then v else x) (map Pd.text l) = map Pd.text l.
Proof. rewrite map_map. reflexivity. Qed.


Ltac eval_eqb :=
  repeat match goal with
  | |- context [String.eqb ?a ?b] =>
      let v := eval vm_compute in (String.eqb a b) in
      match v with
      | true => change (String.eqb a b) with true
      | false => change (String.eqb a b) with false
      end
  end.

Lemma select_cons (name : string) (c : Pd.column string) (df : Pd.frame string) :
  Pd.select name (c :: df)
  = if String.eqb (Pd.label c) name then c :: Pd.select name df else Pd.select name df.
Proof. reflexivity. Qed.

Lemma select_keys (name : string) (colf : string -> Pd.column string) (ks : list string) :
  (forall k, Pd.label (colf k) = k) ->
  NoDup ks ->
  Pd.select name (map colf ks) = if Py.mem name ks then [colf name] else [].
Proof.
  intros Hlab Hnd. unfold Pd.select. rewrite filter_map_swap.
  rewrite (filter_ext _ (fun k => String.eqb k name)).
  - rewrite filter_eqb_NoDup by assumption. now destruct (Py.mem name ks).
  - intros k. unfold Pd.has_label. now rewrite Hlab.
Qed.

Lemma mem_cons (x y : string) (l : list string) :
  Py.mem x (y :: l) = String.eqb x y || Py.mem x l.
Proof. reflexivity. Qed.

Lemma labels_keys {L} (colf : L -> Pd.column L) (ks : list L) :
  (forall k, Pd.label (colf k) = k) -> Pd.labels (map colf ks) = ks.
Proof.
  intros Hlab. unfold Pd.labels. rewrite map_map.
  rewrite (map_ext _ (fun k => k)) by assumption. apply map_id.
Qed.

Lemma extract_debitor_details_eq (data : list transaction) :
  extract_debitor_details data =
  if Py.mem "DB_PARTIC_NAME" (statuses data) then
    inl (ValueError "cannot insert DB_PARTIC_NAME, already exists")
  else if Py.mem "Posted" (statuses data) then
    inr [ {| Pd.label := "PARTICIPANT_NAME"; Pd.dtype_of := Pd.object;
             Pd.values := map Pd.text (debtors data) |};
          {| Pd.label := "Sent Posted"; Pd.dtype_of := Pd.number;
             Pd.values := map (fun n => Pd.num (debtor_count data n "Posted"))
                              (debtors data) |} ]
  else inl (KeyError ["Posted"]).
Proof.
  unfold extract_debitor_details. rewrite debitor_pivot_eq.
  destruct (Py.mem "DB_PARTIC_NAME" (statuses data)) eqn:Hclash; [reflexivity |].
  cbn [bind]. unfold Pd.loc_columns.
  change (Pd.labels (?c :: ?df)) with (Pd.label c :: Pd.labels df).
  rewrite labels_keys by reflexivity. cbn [Pd.label filter].
  rewrite !mem_cons. eval_eqb. cbn [orb negb].
  destruct (Py.mem "Posted" (statuses data)) eqn:Hposted; cbn [negb]; [| reflexivity].
  cbn [flat_map]. rewrite !select_cons. cbn [Pd.label]. eval_eqb.
  rewrite !select_keys by (reflexivity || apply column_labels_NoDup).
  fold (statuses data). rewrite Hclash, Hposted. cbn [app].
  cbn [bind ret]. unfold Pd.fillna, Pd.map_values. cbn [map Pd.label Pd.dtype_of Pd.values].
  rewrite fillna_text. rewrite map_map.
  erewrite (map_ext _ _ (fun n => entry_filled string_dec DB_PARTIC_NAME status_key ENDTOENDID data n "Posted")).
  unfold Pd.getitem. rewrite !select_cons. cbn [Pd.label]. eval_eqb.
  change (Pd.select "Posted" []) with (@nil (Pd.column string)).
  cbn [bind ret Pd.series Pd.values].
  rewrite <- (map_map (fun n => Pd.count string_dec DB_PARTIC_NAME status_key ENDTOENDID n "Posted" data) Pd.num).
  rewrite astype_int_num. cbn [bind ret].
  unfold Pd.setitem.
  change (Pd.labels (?c :: ?df)) with (Pd.label c :: Pd.labels df).
  rewrite !mem_cons. cbn [Pd.label]. eval_eqb. cbn [orb map].
  unfold Pd.has_label. cbn [Pd.label]. eval_eqb.
  rewrite map_map. reflexivity.
Qed.

(** ** The creditor aggregate *)

Lemma label_or_empty_In (d : Py.dict) (k : string) :
  In (label_or_empty d k) ("" :: map snd d).
Proof.
  unfold label_or_empty. induction d as [| [k' v] rest IH]; simpl; [now left |].
  destruct (String.eqb k k'); [right; now left |].
  destruct IH as [IH | IH]; [now left | right; now right].
Qed.

Lemma new_col_name_derived (k : string * string) : In (new_col_name k) derived_names.
Proof.
  rewrite new_col_name_spec. unfold spec_column_name, derived_names.
  apply in_flat_map. exists (label_or_empty STATUSES (fst k)).
  split; [apply label_or_empty_In |].
  apply in_map. apply label_or_empty_In.
Qed.

Lemma new_col_name_not (name : string) (k : string * string) :
  Py.mem name derived_names = false -> String.eqb (new_col_name k) name = false.
Proof.
  intros H. apply String.eqb_neq. intros E. apply mem_false in H. apply H.
  rewrite <- E. apply new_col_name_derived.
Qed.

Lemma astype_float_num (zs : list Z) :
  Pd.astype_float (map Pd.num zs) = inr (map F64.of_Z zs).
Proof.
  induction zs as [| z rest IH]; simpl; [reflexivity |]. now rewrite IH.
Qed.

Lemma combine_map_same {A B C} (f : A -> B) (g : A -> C) (l : list A) :
  combine (map f l) (map g l) = map (fun x => (f x, g x)) l.
Proof. induction l as [| x rest IH]; simpl; [reflexivity | now rewrite IH]. Qed.

Lemma add_cells_keys {A} (f : A -> Z) (g : A -> Z) (idx : list A) :
  Pd.add_cells (map (fun n => Pd.num (f n)) idx) (map g idx)
  = map (fun n => (f n + g n)%Z) idx.
Proof.
  unfold Pd.add_cells. rewrite combine_map_same, map_map. reflexivity.
Qed.

Lemma sum_cells_keys {K} (cnt : string -> K -> Z) (idx : list string) (ks : list K) :
  fold_right Pd.add_cells (repeat 0%Z (List.length idx))
             (map (fun k => map (fun n => Pd.num (cnt n k)) idx) ks)
  = map (row_total cnt ks) idx.
Proof.
  induction ks as [| k rest IH]; simpl.
  - unfold row_total. simpl. induction idx as [| n r IHn]; simpl; [reflexivity |].
    now rewrite IHn.
  - rewrite IH. rewrite add_cells_keys. reflexivity.
Qed.

Lemma creditor_pivot_eq (data : list transaction) :
  creditor_pivot data =
  if existsb (fun k => if pair_dec CR_INDEX k then true else false) (combinations data)
  then inl (ValueError "cannot insert ('CR_PARTIC_NAME', ''), already exists")
  else inr ({| Pd.label := CR_INDEX; Pd.dtype_of := Pd.object;
               Pd.values := map Pd.text (creditors data) |}
            :: map (fun k => {| Pd.label := k; Pd.dtype_of := Pd.number;
                                Pd.values := map (fun n => Pd.entry pair_dec CR_PARTIC_NAME
                                                             status_motive_key ENDTOENDID n k data)
                                                 (creditors data) |})
                   (combinations data)).
Proof.
  unfold creditor_pivot. rewrite pivot_table_eq. unfold Pd.reset_index.
  rewrite labels_keys by reflexivity. reflexivity.
Qed.

Lemma select_app (name : string) (a b : Pd.frame string) :
  Pd.select name (a ++ b) = Pd.select name a ++ Pd.select name b.
Proof. apply filter_app. Qed.

Lemma drop_cons (name : string) (c : Pd.column string) (df : Pd.frame string) :
  Pd.drop name (c :: df)
  = if String.eqb (Pd.label c) name then Pd.drop name df else c :: Pd.drop name df.
Proof. unfold Pd.drop, Pd.has_label. simpl. now destruct (String.eqb (Pd.label c) name). Qed.

Lemma select_none (name : string) (df : Pd.frame string) :
  Py.mem name (Pd.labels df) = false -> Pd.select name df = [].
Proof.
  intros H. induction df as [| c rest IH]; [reflexivity |].
  change (Pd.labels (c :: rest)) with (Pd.label c :: Pd.labels rest) in H.
  rewrite mem_cons in H. apply orb_false_iff in H. destruct H as [Hc Hrest].
  rewrite select_cons, String.eqb_sym, Hc. now apply IH.
Qed.

Lemma mem_app (x : string) (a b : list string) :
  Py.mem x (a ++ b) = Py.mem x a || Py.mem x b.
Proof. apply existsb_app. Qed.

Lemma mem_map_false {A} (x : string) (f : A -> string) (l : list A) :
  (forall a, In a l -> String.eqb (f a) x = false) -> Py.mem x (map f l) = false.
Proof.
  intros H. apply mem_false. intros Hin. apply in_map_iff in Hin.
  destruct Hin as [a [E Ha]]. specialize (H a Ha). apply String.eqb_neq in H. congruence.
Qed.


Lemma select_labelled {K} (name : string) (lab : K -> string)
    (colf : K -> Pd.column string) (ks : list K) :
  (forall k, Pd.label (colf k) = lab k) ->
  Pd.select name (map colf ks)
  = map colf (filter (fun k => String.eqb (lab k) name) ks).
Proof.
  intros Hlab. unfold Pd.select. rewrite filter_map_swap.
  f_equal. apply filter_ext. intros k. unfold Pd.has_label. now rewrite Hlab.
Qed.

Lemma drop_labelled {K} (name : string) (lab : K -> string)
    (colf : K -> Pd.column string) (ks : list K) :
  (forall k, Pd.label (colf k) = lab k) ->
  Pd.drop name (map colf ks)
  = map colf (filter (fun k => negb (String.eqb (lab k) name)) ks).
Proof.
  intros Hlab. unfold Pd.drop. rewrite filter_map_swap.
  f_equal. apply filter_ext. intros k. unfold Pd.has_label. now rewrite Hlab.
Qed.

Lemma labels_labelled {K} (lab : K -> string) (colf : K -> Pd.column string) (ks : list K) :
  (forall k, Pd.label (colf k) = lab k) -> Pd.labels (map colf ks) = map lab ks.
Proof.
  intros Hlab. unfold Pd.labels. rewrite map_map. now apply map_ext.
Qed.

Lemma labels_cons {L} (c : Pd.column L) (df : Pd.frame L) :
  Pd.labels (c :: df) = Pd.label c :: Pd.labels df.
Proof. reflexivity. Qed.

Lemma labels_app {L} (a b : Pd.frame L) :
  Pd.labels (a ++ b) = Pd.labels a ++ Pd.labels b.
Proof. apply map_app. Qed.

Lemma set_columns_labelled {K} (c0 : Pd.column K) (colf : K -> Pd.column K)
    (l0 : string) (lab : K -> string) (ks : list K) :
  Pd.set_columns (l0 :: map lab ks) (c0 :: map colf ks)
  = inr ({| Pd.label := l0; Pd.dtype_of := Pd.dtype_of c0; Pd.values := Pd.values c0 |}
         :: map (fun k => {| Pd.label := lab k; Pd.dtype_of := Pd.dtype_of (colf k);
                             Pd.values := Pd.values (colf k) |}) ks).
Proof.
  unfold Pd.set_columns. cbn [List.length]. rewrite !length_map, Nat.eqb_refl.
  cbn [combine map]. rewrite combine_map_same, map_map. reflexivity.
Qed.

Lemma numeric_all {L} (df : Pd.frame L) :
  (forall c, In c df -> Pd.dtype_of c = Pd.number) -> Pd.numeric df = df.
Proof.
  intros H. unfold Pd.numeric. apply forallb_filter_id. apply forallb_forall.
  intros c Hc. now rewrite (H c Hc).
Qed.

Lemma setitem_new (name : string) (d : Pd.dtype) (vs : list Pd.value) (df : Pd.frame string) :
  Py.mem name (Pd.labels df) = false ->
  Pd.setitem name d vs df
  = df ++ [{| Pd.label := name; Pd.dtype_of := d; Pd.values := vs |}].
Proof. intros H. unfold Pd.setitem. now rewrite H. Qed.

Lemma names_posted_filter (ks : list (string * string)) (k : string * string) :
  In k (filter (fun k => negb (names_posted k)) ks) ->
  String.eqb (new_col_name k) "Posted" = false.
Proof.
  intros H. apply filter_In in H. destruct H as [_ H].
  now apply negb_true_iff in H.
Qed.

Lemma derived_not_grand_total : Py.mem "Grand Total" derived_names = false.
Proof. vm_compute. reflexivity. Qed.

Lemma derived_not_success : Py.mem "Success" derived_names = false.
Proof. vm_compute. reflexivity. Qed.


Lemma sum_rows_counts {K} (c0 : Pd.column string) (cols : Pd.frame string)
    (cnt : string -> K -> Z) (idx : list string) (ks : list K) :
  Pd.dtype_of c0 = Pd.object ->
  Pd.values c0 = map Pd.text idx ->
  (forall c, In c cols -> Pd.dtype_of c = Pd.number) ->
  map Pd.values cols = map (fun k => map (fun n => Pd.num (cnt n k)) idx) ks ->
  Pd.sum_rows (c0 :: cols) = map (row_total cnt ks) idx.
Proof.
  intros Hobj Hvals Hnum Hcols. unfold Pd.sum_rows.
  unfold Pd.numeric at 1. cbn [filter]. rewrite Hobj. cbn [Pd.is_number].
  fold (Pd.numeric cols). rewrite numeric_all by assumption.
  cbn [Pd.height]. rewrite Hvals, length_map.
  rewrite <- sum_cells_keys, <- Hcols.
  generalize (repeat 0%Z (List.length idx)). intros init.
  clear. induction cols as [| c rest IH]; simpl; [reflexivity | now rewrite IH].
Qed.

Lemma divide_counts (a b : Pd.column string) (idx : list string) (f g : string -> Z) :
  Pd.dtype_of a = Pd.number -> Pd.dtype_of b = Pd.number ->
  Pd.values a = map (fun n => Pd.num (f n)) idx ->
  Pd.values b = map (fun n => Pd.num (g n)) idx ->
  Pd.divide a b = inr (map (fun n => F64.div (F64.of_Z (f n)) (F64.of_Z (g n))) idx).
Proof.
  intros Ha Hb Hf Hg. unfold Pd.divide. rewrite Ha, Hb, Hf, Hg. cbn [Pd.is_number andb].
  rewrite <- (map_map f Pd.num), <- (map_map g Pd.num), !astype_float_num.
  cbn [bind ret]. rewrite !map_map, combine_map_same, map_map. reflexivity.
Qed.

Lemma extract_creditor_details_eq (data : list transaction) :
  extract_creditor_details data =
  if existsb (fun k => if pair_dec CR_INDEX k then true else false) (combinations data)
  then inl (ValueError "cannot insert ('CR_PARTIC_NAME', ''), already exists")
  else match filter names_posted (combinations data) with
       | [] => inl (KeyError ["Posted"])
       | [k0] =>
           inr (creditor_frame data k0
                  (filter (fun k => negb (names_posted k)) (combinations data)))
       | _ => inl (AttributeError "'DataFrame' object has no attribute 'name'")
       end.
Proof.
  unfold extract_creditor_details. rewrite creditor_pivot_eq.
  destruct (existsb _ (combinations data)) eqn:Hclash; [reflexivity |].
  cbn [bind].
  unfold Pd.fillna, Pd.map_values. cbn [map Pd.label Pd.dtype_of Pd.values].
  rewrite fillna_text, map_map. cbn [Pd.label Pd.dtype_of Pd.values].
  erewrite (map_ext _ _ (fun k => f_equal _ (eq_trans (map_map _ _ _) (map_ext _ _ (fun n => entry_filled pair_dec CR_PARTIC_NAME status_motive_key ENDTOENDID data n k) _)))).
  fold (creditor_count data).
  rewrite labels_cons, labels_keys by reflexivity. cbn [Pd.label].
  rewrite rename_loop_map. cbn [map].
  change (new_col_name CR_INDEX) with "CR_PARTIC_NAME".
  rewrite set_columns_labelled. cbn [bind Pd.label Pd.dtype_of Pd.values].
  set (idx := creditors data). set (cnt := creditor_count data).
  set (colf := fun k : string * string =>
                 {| Pd.label := new_col_name k; Pd.dtype_of := Pd.number;
                    Pd.values := map (fun n => Pd.num (Pd.count pair_dec CR_PARTIC_NAME status_motive_key ENDTOENDID n k data)) idx |}).
  unfold Pd.pop, Pd.getitem. rewrite select_cons, drop_cons. cbn [Pd.label]. eval_eqb.
  rewrite (select_labelled "Posted" new_col_name colf) by reflexivity.
  rewrite (drop_labelled "Posted" new_col_name colf) by reflexivity.
  fold names_posted.
  change (fun k => negb (new_col_name k =? "Posted")) with (fun k => negb (names_posted k)).
  set (others := filter (fun k => negb (names_posted k)) (combinations data)).
  assert (Hothers : forall k, In k others -> String.eqb (new_col_name k) "Posted" = false).
  { intros k Hk. now apply names_posted_filter in Hk. }
  destruct (filter names_posted (combinations data)) as [| k0 [| k1 more]] eqn:Hposted;
    [reflexivity | | reflexivity].
  assert (Hk0 : new_col_name k0 = "Posted").
  { assert (H : In k0 (filter names_posted (combinations data))) by (rewrite Hposted; now left).
    apply filter_In in H. destruct H as [_ H]. now apply String.eqb_eq in H. }
  cbn [map bind ret Pd.name Pd.series].
  replace (Pd.label (colf k0)) with "Posted" by (symmetry; exact Hk0).
  unfold Pd.insert. rewrite labels_cons, mem_cons. cbn [Pd.label]. eval_eqb. cbn [orb].
  rewrite (labels_labelled new_col_name colf) by reflexivity.
  rewrite mem_map_false by exact Hothers.
  cbn [List.length Nat.ltb Nat.leb firstn skipn app bind ret].
  set (c_idx := {| Pd.label := "CR_PARTIC_NAME"; Pd.dtype_of := Pd.object;
                   Pd.values := map Pd.text idx |}).
  set (c_posted := {| Pd.label := "Posted"; Pd.dtype_of := Pd.dtype_of (colf k0);
                      Pd.values := Pd.values (colf k0) |}).
  rewrite (sum_rows_counts c_idx (c_posted :: map colf others) cnt idx (k0 :: others));
    [ | reflexivity | reflexivity | | ].
  2:{ intros c [<- | Hc]; [reflexivity |].
      apply in_map_iff in Hc. destruct Hc as [k [<- _]]. reflexivity. }
  2:{ cbn [map]. rewrite map_map. reflexivity. }
  rewrite map_map.
  set (c_total := {| Pd.label := "Grand Total"; Pd.dtype_of := Pd.number;
                     Pd.values := map (fun n => Pd.num (row_total cnt (k0 :: others) n)) idx |}).
  assert (Hgt : forall k, In k others -> String.eqb (new_col_name k) "Grand Total" = false).
  { intros k _. apply new_col_name_not. exact derived_not_grand_total. }
  assert (Hsucc : forall k, In k others -> String.eqb (new_col_name k) "Success" = false).
  { intros k _. apply new_col_name_not. exact derived_not_success. }
  rewrite setitem_new.
  2:{ rewrite !labels_cons, !mem_cons. cbn [Pd.label]. eval_eqb. cbn [orb].
      rewrite (labels_labelled new_col_name colf) by reflexivity.
      now apply mem_map_false. }
  fold c_total.
  unfold Pd.getitem.
  change (c_idx :: c_posted :: map colf others)
    with ([c_idx; c_posted] ++ map colf others).
  rewrite <- app_assoc, !select_app.
  rewrite (select_none "Posted" (map colf others))
    by (rewrite (labels_labelled new_col_name colf) by reflexivity; now apply mem_map_false).
  rewrite (select_none "Grand Total" (map colf others))
    by (rewrite (labels_labelled new_col_name colf) by reflexivity; now apply mem_map_false).
  rewrite !select_cons. cbn [Pd.label c_idx c_posted c_total]. eval_eqb.
  change (Pd.select "Posted" []) with (@nil (Pd.column string)).
  change (Pd.select "Grand Total" []) with (@nil (Pd.column string)).
  cbn [app bind ret Pd.series].
  rewrite (divide_counts _ _ idx (fun n => cnt n k0) (row_total cnt (k0 :: others)))
    by reflexivity.
  cbn [bind ret]. rewrite !map_map.
  rewrite setitem_new.
  2:{ rewrite !labels_cons, labels_app, !mem_cons, mem_app.
      rewrite (labels_labelled new_col_name colf) by reflexivity.
      rewrite mem_map_false by exact Hsucc. reflexivity. }
  unfold Pd.rename. rewrite map_app. cbn [map]. rewrite map_app, map_map. cbn [map app].
  rewrite <- app_assoc. reflexivity.
Qed.

(** ** The debtor aggregate, row by row *)

Lemma filled_debtor_key (t : transaction) :
  filled t ->
  exists d s, DB_PARTIC_NAME t = Str d /\ TR_STATUS_NAME t = Str s /\
              ENDTOENDID t <> NaN /\
              Pd.group_key DB_PARTIC_NAME status_key t = Some (d, s).
Proof.
  intros [He [Hd [_ [Hs _]]]]. unfold Pd.group_key, status_key.
  destruct (DB_PARTIC_NAME t) as [| d]; [congruence |].
  destruct (TR_STATUS_NAME t) as [| s]; [congruence |].
  exists d, s. repeat split; assumption.
Qed.

Lemma debtors_spec (corpus : list transaction) :
  Forall filled corpus ->
  forall n, In n (debtors corpus) <->
            exists t, In t corpus /\ DB_PARTIC_NAME t = Str n.
Proof.
  intros Hfilled n. unfold debtors.
  rewrite index_labels_In. split.
  - intros [k Hg]. apply in_groups in Hg. destruct Hg as [t [Ht Hk]].
    exists t. split; [assumption |].
    unfold Pd.group_key in Hk. destruct (DB_PARTIC_NAME t); [discriminate |].
    destruct (status_key t); [| discriminate]. congruence.
  - intros [t [Ht Hn]]. rewrite Forall_forall in Hfilled.
    destruct (filled_debtor_key t (Hfilled t Ht)) as [d [s [Hd [_ [_ Hk]]]]].
    exists s. apply in_groups. exists t. split; [assumption |]. congruence.
Qed.

Lemma debtor_count_sent (corpus : list transaction) :
  Forall filled corpus ->
  forall n s, debtor_count corpus n s = sent corpus n s.
Proof.
  intros Hfilled n s. unfold debtor_count, Pd.count, sent. do 2 f_equal.
  apply filter_ext_in. intros t Ht. rewrite Forall_forall in Hfilled.
  destruct (filled_debtor_key t (Hfilled t Ht)) as [d [s' [Hd [Hs [He Hk]]]]].
  unfold Pd.in_group. rewrite Hk, Hd, Hs. simpl.
  destruct (ENDTOENDID t); [congruence |]. simpl. rewrite andb_true_r.
  rewrite (String.eqb_sym n d). f_equal.
  destruct (string_dec s s') as [-> | Hne].
  - now rewrite String.eqb_refl.
  - symmetry. apply String.eqb_neq. congruence.
Qed.

Lemma debtor_aggregate_filled (corpus : list transaction) (agg : Pd.frame string) :
  Forall filled corpus ->
  extract_debitor_details corpus = inr agg ->
  exists names,
    agg = [ {| Pd.label := "PARTICIPANT_NAME"; Pd.dtype_of := Pd.object;
               Pd.values := map Pd.text names |};
            {| Pd.label := "Sent Posted"; Pd.dtype_of := Pd.number;
               Pd.values := map (fun n => Pd.num (sent corpus n "Posted")) names |} ] /\
    NoDup names /\
    forall n, In n names <-> exists t, In t corpus /\ DB_PARTIC_NAME t = Str n.
Proof.
  intros Hfilled H. rewrite extract_debitor_details_eq in H.
  destruct (Py.mem "DB_PARTIC_NAME" (statuses corpus)); [discriminate |].
  destruct (Py.mem "Posted" (statuses corpus)); [| discriminate].
  injection H as <-. exists (debtors corpus). split; [| split].
  - rewrite (map_ext (fun n => Pd.num (debtor_count corpus n "Posted"))
                     (fun n => Pd.num (sent corpus n "Posted"))); [reflexivity |].
    intros n. now rewrite debtor_count_sent.
  - apply index_labels_NoDup.
  - now apply debtors_spec.
Qed.

(** C1. The debtor aggregate of a Unified Corpus has one row for each
    distinct debtor name of the corpus, and no other; the row's
    "Sent Posted" is the number of rows of the corpus with that debtor and
    the status "Posted". *)
Theorem debtor_aggregate_rows
    (fs : filesystem) (source_path : string) (files : list string)
    (corpus : list transaction) (agg : Pd.frame string) :
  merge_files fs source_path files = inr corpus ->
  extract_debitor_details corpus = inr agg ->
  exists names,
    agg = [ {| Pd.label := "PARTICIPANT_NAME"; Pd.dtype_of := Pd.object;
               Pd.values := map Pd.text names |};
            {| Pd.label := "Sent Posted"; Pd.dtype_of := Pd.number;
               Pd.values := map (fun n => Pd.num (sent corpus n "Posted")) names |} ] /\
    NoDup names /\
    forall n, In n names <-> exists t, In t corpus /\ DB_PARTIC_NAME t = Str n.
Proof.
  intros Hmerge Hagg. apply debtor_aggregate_filled; [| assumption].
  eapply merge_files_filled. eassumption.
Qed.

Lemma debtor_aggregate_rows_witness :
  exists names,
    [ {| Pd.label := "PARTICIPANT_NAME"; Pd.dtype_of := Pd.object;
         Pd.values := [Pd.text "X"; Pd.text "Y"] |};
      {| Pd.label := "Sent Posted"; Pd.dtype_of := Pd.number;
         Pd.values := [Pd.num 1; Pd.num 1] |} ]
    = [ {| Pd.label := "PARTICIPANT_NAME"; Pd.dtype_of := Pd.object;
           Pd.values := map Pd.text names |};
        {| Pd.label := "Sent Posted"; Pd.dtype_of := Pd.number;
           Pd.values := map (fun n => Pd.num (sent corpus_a n "Posted")) names |} ] /\
    NoDup names /\
    forall n, In n names <-> exists t, In t corpus_a /\ DB_PARTIC_NAME t = Str n.
Proof.
  apply (debtor_aggregate_rows disk "/in" ["a.xlsx"] corpus_a); reflexivity.
Defined.

(** ** A corpus without a posted row *)

Lemma sub_label_not_posted : Py.mem "Posted" ("" :: map snd SUB_STATUSES) = false.
Proof. vm_compute. reflexivity. Qed.

(** Only the status "Posted" gives a column the name "Posted". *)
Lemma posted_name_status (s m : string) :
  new_col_name (s, m) = "Posted" -> s = "Posted".
Proof.
  rewrite new_col_name_spec. unfold spec_column_name. cbn [fst snd].
  set (b := label_or_empty SUB_STATUSES _).
  assert (Hb : In b ("" :: map snd SUB_STATUSES)) by apply label_or_empty_In.
  unfold label_or_empty at 1. unfold STATUSES. cbn [Py.get].
  destruct (String.eqb_spec s "Declined"); [simpl; discriminate |].
  destruct (String.eqb_spec s "Rejected"); [simpl; discriminate |].
  destruct (String.eqb_spec s "Returned"); [simpl; discriminate |].
  destruct (String.eqb_spec s "Posted"); [intros _; assumption |].
  destruct (String.eqb_spec s "CR_PARTIC_NAME"); [simpl; discriminate |].
  simpl. intros E. rewrite E in Hb. apply mem_In in Hb.
  rewrite sub_label_not_posted in Hb. discriminate.
Qed.

Lemma statuses_In (corpus : list transaction) (s : string) :
  In s (statuses corpus) -> exists t, In t corpus /\ TR_STATUS_NAME t = Str s.
Proof.
  unfold statuses. rewrite column_labels_In. intros [n Hg].
  apply in_groups in Hg. destruct Hg as [t [Ht Hk]]. exists t. split; [assumption |].
  unfold Pd.group_key, status_key in Hk.
  destruct (DB_PARTIC_NAME t); [discriminate |].
  destruct (TR_STATUS_NAME t); [discriminate |]. congruence.
Qed.

Lemma combinations_In (corpus : list transaction) (k : string * string) :
  In k (combinations corpus) ->
  exists t, In t corpus /\ TR_STATUS_NAME t = Str (fst k)
            /\ REJECT_MOTIVE_DESCRITION t = Str (snd k).
Proof.
  unfold combinations. rewrite column_labels_In. intros [n Hg].
  apply in_groups in Hg. destruct Hg as [t [Ht Hk]]. exists t. split; [assumption |].
  unfold Pd.group_key, status_motive_key in Hk.
  destruct (CR_PARTIC_NAME t); [discriminate |].
  destruct (TR_STATUS_NAME t); [discriminate |].
  destruct (REJECT_MOTIVE_DESCRITION t); [discriminate |].
  injection Hk as _ <-. split; reflexivity.
Qed.

Lemma no_posted_status (corpus : list transaction) :
  (forall t, In t corpus -> TR_STATUS_NAME t <> Str "Posted") ->
  Py.mem "Posted" (statuses corpus) = false.
Proof.
  intros H. apply mem_false. intros Hin. apply statuses_In in Hin.
  destruct Hin as [t [Ht Hs]]. exact (H t Ht Hs).
Qed.

Lemma no_posted_column (corpus : list transaction) :
  (forall t, In t corpus -> TR_STATUS_NAME t <> Str "Posted") ->
  filter names_posted (combinations corpus) = [].
Proof.
  intros H. destruct (filter names_posted (combinations corpus)) as [| k rest] eqn:E;
    [reflexivity |].
  assert (Hk : In k (filter names_posted (combinations corpus))) by (rewrite E; now left).
  apply filter_In in Hk. destruct Hk as [Hk Hname].
  apply String.eqb_eq in Hname. destruct k as [s m].
  apply posted_name_status in Hname. subst s.
  apply combinations_In in Hk. destruct Hk as [t [Ht [Hs _]]].
  exfalso. exact (H t Ht Hs).
Qed.

Lemma no_index_status (corpus : list transaction) :
  (forall t, In t corpus -> TR_STATUS_NAME t <> Str "DB_PARTIC_NAME") ->
  Py.mem "DB_PARTIC_NAME" (statuses corpus) = false.
Proof.
  intros H. apply mem_false. intros Hin. apply statuses_In in Hin.
  destruct Hin as [t [Ht Hs]]. exact (H t Ht Hs).
Qed.

Lemma no_index_column (corpus : list transaction) :
  (forall t, In t corpus ->
     ~ (TR_STATUS_NAME t = Str "CR_PARTIC_NAME"
        /\ REJECT_MOTIVE_DESCRITION t = Str "")) ->
  existsb (fun k => if pair_dec CR_INDEX k then true else false)
          (combinations corpus) = false.
Proof.
  intros H.
  destruct (existsb _ (combinations corpus)) eqn:E; [| reflexivity].
  apply existsb_exists in E. destruct E as [k [Hk Heq]].
  destruct (pair_dec CR_INDEX k) as [<- |]; [| discriminate].
  apply combinations_In in Hk. destruct Hk as [t [Ht Hsm]].
  exfalso. exact (H t Ht Hsm).
Qed.

(** C10, as the code has it.  On a corpus with rows but none with the
    status "Posted", neither aggregator returns an aggregate.  The error is
    the [KeyError] of the missing column "Posted", raised when the debtor
    aggregator selects the column and when the creditor aggregator pops it,
    unless a status of the corpus is the label that [reset_index] gives the
    index: that stops the aggregator before. *)
Theorem no_posted_row_raises (corpus : list transaction) :
  corpus <> [] ->
  (forall t, In t corpus -> TR_STATUS_NAME t <> Str "Posted") ->
  (exists e, extract_debitor_details corpus = inl e) /\
  (exists e, extract_creditor_details corpus = inl e) /\
  ((forall t, In t corpus -> TR_STATUS_NAME t <> Str "DB_PARTIC_NAME") ->
   extract_debitor_details corpus = inl (KeyError ["Posted"])) /\
  ((forall t, In t corpus ->
      ~ (TR_STATUS_NAME t = Str "CR_PARTIC_NAME"
         /\ REJECT_MOTIVE_DESCRITION t = Str "")) ->
   extract_creditor_details corpus = inl (KeyError ["Posted"])).
Proof.
  intros _ Hnone.
  pose proof (no_posted_status corpus Hnone) as Hdeb.
  pose proof (no_posted_column corpus Hnone) as Hcred.
  rewrite extract_debitor_details_eq, extract_creditor_details_eq, Hdeb, Hcred.
  split; [| split; [| split]].
  - destruct (Py.mem "DB_PARTIC_NAME" (statuses corpus)); eauto.
  - destruct (existsb _ (combinations corpus)); eauto.
  - intros H. now rewrite (no_index_status corpus H).
  - intros H. now rewrite (no_index_column corpus H).
Qed.

Lemma no_posted_row_raises_witness :
  extract_debitor_details [row "e1" "X" "Y" "Declined" "CTWA" "Lack of funds.1"]
    = inl (KeyError ["Posted"]) /\
  extract_creditor_details [row "e1" "X" "Y" "Declined" "CTWA" "Lack of funds.1"]
    = inl (KeyError ["Posted"]).
Proof.
  assert (Hne : [row "e1" "X" "Y" "Declined" "CTWA" "Lack of funds.1"] <> [])
    by discriminate.
  assert (Hnone : forall t,
             In t [row "e1" "X" "Y" "Declined" "CTWA" "Lack of funds.1"] ->
             TR_STATUS_NAME t <> Str "Posted").
  { intros t [<- | []]. discriminate. }
  destruct (no_posted_row_raises _ Hne Hnone) as [_ [_ [Hd Hc]]].
  split; [apply Hd | apply Hc]; intros t [<- | []]; simpl.
  - discriminate.
  - intros [E _]. discriminate.
Defined.

(** C10, as it is worded, fails: in a corpus without a posted row, a
    status that is the name of the debtor column makes [reset_index] raise
    [ValueError]; the debtor aggregator stops there, before it selects
    "Posted". *)
Lemma no_posted_row_other_error :
  corpus_c <> [] /\
  (forall t, In t corpus_c -> TR_STATUS_NAME t <> Str "Posted") /\
  extract_debitor_details corpus_c
  = inl (ValueError "cannot insert DB_PARTIC_NAME, already exists") /\
  ~ (exists labels, extract_debitor_details corpus_c = inl (KeyError labels)).
Proof.
  split; [discriminate |]. split.
  - intros t [<- | []]. discriminate.
  - split; [reflexivity |]. intros [labels E]. discriminate.
Qed.

(** ** The creditor aggregate, row by row *)

Lemma filter_split_length {A} (p : A -> bool) (l : list A) :
  List.length (filter p l) + List.length (filter (fun x => negb (p x)) l)
  = List.length l.
Proof.
  induction l as [| x rest IH]; simpl; [reflexivity |].
  destruct (p x); simpl; lia.
Qed.

Lemma nth_map_lt {A B} (f : A -> B) (l : list A) (i : nat) (d : B) (d' : A) :
  i < List.length l -> nth i (map f l) d = f (nth i l d').
Proof.
  intros Hi. rewrite (nth_indep _ d (f d')) by (now rewrite length_map).
  apply map_nth.
Qed.

Lemma cells_sum_counts {K} (lab : K -> string) (cnt : string -> K -> Z)
    (idx : list string) (ks : list K) (i : nat) :
  i < List.length idx ->
  cells_sum (map (fun k => {| Pd.label := lab k; Pd.dtype_of := Pd.number;
                              Pd.values := map (fun n => Pd.num (cnt n k)) idx |}) ks) i
  = row_total cnt ks (nth i idx "").
Proof.
  intros Hi. induction ks as [| k rest IH]; simpl; [reflexivity |].
  rewrite IH. cbn [Pd.values]. now rewrite (nth_map_lt _ idx i Pd.nan "").
Qed.

Lemma renamed_cases (l : string) :
  renamed l = if String.eqb l "CR_PARTIC_NAME" then "PARTICIPANT_NAME"
              else if String.eqb l "Posted" then "Received Posted" else l.
Proof.
  unfold renamed. cbn [Py.get].
  destruct (String.eqb l "CR_PARTIC_NAME"); [reflexivity |].
  now destruct (String.eqb l "Posted").
Qed.

Lemma renamed_not (name : string) (k : string * string) :
  Py.mem name derived_names = false ->
  String.eqb name "PARTICIPANT_NAME" = false ->
  String.eqb name "Received Posted" = false ->
  String.eqb (renamed (new_col_name k)) name = false.
Proof.
  intros Hd H1 H2. rewrite renamed_cases.
  destruct (String.eqb (new_col_name k) "CR_PARTIC_NAME");
    [now rewrite String.eqb_sym |].
  destruct (String.eqb (new_col_name k) "Posted");
    [now rewrite String.eqb_sym |].
  now apply new_col_name_not.
Qed.

(** The creditor aggregate, when there is one, is [creditor_frame]. *)
Lemma extract_creditor_details_inr (corpus : list transaction) (agg : Pd.frame string) :
  extract_creditor_details corpus = inr agg ->
  exists k0,
    filter names_posted (combinations corpus) = [k0] /\
    agg = creditor_frame corpus k0
            (filter (fun k => negb (names_posted k)) (combinations corpus)).
Proof.
  rewrite extract_creditor_details_eq.
  destruct (existsb _ (combinations corpus)); [discriminate |].
  destruct (filter names_posted (combinations corpus)) as [| k0 [| k1 more]];
    try discriminate.
  intros H. injection H as <-. now exists k0.
Qed.

Lemma creditor_frame_height (corpus : list transaction) (k0 : string * string)
    (others : list (string * string)) :
  Pd.height (creditor_frame corpus k0 others) = List.length (creditors corpus).
Proof. unfold creditor_frame. cbn [Pd.height Pd.values]. apply length_map. Qed.

(** C2. In every row of the creditor aggregate, "Grand Total" is the sum of
    the cells of the row under the count columns, the posted count
    included; the count columns are all the columns of the pivot. *)
Theorem grand_total_row_sum (corpus : list transaction) (agg : Pd.frame string) :
  extract_creditor_details corpus = inr agg ->
  exists names posted counts grand_total success,
    agg = names :: posted :: counts ++ [grand_total; success] /\
    Pd.label names = "PARTICIPANT_NAME" /\ Pd.dtype_of names = Pd.object /\
    Pd.label posted = "Received Posted" /\
    Pd.label grand_total = "Grand Total" /\
    Pd.label success = "Success" /\ Pd.dtype_of success = Pd.object /\
    (forall c, In c (posted :: counts) -> Pd.dtype_of c = Pd.number) /\
    List.length (posted :: counts) = List.length (combinations corpus) /\
    forall i, i < Pd.height agg ->
      nth i (Pd.values grand_total) Pd.nan = Pd.num (cells_sum (posted :: counts) i).
Proof.
  intros H. apply extract_creditor_details_inr in H.
  destruct H as [k0 [Hposted ->]].
  set (others := filter (fun k => negb (names_posted k)) (combinations corpus)).
  unfold creditor_frame.
  eexists _, _, _, _, _. split; [reflexivity |].
  repeat (split; [reflexivity |]).
  split; [| split].
  - intros c [<- | Hc]; [reflexivity |].
    apply in_map_iff in Hc. destruct Hc as [k [<- _]]. reflexivity.
  - cbn [List.length]. rewrite length_map.
    rewrite <- (filter_split_length names_posted (combinations corpus)).
    rewrite Hposted. reflexivity.
  - intros i Hi. fold (creditor_frame corpus k0 others) in Hi.
    rewrite creditor_frame_height in Hi. cbn [Pd.values].
    rewrite (nth_map_lt _ _ i Pd.nan "") by assumption.
    f_equal.
    change (cells_sum (?c :: ?rest) i)
      with (Pd.as_Z (nth i (Pd.values c) Pd.nan) + cells_sum rest i)%Z.
    rewrite cells_sum_counts by assumption. cbn [Pd.values].
    rewrite (nth_map_lt _ _ i Pd.nan "") by assumption. reflexivity.
Qed.

Lemma grand_total_row_sum_witness :
  exists names posted counts grand_total success,
    credit_a = names :: posted :: counts ++ [grand_total; success] /\
    Pd.label names = "PARTICIPANT_NAME" /\ Pd.dtype_of names = Pd.object /\
    Pd.label posted = "Received Posted" /\
    Pd.label grand_total = "Grand Total" /\
    Pd.label success = "Success" /\ Pd.dtype_of success = Pd.object /\
    (forall c, In c (posted :: counts) -> Pd.dtype_of c = Pd.number) /\
    List.length (posted :: counts) = List.length (combinations corpus_a) /\
    forall i, i < Pd.height credit_a ->
      nth i (Pd.values grand_total) Pd.nan = Pd.num (cells_sum (posted :: counts) i).
Proof.
  apply (grand_total_row_sum corpus_a credit_a). reflexivity.
Defined.

(** *** Selecting the columns of the aggregate *)

Lemma derived_not_received : Py.mem "Received Posted" derived_names = false.
Proof. vm_compute. reflexivity. Qed.

Lemma creditor_frame_select (corpus : list transaction) (k0 : string * string)
    (others : list (string * string)) :
  (forall k, In k others -> names_posted k = false) ->
  let idx := creditors corpus in
  let cnt := creditor_count corpus in
  Pd.getitem "Received Posted" (creditor_frame corpus k0 others)
    = inr (Pd.Series {| Pd.label := "Received Posted"; Pd.dtype_of := Pd.number;
                        Pd.values := map (fun n => Pd.num (cnt n k0)) idx |}) /\
  Pd.getitem "Grand Total" (creditor_frame corpus k0 others)
    = inr (Pd.Series {| Pd.label := "Grand Total"; Pd.dtype_of := Pd.number;
                        Pd.values := map (fun n => Pd.num (row_total cnt (k0 :: others) n)) idx |}) /\
  Pd.getitem "Success" (creditor_frame corpus k0 others)
    = inr (Pd.Series {| Pd.label := "Success"; Pd.dtype_of := Pd.object;
                        Pd.values := map (fun n => Pd.text (success_of (cnt n k0)
                                                  (row_total cnt (k0 :: others) n))) idx |}).
Proof.
  intros Hothers idx cnt. unfold creditor_frame. fold idx. fold cnt.
  set (colf := fun k : string * string =>
                 {| Pd.label := renamed (new_col_name k); Pd.dtype_of := Pd.number;
                    Pd.values := map (fun n => Pd.num (cnt n k)) idx |}).
  assert (Hlab : Pd.labels (map colf others)
                 = map (fun k => renamed (new_col_name k)) others).
  { now apply labels_labelled. }
  assert (Hgt : Pd.select "Grand Total" (map colf others) = []).
  { apply select_none. rewrite Hlab. apply mem_map_false. intros k _.
    apply renamed_not; [exact derived_not_grand_total | reflexivity | reflexivity]. }
  assert (Hsucc : Pd.select "Success" (map colf others) = []).
  { apply select_none. rewrite Hlab. apply mem_map_false. intros k _.
    apply renamed_not; [exact derived_not_success | reflexivity | reflexivity]. }
  assert (Hrec : Pd.select "Received Posted" (map colf others) = []).
  { apply select_none. rewrite Hlab. apply mem_map_false. intros k Hk.
    rewrite renamed_cases.
    destruct (String.eqb (new_col_name k) "CR_PARTIC_NAME"); [reflexivity |].
    specialize (Hothers k Hk). unfold names_posted in Hothers. rewrite Hothers.
    apply new_col_name_not. exact derived_not_received. }
  unfold Pd.getitem. rewrite !select_cons, !select_app, Hgt, Hsucc, Hrec.
  rewrite !select_cons. cbn [Pd.label]. eval_eqb.
  change (Pd.select ?n []) with (@nil (Pd.column string)).
  cbn [app]. repeat split; reflexivity.
Qed.

Lemma others_not_posted (corpus : list transaction) (k : string * string) :
  In k (filter (fun k => negb (names_posted k)) (combinations corpus)) ->
  names_posted k = false.
Proof. intros H. apply filter_In in H. now apply negb_true_iff. Qed.

(** *** Every creditor has a row to count *)

Lemma filled_creditor_key (t : transaction) :
  filled t ->
  exists c s m, CR_PARTIC_NAME t = Str c /\ ENDTOENDID t <> NaN /\
                Pd.group_key CR_PARTIC_NAME status_motive_key t = Some (c, (s, m)).
Proof.
  intros [He [_ [Hc [Hs [_ Hm]]]]]. unfold Pd.group_key, status_motive_key.
  destruct (CR_PARTIC_NAME t) as [| c]; [congruence |].
  destruct (TR_STATUS_NAME t) as [| s]; [congruence |].
  destruct (REJECT_MOTIVE_DESCRITION t) as [| m]; [congruence |].
  exists c, s, m. repeat split; assumption.
Qed.

Lemma creditor_count_nonneg (corpus : list transaction) (n : string) (k : string * string) :
  (0 <= creditor_count corpus n k)%Z.
Proof. apply count_nonneg. Qed.

(** In a filled corpus the count of an existing group is positive. *)
Lemma creditor_count_pos (corpus : list transaction) (n : string) (k : string * string) :
  Forall filled corpus ->
  In (n, k) (Pd.groups CR_PARTIC_NAME status_motive_key corpus) ->
  (1 <= creditor_count corpus n k)%Z.
Proof.
  intros Hfilled Hg. apply in_groups in Hg. destruct Hg as [t [Ht Hk]].
  unfold creditor_count, Pd.count.
  assert (Hin : In t (filter (fun t => Pd.in_group pair_dec CR_PARTIC_NAME status_motive_key n k t
                                       && negb (isna (ENDTOENDID t))) corpus)).
  { apply filter_In. split; [assumption |].
    rewrite Forall_forall in Hfilled.
    destruct (filled_creditor_key t (Hfilled t Ht)) as [c [s [m [_ [He _]]]]].
    apply andb_true_iff. split.
    - now apply in_group_true.
    - destruct (ENDTOENDID t); [congruence | reflexivity]. }
  destruct (filter _ corpus); [destruct Hin |]. simpl. lia.
Qed.

Lemma row_total_ge {K} (cnt : string -> K -> Z) (ks : list K) (n : string) (k : K) :
  (forall k', 0 <= cnt n k')%Z -> In k ks -> (cnt n k <= row_total cnt ks n)%Z.
Proof.
  intros Hpos. induction ks as [| k' rest IH]; intros Hin; [destruct Hin |].
  assert (Hrest : (0 <= row_total cnt rest n)%Z).
  { clear IH Hin. induction rest as [| a r IHr]; simpl; [lia |].
    specialize (Hpos a). unfold row_total in *. simpl. lia. }
  change (row_total cnt (k' :: rest) n) with (cnt n k' + row_total cnt rest n)%Z.
  destruct Hin as [-> | Hin]; [lia |].
  specialize (IH Hin). specialize (Hpos k'). lia.
Qed.

(** Every column of the pivot is the posted one or one of the others. *)
Lemma combination_split (corpus : list transaction) (k0 k : string * string) :
  filter names_posted (combinations corpus) = [k0] ->
  In k (combinations corpus) ->
  In k (k0 :: filter (fun k => negb (names_posted k)) (combinations corpus)).
Proof.
  intros Hposted Hk. destruct (names_posted k) eqn:E.
  - left. assert (H : In k (filter names_posted (combinations corpus))).
    { apply filter_In. now split. }
    rewrite Hposted in H. destruct H as [H | []]. exact H.
  - right. apply filter_In. split; [assumption | now rewrite E].
Qed.

Lemma grand_total_pos (corpus : list transaction) (k0 : string * string) (n : string) :
  Forall filled corpus ->
  filter names_posted (combinations corpus) = [k0] ->
  In n (creditors corpus) ->
  (1 <= row_total (creditor_count corpus)
          (k0 :: filter (fun k => negb (names_posted k)) (combinations corpus)) n)%Z.
Proof.
  intros Hfilled Hposted Hn. unfold creditors in Hn.
  apply index_labels_In in Hn. destruct Hn as [k Hg].
  assert (Hk : In k (combinations corpus)).
  { unfold combinations. apply column_labels_In. now exists n. }
  apply (combination_split corpus k0 k Hposted) in Hk.
  pose proof (creditor_count_pos corpus n k Hfilled Hg) as Hpos.
  pose proof (row_total_ge (creditor_count corpus) _ n k
                (creditor_count_nonneg corpus n) Hk) as Hge.
  lia.
Qed.

Lemma grand_total_filled (corpus : list transaction) (agg : Pd.frame string) :
  Forall filled corpus ->
  extract_creditor_details corpus = inr agg ->
  exists grand_total,
    Pd.getitem "Grand Total" agg = inr (Pd.Series grand_total) /\
    List.length (Pd.values grand_total) = Pd.height agg /\
    forall v, In v (Pd.values grand_total) -> exists g, v = Pd.num g /\ (1 <= g)%Z.
Proof.
  intros Hfilled H. apply extract_creditor_details_inr in H.
  destruct H as [k0 [Hposted ->]].
  destruct (creditor_frame_select corpus k0 _ (others_not_posted corpus))
    as [_ [Hgt _]].
  eexists. split; [exact Hgt |]. cbn [Pd.values]. split.
  - now rewrite creditor_frame_height, length_map.
  - intros v Hv. apply in_map_iff in Hv. destruct Hv as [n [<- Hn]].
    eexists. split; [reflexivity |]. now apply grand_total_pos.
Qed.

(** C9. In the creditor aggregate of a Unified Corpus every row has a
    "Grand Total" of at least 1: the division that computes "Success" never
    divides by zero. *)
Theorem grand_total_at_least_one
    (fs : filesystem) (source_path : string) (files : list string)
    (corpus : list transaction) (agg : Pd.frame string) :
  merge_files fs source_path files = inr corpus ->
  extract_creditor_details corpus = inr agg ->
  exists grand_total,
    Pd.getitem "Grand Total" agg = inr (Pd.Series grand_total) /\
    List.length (Pd.values grand_total) = Pd.height agg /\
    forall v, In v (Pd.values grand_total) -> exists g, v = Pd.num g /\ (1 <= g)%Z.
Proof.
  intros Hmerge Hagg. apply (grand_total_filled corpus); [| assumption].
  eapply merge_files_filled. eassumption.
Qed.

Lemma grand_total_at_least_one_witness :
  exists grand_total,
    Pd.getitem "Grand Total" credit_a = inr (Pd.Series grand_total) /\
    List.length (Pd.values grand_total) = Pd.height credit_a /\
    forall v, In v (Pd.values grand_total) -> exists g, v = Pd.num g /\ (1 <= g)%Z.
Proof.
  apply (grand_total_at_least_one disk "/in" ["a.xlsx"] corpus_a credit_a); reflexivity.
Defined.

(** *** The success percentage of a row *)


Lemma creditor_success_rows (corpus : list transaction) (agg : Pd.frame string) :
  extract_creditor_details corpus = inr agg ->
  exists posted grand_total success,
    Pd.getitem "Received Posted" agg = inr (Pd.Series posted) /\
    Pd.getitem "Grand Total" agg = inr (Pd.Series grand_total) /\
    Pd.getitem "Success" agg = inr (Pd.Series success) /\
    forall i, i < Pd.height agg ->
      exists p g,
        nth i (Pd.values posted) Pd.nan = Pd.num p /\
        nth i (Pd.values grand_total) Pd.nan = Pd.num g /\
        (0 <= p <= g)%Z /\
        nth i (Pd.values success) Pd.nan = Pd.text (success_of p g).
Proof.
  intros H. apply extract_creditor_details_inr in H.
  destruct H as [k0 [Hposted ->]].
  destruct (creditor_frame_select corpus k0 _ (others_not_posted corpus))
    as [Hp [Hg Hs]].
  eexists _, _, _. split; [exact Hp |]. split; [exact Hg |]. split; [exact Hs |].
  intros i Hi. rewrite creditor_frame_height in Hi. cbn [Pd.values].
  set (others := filter (fun k => negb (names_posted k)) (combinations corpus)).
  exists (creditor_count corpus (nth i (creditors corpus) "") k0),
         (row_total (creditor_count corpus) (k0 :: others) (nth i (creditors corpus) "")).
  rewrite !(nth_map_lt _ _ i Pd.nan "") by assumption.
  repeat split.
  - apply creditor_count_nonneg.
  - apply row_total_ge; [apply creditor_count_nonneg | now left].
Qed.

(** ** The reconciler *)


Lemma unique_NoDup (l : list string) : Pd.unique l = true <-> NoDup l.
Proof.
  induction l as [| x rest IH]; simpl.
  - split; [constructor | reflexivity].
  - rewrite andb_true_iff, negb_true_iff, mem_false, IH. split.
    + intros [H1 H2]. now constructor.
    + intros H. inversion H. now split.
Qed.

Lemma lookup_unique (s : list (string * Z)) (l : string) (z : Z) :
  NoDup (map fst s) -> In (l, z) s -> Pd.lookup l s = Some z.
Proof.
  induction s as [| [l' z'] rest IH]; intros Hnd Hin; [destruct Hin |].
  simpl in *. inversion Hnd as [| ? ? Hnotin Hrest]; subst.
  destruct Hin as [E | Hin].
  - injection E as -> ->. now rewrite String.eqb_refl.
  - destruct (String.eqb_spec l' l) as [-> | Hne].
    + exfalso. apply Hnotin. apply in_map_iff. now exists (l, z).
    + now apply IH.
Qed.

(** What [append_row] does, when it succeeds, with the sums of the frame. *)
Lemma append_row_sums (df df' : Pd.frame string) :
  Pd.append_row (Pd.sum_columns df) df = inr df' ->
  exists cell : Pd.column string -> Pd.value,
    df' = map (fun c => {| Pd.label := Pd.label c; Pd.dtype_of := Pd.dtype_of c;
                           Pd.values := Pd.values c ++ [cell c] |}) df /\
    (forall c, In c df -> Pd.dtype_of c = Pd.number ->
               cell c = Pd.num (Pd.total (Pd.values c))) /\
    (forall c s, cell c <> Pd.text s).
Proof.
  unfold Pd.append_row. destruct (Pd.unique (map fst (Pd.sum_columns df))) eqn:Hu;
    [| discriminate].
  intros H. injection H as <-.
  exists (fun c => match Pd.lookup (Pd.label c) (Pd.sum_columns df) with
                   | Some z => Pd.num z
                   | None => Pd.nan
                   end).
  split; [reflexivity |]. split.
  - intros c Hc Hnum. apply unique_NoDup in Hu.
    rewrite (lookup_unique _ (Pd.label c) (Pd.total (Pd.values c)));
      [reflexivity | assumption |].
    unfold Pd.sum_columns. apply in_map_iff. exists c. split; [reflexivity |].
    unfold Pd.numeric. apply filter_In. split; [assumption |]. now rewrite Hnum.
  - intros c s. destruct (Pd.lookup (Pd.label c) (Pd.sum_columns df)); discriminate.
Qed.

Lemma iloc_last_first_inr (v : Pd.value) (df df' : Pd.frame string) :
  Pd.iloc_last_first v df = inr df' ->
  exists c rest, df = c :: rest /\ df' = Pd.set_last_cell v c :: rest.
Proof.
  unfold Pd.iloc_last_first. destruct df as [| c rest]; [discriminate |].
  destruct (Nat.eqb (Pd.height (c :: rest)) 0); [discriminate |].
  intros H. injection H as <-. now exists c, rest.
Qed.

Lemma iloc_last_last_inr (v : Pd.value) (df df' : Pd.frame string) :
  Pd.iloc_last_last v df = inr df' ->
  exists front c, df = front ++ [c] /\ df' = front ++ [Pd.set_last_cell v c].
Proof.
  unfold Pd.iloc_last_last. destruct (rev df) as [| c front] eqn:E; [discriminate |].
  destruct (Nat.eqb (Pd.height df) 0); [discriminate |].
  intros H. injection H as <-. exists (rev front), c. split; [| reflexivity].
  rewrite <- (rev_involutive df), E. reflexivity.
Qed.

Lemma as_Z_blank_zero (v : Pd.value) : Pd.as_Z (Pd.blank_zero v) = Pd.as_Z v.
Proof. destruct v as [| s | [| p | p]]; reflexivity. Qed.

Lemma total_blank_zero (vs : list Pd.value) :
  Pd.total (map Pd.blank_zero vs) = Pd.total vs.
Proof.
  induction vs as [| v rest IH]; simpl; [reflexivity |].
  unfold Pd.total in *. simpl. now rewrite IH, as_Z_blank_zero.
Qed.


(** The frame before the two cells of the last row are overwritten: the
    merged frame, filled, with its row of sums, zeros blanked. *)
Lemma post_processing_inr (df1 df2 report : Pd.frame string) :
  post_processing df1 df2 = inr report ->
  exists (merged : Pd.frame string) (cell : Pd.column string -> Pd.value)
         (first : Pd.column string) (rest front : Pd.frame string)
         (last : Pd.column string) (success : list F64.float),
    Pd.merge_outer "PARTICIPANT_NAME" df1 df2 = inr merged /\
    (forall c, In c (Pd.fillna (Pd.num 0) merged) -> Pd.dtype_of c = Pd.number ->
               cell c = Pd.num (Pd.total (Pd.values c))) /\
    (forall c s, cell c <> Pd.text s) /\
    Pd.mask_zero
      (map (fun c => {| Pd.label := Pd.label c; Pd.dtype_of := Pd.dtype_of c;
                        Pd.values := Pd.values c ++ [cell c] |})
           (Pd.fillna (Pd.num 0) merged)) = first :: rest /\
    Pd.set_last_cell (Pd.text "GRAND TOTAL") first :: rest = front ++ [last] /\
    (exists sel col texts,
        Pd.getitem "Success" (front ++ [last]) = inr sel /\
        Pd.series sel = inr col /\ Pd.str col = inr texts /\
        Pd.astype_float (Pd.str_replace "%" texts) = inr success) /\
    report = front ++ [Pd.set_last_cell (Pd.text (percent (F64.mean success))) last].
Proof.
  unfold post_processing. intros H.
  apply bind_inr in H. destruct H as [merged [Hmerge H]].
  apply bind_inr in H. destruct H as [m2 [Happend H]].
  apply bind_inr in H. destruct H as [m4 [Hfirst H]].
  apply bind_inr in H. destruct H as [col [Hsel H]].
  apply bind_inr in H. destruct H as [texts [Hstr H]].
  apply bind_inr in H. destruct H as [success [Hfloat H]].
  apply append_row_sums in Happend. destruct Happend as [cell [-> [Hcell Hnotext]]].
  apply iloc_last_first_inr in Hfirst. destruct Hfirst as [first [rest [Hm3 ->]]].
  apply iloc_last_last_inr in H. destruct H as [front [last [Hm4 ->]]].
  apply bind_inr in Hsel. destruct Hsel as [sel [Hget Hser]].
  exists merged, cell, first, rest, front, last, success.
  split; [assumption |]. split; [assumption |]. split; [assumption |].
  split; [assumption |]. split; [assumption |]. split; [| reflexivity].
  exists sel, col, texts. rewrite <- Hm4. now repeat split.
Qed.


(** The numeric columns of the report: the filled cells of a column of the
    merged frame, then their sum, zeros blanked.  The two columns whose
    last cell is overwritten with a text are object columns. *)
Lemma report_numeric_columns (df1 df2 report : Pd.frame string) :
  post_processing df1 df2 = inr report ->
  forall c, In c report -> Pd.dtype_of c = Pd.number ->
    exists merged c1,
      Pd.merge_outer "PARTICIPANT_NAME" df1 df2 = inr merged /\
      In c1 (Pd.fillna (Pd.num 0) merged) /\ Pd.dtype_of c1 = Pd.number /\
      Pd.values c = map Pd.blank_zero (Pd.values c1)
                    ++ [Pd.blank_zero (Pd.num (Pd.total (Pd.values c1)))].
Proof.
  intros H c Hc Hnum.
  apply post_processing_inr in H.
  destruct H as [merged [cell [first [rest [front [last [success
                   [Hmerge [Hcell [_ [Hm3 [Hm4 [_ ->]]]]]]]]]]]]].
  exists merged.
  apply in_app_or in Hc. destruct Hc as [Hc | [<- | []]]; [| discriminate].
  assert (Hc' : In c (Pd.set_last_cell (Pd.text "GRAND TOTAL") first :: rest)).
  { rewrite Hm4. apply in_or_app. now left. }
  destruct Hc' as [<- | Hc']; [discriminate |].
  assert (Hin : In c (first :: rest)) by now right.
  rewrite <- Hm3 in Hin. unfold Pd.mask_zero, Pd.map_values in Hin.
  rewrite map_map in Hin. apply in_map_iff in Hin.
  destruct Hin as [c1 [<- Hc1]]. cbn [Pd.label Pd.dtype_of Pd.values] in *.
  exists c1. split; [assumption |]. split; [assumption |]. split; [assumption |].
  rewrite map_app. cbn [map]. now rewrite (Hcell c1 Hc1 Hnum).
Qed.

(** The last cell of a numeric column of the report against the sum of the
    cells above it. *)
Lemma report_total_cell (df1 df2 report : Pd.frame string) :
  post_processing df1 df2 = inr report ->
  forall c, In c report -> Pd.dtype_of c = Pd.number ->
    last (Pd.values c) Pd.nan
    = Pd.blank_zero (Pd.num (Pd.total (removelast (Pd.values c)))).
Proof.
  intros H c Hc Hnum.
  destruct (report_numeric_columns df1 df2 report H c Hc Hnum)
    as [merged [c1 [_ [_ [_ ->]]]]].
  now rewrite last_last, removelast_last, total_blank_zero.
Qed.

(** *** The rows of the outer join *)








(** *** Sums of counts *)






Lemma key_column_inr (key : string) (df : Pd.frame string) (c : Pd.column string) :
  Pd.key_column key df = inr c -> Pd.select key df = [c].
Proof.
  unfold Pd.key_column. destruct (Pd.select key df) as [| c' [| c'' more]];
    try discriminate.
  intros H. now injection H as ->.
Qed.



(** *** The aggregates as columns of counts *)









(** *** The success cell of the GRAND TOTAL row *)



Lemma merge_outer_snoc (key : string) (df1 df2 merged : Pd.frame string)
    (c0 : Pd.column string) (rest1 front2 : Pd.frame string) (c2 : Pd.column string) :
  Pd.merge_outer key df1 df2 = inr merged ->
  df1 = c0 :: rest1 ->
  Pd.drop key df2 = front2 ++ [c2] ->
  exists mfirst mmid mlast,
    merged = mfirst :: mmid ++ [mlast] /\
    Pd.label mlast = Pd.suffixed (Pd.labels (Pd.drop key df1)) "_y" (Pd.label c2).
Proof.
  unfold Pd.merge_outer. intros H -> Hdrop.
  apply bind_inr in H. destruct H as [lk [_ H]].
  apply bind_inr in H. destruct H as [rk [_ H]].
  injection H as <-. rewrite Hdrop, map_app. cbn [map].
  eexists _, _, _. split.
  - rewrite app_assoc. cbn [app]. reflexivity.
  - reflexivity.
Qed.





(** *** The last row of the report *)

Lemma merge_outer_heights (key : string) (df1 df2 merged : Pd.frame string) :
  Pd.merge_outer key df1 df2 = inr merged ->
  exists n, forall c, In c merged -> List.length (Pd.values c) = n.
Proof.
  unfold Pd.merge_outer. intros H.
  apply bind_inr in H. destruct H as [lk [_ H]].
  apply bind_inr in H. destruct H as [rk [_ H]].
  injection H as <-.
  exists (List.length (Pd.join_rows (Pd.values lk) (Pd.values rk))).
  intros c Hc. apply in_app_or in Hc. destruct Hc as [Hc | Hc];
    apply in_map_iff in Hc; destruct Hc as [c' [<- _]].
  - destruct (Pd.has_label key c'); cbn [Pd.values]; apply length_map.
  - cbn [Pd.values]. apply length_map.
Qed.

Lemma merge_outer_first (key : string) (df1 df2 merged : Pd.frame string)
    (c0 : Pd.column string) (rest1 : Pd.frame string) :
  Pd.merge_outer key df1 df2 = inr merged ->
  df1 = c0 :: rest1 -> Pd.label c0 = key ->
  exists mfirst mrest, merged = mfirst :: mrest /\ Pd.label mfirst = key.
Proof.
  unfold Pd.merge_outer. intros H -> Hkey.
  apply bind_inr in H. destruct H as [lk [_ H]].
  apply bind_inr in H. destruct H as [rk [_ H]].
  injection H as <-. cbn [map app]. eexists _, _. split; [reflexivity |].
  unfold Pd.has_label. rewrite Hkey, String.eqb_refl. reflexivity.
Qed.

Lemma set_last_length (v : Pd.value) (l : list Pd.value) :
  l <> [] -> List.length (Pd.set_last v l) = List.length l.
Proof.
  intros Hne. unfold Pd.set_last. rewrite length_app. cbn [List.length].
  destruct (exists_last Hne) as [l' [x ->]].
  rewrite removelast_last, length_app. reflexivity.
Qed.

Lemma set_last_last (v : Pd.value) (l : list Pd.value) :
  last (Pd.set_last v l) Pd.nan = v.
Proof. unfold Pd.set_last. apply last_last. Qed.

(** The last row of the report is the GRAND TOTAL row: every column has a
    cell on it, and the first one holds its name. *)
Lemma report_last_row (df1 df2 report : Pd.frame string) :
  post_processing df1 df2 = inr report ->
  (exists c0 rest1, df1 = c0 :: rest1 /\ Pd.label c0 = "PARTICIPANT_NAME") ->
  (exists front2 c2, Pd.drop "PARTICIPANT_NAME" df2 = front2 ++ [c2]) ->
  exists names rest,
    report = names :: rest /\
    Pd.label names = "PARTICIPANT_NAME" /\
    last (Pd.values names) Pd.nan = Pd.text "GRAND TOTAL" /\
    forall c, In c report -> List.length (Pd.values c) = List.length (Pd.values names).
Proof.
  intros H [c0 [rest1 [H1 Hkey]]] [front2 [c2 H2]].
  apply post_processing_inr in H.
  destruct H as [merged [cell [first [rest [front [last [success
                   [Hmerge [_ [_ [Hm3 [Hm4 [_ ->]]]]]]]]]]]]].
  destruct (merge_outer_heights _ _ _ _ Hmerge) as [n Hn].
  destruct (merge_outer_first _ _ _ _ _ _ Hmerge H1 Hkey) as [mf [mr [Hm Hlab]]].
  destruct (merge_outer_snoc _ _ _ _ _ _ _ _ Hmerge H1 H2)
    as [mfirst [mmid [mlast [E _]]]].
  rewrite E in Hm. injection Hm as Hf Hr. subst mf mr merged.
  set (fill := fun c : Pd.column string =>
                 {| Pd.label := Pd.label c; Pd.dtype_of := Pd.dtype_of c;
                    Pd.values := map (fun x => if Pd.is_nan x then Pd.num 0 else x)
                                     (Pd.values c) |}).
  set (g := fun c : Pd.column string =>
              {| Pd.label := Pd.label c; Pd.dtype_of := Pd.dtype_of c;
                 Pd.values := map Pd.blank_zero
                                (Pd.values (fill c) ++ [cell (fill c)]) |}).
  assert (Hg : first :: rest = map g (mfirst :: mmid ++ [mlast])).
  { rewrite <- Hm3. unfold Pd.mask_zero, Pd.fillna, Pd.map_values.
    rewrite !map_map. reflexivity. }
  cbn [map] in Hg. rewrite map_app in Hg. cbn [map] in Hg.
  injection Hg as -> ->. clear Hm3.
  rewrite app_comm_cons in Hm4. apply app_inj_tail in Hm4.
  destruct Hm4 as [<- <-].
  assert (Hlen : forall c, In c (mfirst :: mmid ++ [mlast]) ->
                           List.length (Pd.values (g c)) = S n).
  { intros c Hc. unfold g, fill. cbn [Pd.values].
    rewrite length_map, length_app, length_map, (Hn c Hc). cbn [List.length]. lia. }
  assert (Hset : forall v c, In c (mfirst :: mmid ++ [mlast]) ->
                             List.length (Pd.values (Pd.set_last_cell v (g c))) = S n).
  { intros v c Hc. unfold Pd.set_last_cell. cbn [Pd.values].
    rewrite set_last_length; [now apply Hlen |].
    intros Hnil. specialize (Hlen c Hc). rewrite Hnil in Hlen. discriminate. }
  eexists _, _. split; [reflexivity |]. split; [exact Hlab |].
  split; [apply set_last_last |].
  rewrite (Hset _ mfirst) by now left.
  intros c [<- | Hc].
  - apply Hset. now left.
  - apply in_app_or in Hc. destruct Hc as [Hc | [<- | []]].
    + apply in_map_iff in Hc. destruct Hc as [c' [<- Hc']].
      apply Hlen. right. apply in_or_app. now left.
    + apply Hset. right. apply in_or_app. right. now left.
Qed.




(** ** The success percentage as a binary64 number *)

(** *** The quotient of two counts, times a hundred, is finite *)

Section Binary64Facts.

Local Open Scope Z_scope.

Lemma digits2_size (p : positive) : digits2_pos p = Pos.size p.
Proof. induction p as [p IH | p IH |]; simpl; now rewrite ?IH. Qed.

(** A positive number of [d] binary digits lies in [[2^(d-1), 2^d)]. *)
Lemma digits_bounds (m : positive) :
  2 ^ (Zpos (digits2_pos m) - 1) <= Zpos m < 2 ^ Zpos (digits2_pos m).
Proof.
  rewrite digits2_size. split.
  - pose proof (Pos.size_le m) as H.
    assert (H' : 2 ^ Zpos (Pos.size m) <= 2 * Zpos m).
    { rewrite <- Pos2Z.inj_pow. change (2 * Zpos m) with (Zpos m~0).
      now apply Pos2Z.pos_le_pos. }
    replace (Zpos (Pos.size m)) with (Zpos (Pos.size m) - 1 + 1) in H' by lia.
    rewrite Z.pow_add_r in H' by lia. lia.
  - pose proof (Pos.size_gt m) as H. rewrite <- Pos2Z.inj_pow.
    now apply Pos2Z.pos_lt_pos.
Qed.

Lemma digits_unique (m : positive) (d : Z) :
  2 ^ (d - 1) <= Zpos m < 2 ^ d -> Zpos (digits2_pos m) = d.
Proof.
  intros [Hlo Hhi]. pose proof (digits_bounds m) as [Hlo' Hhi'].
  assert (Hd : 0 < d).
  { destruct (Z.lt_ge_cases 0 d) as [H | H]; [assumption |].
    exfalso. destruct (Z.eq_dec d 0) as [-> | Hne].
    - simpl in Hhi. lia.
    - rewrite Z.pow_neg_r in Hhi by lia. lia. }
  set (d' := Zpos (digits2_pos m)) in *.
  assert (Hd' : 0 < d') by (unfold d'; lia).
  destruct (Z.lt_trichotomy d' d) as [H | [H | H]]; [| assumption |]; exfalso.
  - assert (2 ^ d' <= 2 ^ (d - 1)) by (apply Z.pow_le_mono_r; lia). lia.
  - assert (2 ^ d <= 2 ^ (d' - 1)) by (apply Z.pow_le_mono_r; lia). lia.
Qed.

Lemma shr_1_div2 (mrs : shr_record) :
  0 <= shr_m mrs -> shr_m (shr_1 mrs) = shr_m mrs / 2.
Proof.
  destruct mrs as [m r s]. simpl. intros Hm. rewrite <- Z.div2_div.
  destruct m as [| p | p]; [reflexivity | | lia].
  destruct p; reflexivity.
Qed.

Lemma iter_shr_m (p : positive) :
  forall mrs, 0 <= shr_m mrs ->
    shr_m (iter_pos shr_1 p mrs) = shr_m mrs / 2 ^ Zpos p.
Proof.
  induction p as [p IH | p IH |]; intros mrs Hm; simpl iter_pos.
  - assert (H1 : 0 <= shr_m (shr_1 mrs)).
    { rewrite shr_1_div2 by assumption. apply Z.div_pos; lia. }
    assert (H2 : 0 <= shr_m (iter_pos shr_1 p (shr_1 mrs))).
    { rewrite IH by assumption. apply Z.div_pos; [assumption |]. apply Z.pow_pos_nonneg; lia. }
    rewrite IH by assumption. rewrite IH by assumption. rewrite shr_1_div2 by assumption.
    rewrite !Z.div_div by (try apply Z.pow_pos_nonneg; lia).
    f_equal. rewrite (Pos2Z.inj_xI p), Z.pow_add_r, Z.pow_mul_r by lia.
    change (2 ^ 2) with 4. rewrite Z.pow_1_r.
    replace (4 ^ Zpos p) with (2 ^ Zpos p * 2 ^ Zpos p); [lia |].
    rewrite <- Z.pow_mul_l. reflexivity.
  - assert (H2 : 0 <= shr_m (iter_pos shr_1 p mrs)).
    { rewrite IH by assumption. apply Z.div_pos; [assumption |]. apply Z.pow_pos_nonneg; lia. }
    rewrite IH by assumption. rewrite IH by assumption.
    rewrite !Z.div_div by (try apply Z.pow_pos_nonneg; lia).
    f_equal. rewrite (Pos2Z.inj_xO p), Z.pow_mul_r by lia.
    change (2 ^ 2) with 4. rewrite <- Z.pow_mul_l. reflexivity.
  - rewrite shr_1_div2 by assumption. now rewrite Z.pow_1_r.
Qed.

Lemma shr_record_of_loc_m (m : Z) (l : location) :
  shr_m (shr_record_of_loc m l) = m.
Proof. destruct l as [| []]; reflexivity. Qed.

Lemma round_nearest_even_range (m : Z) (l : location) :
  m <= round_nearest_even m l <= m + 1.
Proof.
  destruct l as [| []]; simpl; try lia. destruct (Z.even m); lia.
Qed.

(** The first shift of [binary_round_aux] leaves a mantissa of 53 digits. *)
Lemma shr_fexp_53 (m : positive) (e : Z) (l : location) :
  let d := Zpos (digits2_pos m) in
  53 <= d -> -1074 <= e + d - 53 ->
  let '(mrs, e') := shr_fexp F64.prec F64.emax (Zpos m) e l in
  2 ^ 52 <= shr_m mrs < 2 ^ 53 /\ e' = e + d - 53.
Proof.
  intros d Hd He. unfold shr_fexp, fexp, emin, F64.prec, F64.emax. cbn [Zdigits2].
  fold d. rewrite Z.max_l by lia.
  replace (d + e - 53 - e) with (d - 53) by lia.
  pose proof (digits_bounds m) as [Hlo Hhi]. fold d in Hlo, Hhi.
  unfold shr. destruct (d - 53) as [| p | p] eqn:E; [| | lia].
  - rewrite shr_record_of_loc_m. assert (d = 53) by lia.
    replace (d - 1) with 52 in Hlo by lia. replace d with 53 in Hhi by lia.
    split; [lia | lia].
  - rewrite iter_shr_m by (rewrite shr_record_of_loc_m; lia).
    rewrite shr_record_of_loc_m. split; [| lia].
    assert (Hp : 0 < 2 ^ Zpos p) by (apply Z.pow_pos_nonneg; lia).
    split.
    + apply Z.div_le_lower_bound; [assumption |].
      rewrite <- Z.pow_add_r by lia. replace (Zpos p + 52) with (d - 1) by lia.
      assumption.
    + apply Z.div_lt_upper_bound; [assumption |].
      rewrite <- Z.pow_add_r by lia. replace (Zpos p + 53) with d by lia.
      assumption.
Qed.

Lemma digits_ge (m : positive) (k : Z) :
  0 <= k -> 2 ^ k <= Zpos m -> k < Zpos (digits2_pos m).
Proof.
  intros Hk H. pose proof (digits_bounds m) as [_ Hhi].
  apply (Z.pow_lt_mono_r_iff 2); lia.
Qed.

Lemma digits_le (m : positive) (k : Z) :
  0 <= k -> Zpos m < 2 ^ k -> Zpos (digits2_pos m) <= k.
Proof.
  intros Hk H. pose proof (digits_bounds m) as [Hlo _].
  assert (Zpos (digits2_pos m) - 1 < k); [| lia].
  apply (Z.pow_lt_mono_r_iff 2); lia.
Qed.

(** Rounding a mantissa of at least 53 digits, clear of underflow and
    overflow, gives a finite float with a mantissa of 53 digits. *)
Lemma round_finite (sx : bool) (m : positive) (e : Z) (lx : location) :
  let d := Zpos (digits2_pos m) in
  53 <= d -> -1074 <= e + d - 53 -> e + d - 53 < 971 ->
  exists m' e',
    binary_round_aux F64.prec F64.emax sx (Zpos m) e lx = S754_finite sx m' e' /\
    Zpos (digits2_pos m') = 53 /\ e + d - 53 <= e' <= e + d - 52.
Proof.
  intros d Hd Hlow Hhigh. unfold binary_round_aux.
  pose proof (shr_fexp_53 m e lx Hd Hlow) as H1. fold d in H1.
  destruct (shr_fexp F64.prec F64.emax (Zpos m) e lx) as [mrs1 e1].
  destruct H1 as [Hm1 ->].
  pose proof (round_nearest_even_range (shr_m mrs1) (loc_of_shr_record mrs1)) as Hr.
  destruct (round_nearest_even (shr_m mrs1) (loc_of_shr_record mrs1)) as [| q | q];
    [lia | | lia].
  assert (Hq53 : 53 <= Zpos (digits2_pos q)).
  { assert (52 < Zpos (digits2_pos q)) by (apply digits_ge; lia). lia. }
  assert (Hq54 : Zpos (digits2_pos q) <= 54).
  { apply digits_le; [lia |]. change (2 ^ 54) with (2 * 2 ^ 53). lia. }
  pose proof (shr_fexp_53 q (e + d - 53) loc_Exact Hq53) as H2.
  destruct (shr_fexp F64.prec F64.emax (Zpos q) (e + d - 53) loc_Exact) as [mrs2 e2].
  destruct H2 as [Hm2 ->]; [lia |].
  destruct (shr_m mrs2) as [| m' | m'] eqn:E; [lia | | lia].
  unfold F64.emax, F64.prec.
  destruct (Z.leb_spec (e + d - 53 + Zpos (digits2_pos q) - 53) (1024 - 53)) as [_ | Hbad];
    [| lia].
  exists m', (e + d - 53 + Zpos (digits2_pos q) - 53).
  split; [reflexivity |]. split; [| lia].
  apply digits_unique. change (53 - 1) with 52. lia.
Qed.

Lemma digits_shift (m : positive) (k : positive) :
  digits2_pos (Pos.iter xO m k) = (digits2_pos m + k)%positive.
Proof.
  induction k as [| k IH] using Pos.peano_ind.
  - simpl. lia.
  - rewrite Pos.iter_succ. simpl. rewrite IH. lia.
Qed.

(** The float of a positive integer below [2^63]. *)
Lemma of_Z_finite (z : Z) :
  0 < z < 2 ^ 63 ->
  exists m e, F64.of_Z z = S754_finite false m e /\
              Zpos (digits2_pos m) = 53 /\ -52 <= e <= 11.
Proof.
  intros [Hpos Hlt]. destruct z as [| p | p]; [lia | | lia].
  unfold F64.of_Z, binary_normalize, binary_round.
  assert (Hd : Zpos (digits2_pos p) <= 63) by (apply digits_le; lia).
  unfold fexp, emin, F64.prec, F64.emax, shl_align.
  rewrite Z.max_l by lia.
  destruct (Zpos (digits2_pos p) + 0 - 53 - 0) as [| k | k] eqn:E.
  - destruct (round_finite false p 0 loc_Exact) as [m' [e' [H [Hm He]]]]; try lia.
    exists m', e'. split; [exact H |]. split; [assumption | lia].
  - destruct (round_finite false p 0 loc_Exact) as [m' [e' [H [Hm He]]]]; try lia.
    exists m', e'. split; [exact H |]. split; [assumption | lia].
  - pose proof (digits_shift p k) as Hs.
    assert (Hk : Zpos (digits2_pos (Pos.iter xO p k)) = 53) by (rewrite Hs; lia).
    destruct (round_finite false (Pos.iter xO p k) (Zpos (digits2_pos p) + 0 - 53) loc_Exact)
      as [m' [e' [H [Hm He]]]]; try lia.
    exists m', e'. split; [exact H |]. split; [assumption | lia].
Qed.

(** The quotient of two such floats. *)
Lemma div_finite (m1 m2 : positive) (e1 e2 : Z) :
  Zpos (digits2_pos m1) = 53 -> Zpos (digits2_pos m2) = 53 ->
  -500 <= e1 <= 500 -> -500 <= e2 <= 500 ->
  exists m e, F64.div (S754_finite false m1 e1) (S754_finite false m2 e2)
              = S754_finite false m e /\
              Zpos (digits2_pos m) = 53 /\ e1 - e2 - 53 <= e <= e1 - e2 - 51.
Proof.
  intros Hd1 Hd2 He1 He2. unfold F64.div, SFdiv, SFdiv_core_binary.
  cbn [Zdigits2 xorb]. rewrite Hd1, Hd2.
  unfold fexp, emin, F64.prec, F64.emax.
  rewrite Z.max_l by lia. rewrite Z.min_l by lia.
  replace (e1 - e2 - (53 + e1 - (53 + e2) - 53)) with 53 by lia.
  rewrite Z.shiftl_mul_pow2 by lia.
  pose proof (digits_bounds m1) as [Hlo1 Hhi1]. pose proof (digits_bounds m2) as [Hlo2 Hhi2].
  rewrite Hd1 in Hlo1, Hhi1. rewrite Hd2 in Hlo2, Hhi2.
  change (53 - 1) with 52 in *.
  pose proof (Z_div_mod (Zpos m1 * 2 ^ 53) (Zpos m2) ltac:(lia)) as Hdiv.
  destruct (Z.div_eucl (Zpos m1 * 2 ^ 53) (Zpos m2)) as [q r].
  destruct Hdiv as [Heq Hr].
  assert (Hq : 2 ^ 52 <= q < 2 ^ 54).
  { change (2 ^ 54) with (2 * 2 ^ 53). change (2 ^ 53) with (2 * 2 ^ 52) in *.
    split; nia. }
  destruct q as [| q | q]; [lia | | lia].
  assert (Hq53 : 53 <= Zpos (digits2_pos q)).
  { assert (52 < Zpos (digits2_pos q)) by (apply digits_ge; lia). lia. }
  assert (Hq54 : Zpos (digits2_pos q) <= 54) by (apply digits_le; lia).
  destruct (round_finite false q (53 + e1 - (53 + e2) - 53) (new_location (Zpos m2) r))
    as [m' [e' [H [Hm He]]]]; try lia.
  exists m', e'. split; [exact H |]. split; [assumption | lia].
Qed.

(** The product of two such floats. *)
Lemma mul_finite (m1 m2 : positive) (e1 e2 : Z) :
  Zpos (digits2_pos m1) = 53 -> Zpos (digits2_pos m2) = 53 ->
  -500 <= e1 <= 400 -> -500 <= e2 <= 400 ->
  exists m e, F64.mul (S754_finite false m1 e1) (S754_finite false m2 e2)
              = S754_finite false m e /\ Zpos (digits2_pos m) = 53.
Proof.
  intros Hd1 Hd2 He1 He2. unfold F64.mul, SFmul. cbn [xorb].
  pose proof (digits_bounds m1) as [Hlo1 Hhi1]. pose proof (digits_bounds m2) as [Hlo2 Hhi2].
  rewrite Hd1 in Hlo1, Hhi1. rewrite Hd2 in Hlo2, Hhi2.
  change (53 - 1) with 52 in *.
  assert (Hprod : 2 ^ 104 <= Zpos (m1 * m2) < 2 ^ 106).
  { rewrite Pos2Z.inj_mul. change (2 ^ 104) with (2 ^ 52 * 2 ^ 52).
    change (2 ^ 106) with (2 ^ 53 * 2 ^ 53). split; nia. }
  assert (H105 : 105 <= Zpos (digits2_pos (m1 * m2))).
  { assert (104 < Zpos (digits2_pos (m1 * m2))) by (apply digits_ge; lia). lia. }
  assert (H106 : Zpos (digits2_pos (m1 * m2)) <= 106) by (apply digits_le; lia).
  destruct (round_finite false (m1 * m2) (e1 + e2) loc_Exact)
    as [m' [e' [H [Hm He]]]]; try lia.
  exists m', e'. split; [exact H | assumption].
Qed.

(** The success percentage is zero or a positive finite float. *)
Lemma success_float_finite (p g : Z) :
  0 <= p < 2 ^ 63 -> 0 < g < 2 ^ 63 ->
  F64.mul (F64.div (F64.of_Z p) (F64.of_Z g)) (F64.of_Z 100) = S754_zero false \/
  exists m e,
    F64.mul (F64.div (F64.of_Z p) (F64.of_Z g)) (F64.of_Z 100) = S754_finite false m e.
Proof.
  intros Hp Hg.
  destruct (of_Z_finite g Hg) as [mg [eg [-> [Hdg Heg]]]].
  destruct (of_Z_finite 100 ltac:(lia)) as [mc [ec [-> [Hdc Hec]]]].
  destruct (Z.eq_dec p 0) as [-> | Hne].
  - left. reflexivity.
  - right. destruct (of_Z_finite p ltac:(lia)) as [mp [ep [-> [Hdp Hep]]]].
    destruct (div_finite mp mg ep eg Hdp Hdg ltac:(lia) ltac:(lia))
      as [mq [eq [-> [Hdq Heq]]]].
    destruct (mul_finite mq mc eq ec Hdq Hdc ltac:(lia) ltac:(lia))
      as [m [e [-> _]]].
    now exists m, e.
Qed.

End Binary64Facts.

(** *** The text of a finite percentage *)

Lemma all_digits_uint (u : Decimal.uint) :
  all_digits (DecimalString.NilEmpty.string_of_uint u) = true.
Proof. induction u; simpl; try reflexivity; assumption. Qed.

Lemma digits_all_digits (n : Z) :
  all_digits (F64.digits n) = true /\ F64.digits n <> "".
Proof.
  unfold F64.digits, DecimalString.NilZero.string_of_uint.
  destruct (N.to_uint (Z.to_N n)) as [| u | u | u | u | u | u | u | u | u | u];
    (split; [try reflexivity; apply (all_digits_uint u) | discriminate]).
Qed.

Lemma digit_char (z : Z) :
  (0 <= z < 10)%Z -> exists a, F64.digits z = String a "" /\ is_digit a = true.
Proof.
  intros H.
  assert (E : z = 0%Z \/ z = 1%Z \/ z = 2%Z \/ z = 3%Z \/ z = 4%Z \/ z = 5%Z \/
              z = 6%Z \/ z = 7%Z \/ z = 8%Z \/ z = 9%Z) by lia.
  repeat (destruct E as [-> | E]; [eexists; split; reflexivity |]).
  subst. eexists; split; reflexivity.
Qed.

Lemma is_digit_not_point (a : ascii) : is_digit a = true -> Ascii.eqb a "." = false.
Proof.
  intros H. destruct (Ascii.eqb_spec a "."%char) as [-> | Hne]; [discriminate | reflexivity].
Qed.

Lemma digits_then_decimals_app (whole rest : string) (seen : bool) :
  all_digits whole = true -> whole <> "" ->
  digits_then_decimals seen (whole ++ rest) = digits_then_decimals true rest.
Proof.
  revert seen. induction whole as [| a w IH]; intros seen Hall Hne; [congruence |].
  simpl in Hall. apply andb_true_iff in Hall. destruct Hall as [Ha Hw].
  simpl. rewrite (is_digit_not_point a Ha), Ha. simpl.
  destruct w as [| b w']; [reflexivity |].
  apply IH; [assumption | discriminate].
Qed.

Lemma string_app_assoc (a b c : string) : ((a ++ b) ++ c)%string = (a ++ b ++ c)%string.
Proof. induction a as [| x a IH]; simpl; [reflexivity | now rewrite IH]. Qed.

Lemma fixed2_percent (q : Z) :
  two_decimal_percent (F64.fixed2 q ++ "%") = true.
Proof.
  unfold two_decimal_percent, F64.fixed2, F64.two_digits.
  destruct (digits_all_digits (q / 100)) as [Hall Hne].
  assert (Hmod : (0 <= q mod 100 < 100)%Z) by (apply Z.mod_pos_bound; lia).
  destruct (digit_char (q mod 100 / 10)) as [a [-> Ha]].
  { split; [apply Z.div_pos; lia | apply Z.div_lt_upper_bound; lia]. }
  destruct (digit_char ((q mod 100) mod 10)) as [b [-> Hb]].
  { apply Z.mod_pos_bound. lia. }
  rewrite string_app_assoc. rewrite digits_then_decimals_app by assumption.
  simpl. now rewrite Ha, Hb.
Qed.

(** The success percentage of a row with a positive total is a number with
    two decimal places followed by "%". *)
Lemma success_of_shape (p g : Z) :
  (0 <= p < 2 ^ 63)%Z -> (0 < g < 2 ^ 63)%Z ->
  two_decimal_percent (success_of p g) = true.
Proof.
  intros Hp Hg. unfold success_of, percent.
  destruct (success_float_finite p g Hp Hg) as [-> | [m [e ->]]].
  - reflexivity.
  - unfold F64.format_2f, F64.sign. apply fixed2_percent.
Qed.

(** C3. In every row of the creditor aggregate, "Success" is the text of
    posted / total * 100, computed in binary64 and printed with [.2f] and
    a "%"; when the total is not zero (and within the 64-bit range of a
    count) this text is a number with exactly two decimal places followed
    by "%". *)
Theorem success_is_posted_over_total (corpus : list transaction) (agg : Pd.frame string) :
  extract_creditor_details corpus = inr agg ->
  exists posted grand_total success,
    Pd.getitem "Received Posted" agg = inr (Pd.Series posted) /\
    Pd.getitem "Grand Total" agg = inr (Pd.Series grand_total) /\
    Pd.getitem "Success" agg = inr (Pd.Series success) /\
    forall i, i < Pd.height agg ->
      exists p g,
        nth i (Pd.values posted) Pd.nan = Pd.num p /\
        nth i (Pd.values grand_total) Pd.nan = Pd.num g /\
        nth i (Pd.values success) Pd.nan
        = Pd.text (percent (F64.mul (F64.div (F64.of_Z p) (F64.of_Z g)) (F64.of_Z 100))) /\
        (g <> 0%Z -> (g < 2 ^ 63)%Z ->
         two_decimal_percent
           (percent (F64.mul (F64.div (F64.of_Z p) (F64.of_Z g)) (F64.of_Z 100))) = true).
Proof.
  intros H. destruct (creditor_success_rows corpus agg H)
    as [posted [grand_total [success [Hp [Hg [Hs Hrows]]]]]].
  exists posted, grand_total, success. repeat (split; [assumption |]).
  intros i Hi. destruct (Hrows i Hi) as [p [g [Hpi [Hgi [Hrange Hsi]]]]].
  exists p, g. repeat (split; [assumption |]).
  intros Hne Hlt. apply (success_of_shape p g); lia.
Qed.

Lemma success_is_posted_over_total_witness :
  (exists posted grand_total success,
    Pd.getitem "Received Posted" credit_a = inr (Pd.Series posted) /\
    Pd.getitem "Grand Total" credit_a = inr (Pd.Series grand_total) /\
    Pd.getitem "Success" credit_a = inr (Pd.Series success) /\
    forall i, i < Pd.height credit_a ->
      exists p g,
        nth i (Pd.values posted) Pd.nan = Pd.num p /\
        nth i (Pd.values grand_total) Pd.nan = Pd.num g /\
        nth i (Pd.values success) Pd.nan
        = Pd.text (percent (F64.mul (F64.div (F64.of_Z p) (F64.of_Z g)) (F64.of_Z 100))) /\
        (g <> 0%Z -> (g < 2 ^ 63)%Z ->
         two_decimal_percent
           (percent (F64.mul (F64.div (F64.of_Z p) (F64.of_Z g)) (F64.of_Z 100))) = true)) /\
  Pd.getitem "Success" credit_a
  = inr (Pd.Series {| Pd.label := "Success"; Pd.dtype_of := Pd.object;
                      Pd.values := [Pd.text "100.00%"; Pd.text "50.00%"] |}).
Proof.
  split; [| reflexivity].
  apply (success_is_posted_over_total corpus_a credit_a). reflexivity.
Defined.

(** * Further properties *)

(** ** The corpus builder, file by file *)

Lemma fill_fill (c : cell) : fill (fill c) = fill c.
Proof. now destruct c. Qed.

Lemma fillna_empty_twice (t : transaction) :
  fillna_empty (fillna_empty t) = fillna_empty t.
Proof. unfold fillna_empty. simpl. now rewrite !fill_fill. Qed.

Lemma filter_file_loads (fs : filesystem) (path : string) (rows : list transaction) :
  filter_file fs path = inr rows <->
  exists sh, loads fs path sh
             /\ rows = filter keep_op_code (map (project (header sh)) (body sh)).
Proof.
  unfold filter_file, loads, loc_required. split.
  - destruct (fs path) as [sh |]; [| discriminate].
    destruct (missing_columns (header sh) required_columns) eqn:E; [| discriminate].
    simpl. intros H. injection H as <-. now exists sh.
  - intros [sh [[-> ->] ->]]. reflexivity.
Qed.

Lemma merge_loop_stacks (fs : filesystem) (src : string) (files : list string) :
  forall data corpus,
    map fillna_empty data = data ->
    (merge_loop fs src files data = inr corpus <->
     exists sheets,
       Forall2 (fun f sh => loads fs (Py.join src f) sh) files sheets /\
       corpus = data ++ flat_map kept_rows sheets).
Proof.
  induction files as [| f rest IH]; intros data corpus Hdata; simpl.
  - split.
    + intros H. injection H as <-. exists []. split; [constructor |].
      simpl. now rewrite app_nil_r.
    + intros [sheets [Hall ->]]. inversion Hall. subst. simpl.
      now rewrite app_nil_r.
  - assert (Hnext : forall temp,
               map fillna_empty (map fillna_empty (data ++ temp))
               = map fillna_empty (data ++ temp)).
    { intros temp. rewrite map_map. apply map_ext. intros t.
      apply fillna_empty_twice. }
    assert (Hstep : forall temp,
               map fillna_empty (data ++ temp) = data ++ map fillna_empty temp).
    { intros temp. now rewrite map_app, Hdata. }
    split.
    + intros H. apply bind_inr in H. destruct H as [[] [Hex H]].
      apply bind_inr in H. destruct H as [temp [Htemp H]].
      apply (IH _ _ (Hnext temp)) in H. destruct H as [sheets [Hall ->]].
      apply filter_file_loads in Htemp. destruct Htemp as [sh [Hsh ->]].
      exists (sh :: sheets). split; [now constructor |].
      rewrite Hstep. simpl. now rewrite <- app_assoc.
    + intros [sheets [Hall ->]]. inversion Hall as [| f' sh rest' sheets' Hsh Hrest]. subst.
      unfold check_file_exists. destruct Hsh as [Hfs Hcols].
      rewrite Hfs. cbn [bind ret].
      assert (Htemp : filter_file fs (Py.join src f)
                      = inr (filter keep_op_code (map (project (header sh)) (body sh)))).
      { apply filter_file_loads. exists sh. now split. }
      rewrite Htemp. cbn [bind].
      apply (IH _ _ (Hnext _)). exists sheets'. split; [assumption |].
      rewrite Hstep. simpl. now rewrite <- app_assoc.
Qed.

(** X1. The corpus builder returns exactly when every file exists and holds
    the six columns; the corpus is then the kept rows of the files, file
    after file, in the order of the list and of the sheets. *)
Theorem merge_files_stacks
    (fs : filesystem) (source_path : string) (files : list string)
    (corpus : list transaction) :
  merge_files fs source_path files = inr corpus <->
  exists sheets,
    Forall2 (fun f sh => loads fs (Py.join source_path f) sh) files sheets /\
    corpus = flat_map kept_rows sheets.
Proof.
  unfold merge_files. now rewrite (merge_loop_stacks fs source_path files [] corpus eq_refl).
Qed.

Lemma merge_files_stacks_witness :
  exists sheets,
    Forall2 (fun f sh => loads disk (Py.join "/in" f) sh) ["a.xlsx"] sheets /\
    corpus_a = flat_map kept_rows sheets.
Proof.
  apply (merge_files_stacks disk "/in" ["a.xlsx"] corpus_a). reflexivity.
Defined.

Lemma merge_loop_missing_file (fs : filesystem) (src : string) (f : string)
    (after : list string) :
  fs (Py.join src f) = None ->
  forall before data,
    (forall g, In g before -> exists rows, filter_file fs (Py.join src g) = inr rows) ->
    merge_loop fs src (before ++ f :: after) data
    = inl (FileNotFoundError "Sheet Not Found! does not exist!").
Proof.
  intros Hf. induction before as [| g rest IH]; intros data Hbefore; simpl.
  - unfold check_file_exists. now rewrite Hf.
  - destruct (Hbefore g (or_introl eq_refl)) as [rows Hrows].
    unfold check_file_exists. rewrite Hrows.
    destruct (fs (Py.join src g)) as [sh |] eqn:Hg.
    + cbn [bind ret]. apply IH. intros h Hh. apply Hbefore. now right.
    + unfold filter_file in Hrows. rewrite Hg in Hrows. discriminate.
Qed.

(** X2. When a file of the list is not there, and the files before it were
    read, the corpus builder stops with the [FileNotFoundError] of
    [check_file_exists]; its text is the fixed name given at the call and
    does not tell the path. *)
Theorem merge_files_missing_file
    (fs : filesystem) (source_path : string) (before : list string) (f : string)
    (after : list string) :
  (forall g, In g before ->
     exists rows, filter_file fs (Py.join source_path g) = inr rows) ->
  fs (Py.join source_path f) = None ->
  merge_files fs source_path (before ++ f :: after)
  = inl (FileNotFoundError "Sheet Not Found! does not exist!").
Proof.
  intros Hbefore Hf. unfold merge_files. now apply merge_loop_missing_file.
Qed.

Lemma merge_files_missing_file_witness :
  merge_files disk "/in" (["a.xlsx"] ++ "c.xlsx" :: ["b.xlsx"])
  = inl (FileNotFoundError "Sheet Not Found! does not exist!").
Proof.
  apply (merge_files_missing_file disk "/in" ["a.xlsx"] "c.xlsx" ["b.xlsx"]).
  - intros g [<- | []]. eexists. reflexivity.
  - reflexivity.
Defined.

(** ** The paths that the corpus builder opens *)

Lemma merge_loop_paths (fs : filesystem) (src src' : string) (files : list string) :
  (forall f, In f files -> Py.join src f = Py.join src' f) ->
  forall data, merge_loop fs src files data = merge_loop fs src' files data.
Proof.
  induction files as [| f rest IH]; intros Hfiles data; simpl; [reflexivity |].
  rewrite (Hfiles f (or_introl eq_refl)).
  destruct (check_file_exists fs (Py.join src' f) "Sheet Not Found!"); [reflexivity |].
  cbn [bind]. destruct (filter_file fs (Py.join src' f)); [reflexivity |].
  cbn [bind]. apply IH. intros g Hg. apply Hfiles. now right.
Qed.

(** X3. File names that are absolute paths are opened as they are: the
    source path that the corpus builder joins in front of them has no
    effect. *)
Theorem merge_files_absolute_paths
    (fs : filesystem) (source_path other_path : string) (files : list string) :
  (forall f, In f files -> Py.startswith Py.sep f = true) ->
  merge_files fs source_path files = merge_files fs other_path files.
Proof.
  intros Habs. unfold merge_files. apply merge_loop_paths.
  intros f Hf. unfold Py.join. now rewrite (Habs f Hf).
Qed.

Lemma merge_files_absolute_paths_witness :
  merge_files disk "/in" ["/in/a.xlsx"] = merge_files disk "/elsewhere" ["/in/a.xlsx"]
  /\ merge_files disk "/in" ["/in/a.xlsx"] = inr corpus_a.
Proof.
  split; [| reflexivity].
  apply (merge_files_absolute_paths disk "/in" "/elsewhere" ["/in/a.xlsx"]).
  intros f [<- | []]. reflexivity.
Defined.

Lemma string_length_app (s t : string) :
  String.length (s ++ t)%string = String.length s + String.length t.
Proof. induction s as [| a s IH]; simpl; [reflexivity | now rewrite IH]. Qed.

Lemma join_relative (a b : string) :
  Py.startswith Py.sep b = false ->
  exists mid, Py.join a b = (a ++ mid ++ b)%string.
Proof.
  intros Hb. unfold Py.join. rewrite Hb.
  destruct (String.eqb a "" || Py.endswith Py.sep a)%bool.
  - now exists "".
  - now exists (String Py.sep "").
Qed.

Lemma startswith_app (c : ascii) (a b : string) :
  a <> "" -> Py.startswith c (a ++ b)%string = Py.startswith c a.
Proof. destruct a; [congruence | reflexivity]. Qed.

(** X4. A file name that begins with a relative source path, as a search
    of that folder gives it, is not opened where it is: the corpus builder
    joins the source path in front of it once more, and stops when nothing
    is at the longer path. *)
Theorem merge_files_relative_source
    (fs : filesystem) (source_path name : string) (rest : list string) :
  source_path <> "" ->
  Py.startswith Py.sep source_path = false ->
  Py.startswith Py.sep name = false ->
  let found := Py.join source_path name in
  Py.join source_path found <> found /\
  (fs (Py.join source_path found) = None ->
   merge_files fs source_path (found :: rest)
   = inl (FileNotFoundError "Sheet Not Found! does not exist!")).
Proof.
  intros Hne Hrel Hname found.
  destruct (join_relative source_path name Hname) as [mid Hfound].
  assert (Hfrel : Py.startswith Py.sep found = false).
  { unfold found. rewrite Hfound. now rewrite startswith_app. }
  destruct (join_relative source_path found Hfrel) as [mid' Htwice].
  split.
  - rewrite Htwice. intros E. apply (f_equal String.length) in E.
    rewrite !string_length_app in E.
    destruct source_path; [congruence | simpl in E; lia].
  - intros Hnone. unfold merge_files.
    apply (merge_loop_missing_file fs source_path found rest Hnone []).
    intros g [].
Qed.

Lemma merge_files_relative_source_witness :
  disk_rel "in/a.xlsx" = Some sheet_a /\
  Py.join "in" (Py.join "in" "a.xlsx") = "in/in/a.xlsx" /\
  merge_files disk_rel "in" [Py.join "in" "a.xlsx"]
  = inl (FileNotFoundError "Sheet Not Found! does not exist!").
Proof.
  split; [reflexivity |]. split; [reflexivity |].
  apply (merge_files_relative_source disk_rel "in" "a.xlsx" []);
    [discriminate | reflexivity | reflexivity | reflexivity].
Defined.

(** ** The order of the rows *)

Lemma ascii_compare_lt_trans (a b c : ascii) :
  Ascii.compare a b = Lt -> Ascii.compare b c = Lt -> Ascii.compare a c = Lt.
Proof.
  unfold Ascii.compare. rewrite !N.compare_lt_iff. apply N.lt_trans.
Qed.

Lemma compare_lt_trans (s1 s2 s3 : string) :
  ascending s1 s2 -> ascending s2 s3 -> ascending s1 s3.
Proof.
  unfold ascending. revert s2 s3.
  induction s1 as [| a s1 IH]; intros [| b s2] [| c s3]; simpl; try congruence.
  destruct (Ascii.compare a b) eqn:Eab; try discriminate.
  - apply Ascii.compare_eq_iff in Eab. subst b.
    destruct (Ascii.compare a c); try congruence. apply IH.
  - intros _. destruct (Ascii.compare b c) eqn:Ebc; try discriminate.
    + apply Ascii.compare_eq_iff in Ebc. subst c. now rewrite Eab.
    + now rewrite (ascii_compare_lt_trans a b c Eab Ebc).
Qed.

Lemma leb_ascending (a b : string) :
  String.leb a b = true -> a <> b -> ascending a b.
Proof.
  unfold String.leb, ascending. intros Hle Hne.
  destruct (String.compare a b) eqn:E; [| reflexivity | discriminate].
  apply String.compare_eq_iff in E. contradiction.
Qed.

Section SortedFacts.
Context {A : Type}.
Variable leb : A -> A -> bool.
Hypothesis leb_total : forall a b, leb a b = true \/ leb b a = true.

Local Abbreviation le := (fun a b => leb a b = true).

Lemma insert_sorted_hd (x a : A) (l : list A) :
  le a x -> Sorted.HdRel le a l -> Sorted.HdRel le a (insert_sorted leb x l).
Proof.
  intros Hax Hl. destruct l as [| y rest]; simpl; [now constructor |].
  destruct (leb x y); constructor; [assumption |].
  now inversion Hl.
Qed.

Lemma insert_sorted_sorted (x : A) (l : list A) :
  Sorted.Sorted le l -> Sorted.Sorted le (insert_sorted leb x l).
Proof.
  induction 1 as [| y rest Hrest IH Hhd]; simpl; [repeat constructor |].
  destruct (leb x y) eqn:E.
  - constructor; [now constructor | now constructor].
  - constructor; [assumption |].
    apply insert_sorted_hd; [| assumption].
    destruct (leb_total x y) as [H | H]; [congruence | assumption].
Qed.

Lemma sort_sorted (l : list A) : Sorted.Sorted le (sort leb l).
Proof.
  induction l as [| x rest IH]; simpl; [constructor |].
  now apply insert_sorted_sorted.
Qed.
End SortedFacts.

Lemma sorted_ascending (l : list string) :
  Sorted.Sorted (fun a b => String.leb a b = true) l -> NoDup l ->
  Sorted.StronglySorted ascending l.
Proof.
  intros Hs Hnd. apply Sorted.Sorted_StronglySorted.
  - intros a b c. apply compare_lt_trans.
  - induction Hs as [| a rest Hrest IH Hhd]; [constructor |].
    inversion Hnd as [| ? ? Hnotin Hnd']; subst.
    constructor; [now apply IH |].
    destruct Hhd as [| b rest' Hab]; constructor.
    apply leb_ascending; [assumption |].
    intros ->. apply Hnotin. now left.
Qed.

Lemma index_labels_ascending {K} (index_key : transaction -> cell)
    (column_key : transaction -> option K) (data : list transaction) :
  Sorted.StronglySorted ascending (Pd.index_labels index_key column_key data).
Proof.
  apply sorted_ascending.
  - apply sort_sorted. apply String.leb_total.
  - apply index_labels_NoDup.
Qed.

(** ** When the debtor aggregate exists *)

Lemma statuses_mem (corpus : list transaction) (s : string) :
  Forall filled corpus ->
  (Py.mem s (statuses corpus) = true <->
   exists t, In t corpus /\ TR_STATUS_NAME t = Str s).
Proof.
  intros Hfilled. rewrite mem_In. split; [apply statuses_In |].
  intros [t [Ht Hs]]. unfold statuses. apply column_labels_In.
  rewrite Forall_forall in Hfilled.
  destruct (filled_debtor_key t (Hfilled t Ht)) as [d [s' [_ [Hs' [_ Hk]]]]].
  exists d. apply in_groups. exists t. split; [assumption |]. congruence.
Qed.

(** X5. On a Unified Corpus the debtor aggregator returns an aggregate
    exactly when some row is posted and no row has the status text
    "DB_PARTIC_NAME". *)
Theorem debtor_aggregate_exists
    (fs : filesystem) (source_path : string) (files : list string)
    (corpus : list transaction) :
  merge_files fs source_path files = inr corpus ->
  ((exists agg, extract_debitor_details corpus = inr agg) <->
   (exists t, In t corpus /\ TR_STATUS_NAME t = Str "Posted") /\
   (forall t, In t corpus -> TR_STATUS_NAME t <> Str "DB_PARTIC_NAME")).
Proof.
  intros Hmerge. pose proof (merge_files_filled _ _ _ _ Hmerge) as Hfilled.
  rewrite extract_debitor_details_eq.
  pose proof (statuses_mem corpus "DB_PARTIC_NAME" Hfilled) as Hclash.
  pose proof (statuses_mem corpus "Posted" Hfilled) as Hposted.
  destruct (Py.mem "DB_PARTIC_NAME" (statuses corpus)).
  - split; [intros [agg H]; discriminate |].
    intros [_ Hnone]. destruct (proj1 Hclash eq_refl) as [t [Ht Hs]].
    exfalso. exact (Hnone t Ht Hs).
  - destruct (Py.mem "Posted" (statuses corpus)).
    + split; [| intros _; eauto].
      intros _. split; [now apply Hposted |].
      intros t Ht Hs. assert (H : false = true) by (apply Hclash; eauto).
      discriminate.
    + split; [intros [agg H]; discriminate |].
      intros [Hex _]. apply Hposted in Hex. discriminate.
Qed.

Lemma debtor_aggregate_exists_witness :
  (exists agg, extract_debitor_details corpus_a = inr agg) <->
  (exists t, In t corpus_a /\ TR_STATUS_NAME t = Str "Posted") /\
  (forall t, In t corpus_a -> TR_STATUS_NAME t <> Str "DB_PARTIC_NAME").
Proof.
  apply (debtor_aggregate_exists disk "/in" ["a.xlsx"] corpus_a). reflexivity.
Defined.

(** X6. The rows of the debtor aggregate are in ascending order of the
    participant name, as Python orders texts. *)
Theorem debtor_aggregate_ascending (corpus : list transaction) (agg : Pd.frame string) :
  extract_debitor_details corpus = inr agg ->
  exists names rest,
    agg = names_column names :: rest /\ Sorted.StronglySorted ascending names.
Proof.
  rewrite extract_debitor_details_eq.
  destruct (Py.mem "DB_PARTIC_NAME" (statuses corpus)); [discriminate |].
  destruct (Py.mem "Posted" (statuses corpus)); [| discriminate].
  intros H. injection H as <-. eexists _, _. split; [reflexivity |].
  apply index_labels_ascending.
Qed.

Lemma debtor_aggregate_ascending_witness :
  exists names rest,
    debit_a = names_column names :: rest /\ Sorted.StronglySorted ascending names.
Proof.
  apply (debtor_aggregate_ascending corpus_a debit_a). reflexivity.
Defined.

(** ** The creditor aggregate, cell by cell *)

Lemma combinations_mem (corpus : list transaction) (s m : string) :
  Forall filled corpus ->
  (In (s, m) (combinations corpus) <->
   exists t, In t corpus /\ TR_STATUS_NAME t = Str s
             /\ REJECT_MOTIVE_DESCRITION t = Str m).
Proof.
  intros Hfilled. split; [apply (combinations_In corpus (s, m)) |].
  intros [t [Ht [Hs Hm]]]. unfold combinations. apply column_labels_In.
  rewrite Forall_forall in Hfilled.
  destruct (filled_creditor_key t (Hfilled t Ht)) as [c [s' [m' [_ [_ Hk]]]]].
  exists c. apply in_groups. exists t. split; [assumption |].
  rewrite Hk. unfold Pd.group_key, status_motive_key in Hk.
  rewrite Hs, Hm in Hk. destruct (CR_PARTIC_NAME t); congruence.
Qed.

Lemma creditors_spec (corpus : list transaction) :
  Forall filled corpus ->
  forall n, In n (creditors corpus) <->
            exists t, In t corpus /\ CR_PARTIC_NAME t = Str n.
Proof.
  intros Hfilled n. unfold creditors. rewrite index_labels_In. split.
  - intros [k Hg]. apply in_groups in Hg. destruct Hg as [t [Ht Hk]].
    exists t. split; [assumption |].
    unfold Pd.group_key in Hk. destruct (CR_PARTIC_NAME t); [discriminate |].
    destruct (status_motive_key t); [| discriminate]. congruence.
  - intros [t [Ht Hn]]. rewrite Forall_forall in Hfilled.
    destruct (filled_creditor_key t (Hfilled t Ht)) as [c [s [m [Hc [_ Hk]]]]].
    exists (s, m). apply in_groups. exists t. split; [assumption |]. congruence.
Qed.

Lemma creditor_count_received (corpus : list transaction) :
  Forall filled corpus ->
  forall n k, creditor_count corpus n k = received corpus n (fst k) (snd k).
Proof.
  intros Hfilled n [s m]. unfold creditor_count, Pd.count, received. do 2 f_equal.
  apply filter_ext_in. intros t Ht. rewrite Forall_forall in Hfilled.
  destruct (Hfilled t Ht) as [He [_ [Hc [Hs [_ Hm]]]]].
  unfold Pd.in_group, Pd.group_key, status_motive_key. cbn [fst snd].
  destruct (CR_PARTIC_NAME t) as [| c]; [congruence |].
  destruct (TR_STATUS_NAME t) as [| s']; [congruence |].
  destruct (REJECT_MOTIVE_DESCRITION t) as [| m']; [congruence |].
  destruct (ENDTOENDID t); [congruence |]. cbn [isna negb cell_eqb].
  rewrite andb_true_r, (String.eqb_sym n c), <- andb_assoc. f_equal.
  destruct (pair_dec (s, m) (s', m')) as [E | Hne].
  - injection E as <- <-. now rewrite !String.eqb_refl.
  - symmetry. apply andb_false_iff.
    destruct (String.eqb_spec s' s) as [-> | Hs']; [| now left].
    destruct (String.eqb_spec m' m) as [-> | Hm']; [| now right].
    congruence.
Qed.

Lemma posted_and_others_NoDup (corpus : list transaction) (k0 : string * string) :
  filter names_posted (combinations corpus) = [k0] ->
  NoDup (k0 :: filter (fun k => negb (names_posted k)) (combinations corpus)).
Proof.
  intros Hposted. constructor.
  - intros Hin. apply filter_In in Hin. destruct Hin as [_ Hneg].
    assert (H : In k0 (filter names_posted (combinations corpus)))
      by (rewrite Hposted; now left).
    apply filter_In in H. destruct H as [_ H]. rewrite H in Hneg. discriminate.
  - apply NoDup_filter. apply column_labels_NoDup.
Qed.

Lemma posted_and_others_In (corpus : list transaction) (k0 k : string * string) :
  filter names_posted (combinations corpus) = [k0] ->
  (In k (k0 :: filter (fun k => negb (names_posted k)) (combinations corpus))
   <-> In k (combinations corpus)).
Proof.
  intros Hposted. split; [| now apply combination_split].
  intros [<- | Hk].
  - assert (H : In k0 (filter names_posted (combinations corpus)))
      by (rewrite Hposted; now left).
    apply filter_In in H. tauto.
  - apply filter_In in Hk. tauto.
Qed.

(** X7. The creditor aggregate of a Unified Corpus has one row for each
    creditor of the corpus, in ascending order of the name, and one count
    column for each pair of a status and a reject motive that a row of the
    corpus has, the column named "Posted" first.  A cell is the number of
    rows of the corpus with that creditor, that status and that motive. *)
Theorem creditor_aggregate_cells
    (fs : filesystem) (source_path : string) (files : list string)
    (corpus : list transaction) (agg : Pd.frame string) :
  merge_files fs source_path files = inr corpus ->
  extract_creditor_details corpus = inr agg ->
  exists names k0 others grand_total success,
    agg = names_column names
          :: map (received_column corpus names) (k0 :: others)
          ++ [grand_total; success] /\
    Sorted.StronglySorted ascending names /\
    (forall n, In n names <-> exists t, In t corpus /\ CR_PARTIC_NAME t = Str n) /\
    new_col_name k0 = "Posted" /\
    NoDup (k0 :: others) /\
    (forall s m, In (s, m) (k0 :: others) <->
                 exists t, In t corpus /\ TR_STATUS_NAME t = Str s
                           /\ REJECT_MOTIVE_DESCRITION t = Str m).
Proof.
  intros Hmerge H. pose proof (merge_files_filled _ _ _ _ Hmerge) as Hfilled.
  apply extract_creditor_details_inr in H. destruct H as [k0 [Hposted ->]].
  set (others := filter (fun k => negb (names_posted k)) (combinations corpus)).
  assert (Hk0 : new_col_name k0 = "Posted").
  { assert (H : In k0 (filter names_posted (combinations corpus)))
      by (rewrite Hposted; now left).
    apply filter_In in H. destruct H as [_ H]. now apply String.eqb_eq in H. }
  exists (creditors corpus), k0, others. eexists _, _.
  split; [| split; [| split; [| split; [| split]]]].
  - unfold creditor_frame, names_column. cbn [map app]. f_equal. f_equal.
    + unfold received_column. rewrite Hk0. f_equal.
      apply map_ext. intros n. now rewrite creditor_count_received.
    + f_equal. apply map_ext. intros k. unfold received_column. f_equal.
      apply map_ext. intros n. now rewrite creditor_count_received.
  - apply index_labels_ascending.
  - now apply creditors_spec.
  - exact Hk0.
  - now apply posted_and_others_NoDup.
  - intros s m. unfold others. rewrite (posted_and_others_In corpus k0 (s, m) Hposted).
    now apply combinations_mem.
Qed.

Lemma creditor_aggregate_cells_witness :
  exists names k0 others grand_total success,
    credit_a = names_column names
               :: map (received_column corpus_a names) (k0 :: others)
               ++ [grand_total; success] /\
    Sorted.StronglySorted ascending names /\
    (forall n, In n names <-> exists t, In t corpus_a /\ CR_PARTIC_NAME t = Str n) /\
    new_col_name k0 = "Posted" /\
    NoDup (k0 :: others) /\
    (forall s m, In (s, m) (k0 :: others) <->
                 exists t, In t corpus_a /\ TR_STATUS_NAME t = Str s
                           /\ REJECT_MOTIVE_DESCRITION t = Str m).
Proof.
  apply (creditor_aggregate_cells disk "/in" ["a.xlsx"] corpus_a credit_a); reflexivity.
Defined.

(** X8. In every row of the creditor aggregate the posted count is at
    least 0 and at most the grand total. *)
Theorem posted_at_most_grand_total (corpus : list transaction) (agg : Pd.frame string) :
  extract_creditor_details corpus = inr agg ->
  exists posted grand_total,
    Pd.getitem "Received Posted" agg = inr (Pd.Series posted) /\
    Pd.getitem "Grand Total" agg = inr (Pd.Series grand_total) /\
    forall i, i < Pd.height agg ->
      exists p g,
        nth i (Pd.values posted) Pd.nan = Pd.num p /\
        nth i (Pd.values grand_total) Pd.nan = Pd.num g /\
        (0 <= p <= g)%Z.
Proof.
  intros H. destruct (creditor_success_rows corpus agg H)
    as [posted [grand_total [success [Hp [Hg [_ Hrows]]]]]].
  exists posted, grand_total. split; [assumption |]. split; [assumption |].
  intros i Hi. destruct (Hrows i Hi) as [p [g [H1 [H2 [H3 _]]]]].
  now exists p, g.
Qed.

Lemma posted_at_most_grand_total_witness :
  exists posted grand_total,
    Pd.getitem "Received Posted" credit_a = inr (Pd.Series posted) /\
    Pd.getitem "Grand Total" credit_a = inr (Pd.Series grand_total) /\
    forall i, i < Pd.height credit_a ->
      exists p g,
        nth i (Pd.values posted) Pd.nan = Pd.num p /\
        nth i (Pd.values grand_total) Pd.nan = Pd.num g /\
        (0 <= p <= g)%Z.
Proof.
  apply (posted_at_most_grand_total corpus_a credit_a). reflexivity.
Defined.

(** ** When the creditor aggregate exists *)

Lemma index_column_mem (corpus : list transaction) :
  Forall filled corpus ->
  (existsb (fun k => if pair_dec CR_INDEX k then true else false)
           (combinations corpus) = false <->
   forall t, In t corpus ->
     ~ (TR_STATUS_NAME t = Str "CR_PARTIC_NAME"
        /\ REJECT_MOTIVE_DESCRITION t = Str "")).
Proof.
  intros Hfilled. split.
  - intros Hnone t Ht Hsm.
    assert (Hin : In CR_INDEX (combinations corpus)).
    { apply combinations_mem; [assumption |]. now exists t. }
    assert (H : existsb (fun k => if pair_dec CR_INDEX k then true else false)
                        (combinations corpus) = true).
    { apply existsb_exists. exists CR_INDEX. split; [assumption |].
      now destruct (pair_dec CR_INDEX CR_INDEX). }
    congruence.
  - apply no_index_column.
Qed.

Lemma names_posted_In (corpus : list transaction) (k : string * string) :
  Forall filled corpus ->
  (In k (filter names_posted (combinations corpus)) <->
   fst k = "Posted" /\ posted_motive corpus (snd k)).
Proof.
  intros Hfilled. destruct k as [s m]. rewrite filter_In.
  unfold names_posted, posted_motive. rewrite String.eqb_eq. cbn [fst snd]. split.
  - intros [Hin Hname]. pose proof (posted_name_status s m Hname) as ->.
    split; [reflexivity |]. split; [| assumption].
    now apply combinations_mem.
  - intros [-> [Hex Hname]]. split; [| assumption].
    now apply combinations_mem.
Qed.

Lemma two_of_NoDup {A} (l : list A) (a b : A) :
  In a l -> In b l -> a <> b -> exists x y rest, l = x :: y :: rest.
Proof.
  intros Ha Hb Hne. destruct l as [| x [| y rest]].
  - destruct Ha.
  - destruct Ha as [<- | []]. destruct Hb as [<- | []]. congruence.
  - now exists x, y, rest.
Qed.

(** X9. Posted rows under two different reject motives for which the loop
    finds no label give the pivot two columns named "Posted";
    [pop("Posted")] is then a frame, and reading its [name] raises
    [AttributeError]: there is no creditor aggregate. *)
Theorem two_posted_columns_raise
    (fs : filesystem) (source_path : string) (files : list string)
    (corpus : list transaction) (m1 m2 : string) :
  merge_files fs source_path files = inr corpus ->
  posted_motive corpus m1 -> posted_motive corpus m2 -> m1 <> m2 ->
  (forall t, In t corpus ->
     ~ (TR_STATUS_NAME t = Str "CR_PARTIC_NAME"
        /\ REJECT_MOTIVE_DESCRITION t = Str "")) ->
  extract_creditor_details corpus
  = inl (AttributeError "'DataFrame' object has no attribute 'name'").
Proof.
  intros Hmerge H1 H2 Hne Hnone.
  pose proof (merge_files_filled _ _ _ _ Hmerge) as Hfilled.
  rewrite extract_creditor_details_eq.
  rewrite (proj2 (index_column_mem corpus Hfilled) Hnone).
  destruct (two_of_NoDup (filter names_posted (combinations corpus))
              ("Posted", m1) ("Posted", m2)) as [x [y [rest ->]]].
  - apply names_posted_In; [assumption | now split].
  - apply names_posted_In; [assumption | now split].
  - congruence.
  - reflexivity.
Qed.

Lemma two_posted_columns_raise_witness :
  merge_files disk_d "/in" ["d.xlsx"] = inr corpus_d /\
  extract_creditor_details corpus_d
  = inl (AttributeError "'DataFrame' object has no attribute 'name'").
Proof.
  split; [reflexivity |].
  apply (two_posted_columns_raise disk_d "/in" ["d.xlsx"] corpus_d "" "Done").
  - reflexivity.
  - split; [| reflexivity]. eexists. split; [left; reflexivity | split; reflexivity].
  - split; [| reflexivity].
    eexists. split; [right; left; reflexivity | split; reflexivity].
  - discriminate.
  - intros t [<- | [<- | []]] [E _]; discriminate.
Defined.

(** X10. On a Unified Corpus the creditor aggregator returns an aggregate
    exactly when the posted rows whose reject motive has no label all have
    the same motive, there is such a row, and no row has the status text
    "CR_PARTIC_NAME" with an empty reject motive. *)
Theorem creditor_aggregate_exists
    (fs : filesystem) (source_path : string) (files : list string)
    (corpus : list transaction) :
  merge_files fs source_path files = inr corpus ->
  ((exists agg, extract_creditor_details corpus = inr agg) <->
   (exists m0, posted_motive corpus m0
               /\ forall m, posted_motive corpus m -> m = m0) /\
   (forall t, In t corpus ->
      ~ (TR_STATUS_NAME t = Str "CR_PARTIC_NAME"
         /\ REJECT_MOTIVE_DESCRITION t = Str ""))).
Proof.
  intros Hmerge. pose proof (merge_files_filled _ _ _ _ Hmerge) as Hfilled.
  rewrite extract_creditor_details_eq.
  pose proof (index_column_mem corpus Hfilled) as Hclash.
  pose proof (fun k => names_posted_In corpus k Hfilled) as Hin.
  destruct (existsb _ (combinations corpus)).
  - split; [intros [agg H]; discriminate |].
    intros [_ Hnone]. apply Hclash in Hnone. discriminate.
  - assert (Hnone : forall t, In t corpus ->
              ~ (TR_STATUS_NAME t = Str "CR_PARTIC_NAME"
                 /\ REJECT_MOTIVE_DESCRITION t = Str "")) by now apply Hclash.
    assert (Hnd : NoDup (filter names_posted (combinations corpus))).
    { apply NoDup_filter. apply column_labels_NoDup. }
    destruct (filter names_posted (combinations corpus)) as [| k0 [| k1 more]].
    + split; [intros [agg H]; discriminate |].
      intros [[m0 [Hm0 _]] _]. exfalso.
      apply (proj2 (Hin ("Posted", m0))). now split.
    + split; [| intros _; eauto].
      intros _. split; [| assumption].
      destruct (proj1 (Hin k0) (or_introl eq_refl)) as [Hs Hm].
      exists (snd k0). split; [assumption |].
      intros m Hpm.
      destruct (proj2 (Hin ("Posted", m)) (conj eq_refl Hpm)) as [E | []].
      now rewrite E.
    + split; [intros [agg H]; discriminate |].
      intros [[m0 [_ Huniq]] _]. exfalso.
      destruct (proj1 (Hin k0) (or_introl eq_refl)) as [Hs0 Hm0].
      destruct (proj1 (Hin k1) (or_intror (or_introl eq_refl))) as [Hs1 Hm1].
      inversion Hnd as [| ? ? Hnotin _]; subst. apply Hnotin. left.
      destruct k0 as [s0 x0], k1 as [s1 x1]. cbn [fst snd] in *.
      rewrite (Huniq x0 Hm0), (Huniq x1 Hm1). congruence.
Qed.

Lemma creditor_aggregate_exists_witness :
  (exists agg, extract_creditor_details corpus_a = inr agg) <->
  (exists m0, posted_motive corpus_a m0
              /\ forall m, posted_motive corpus_a m -> m = m0) /\
  (forall t, In t corpus_a ->
     ~ (TR_STATUS_NAME t = Str "CR_PARTIC_NAME"
        /\ REJECT_MOTIVE_DESCRITION t = Str "")).
Proof.
  apply (creditor_aggregate_exists disk "/in" ["a.xlsx"] corpus_a). reflexivity.
Defined.

(** ** The names of the columns *)



Lemma list_ascii_app (s t : string) :
  list_ascii_of_string (s ++ t)%string
  = list_ascii_of_string s ++ list_ascii_of_string t.
Proof. induction s as [| a s IH]; simpl; [reflexivity | now rewrite IH]. Qed.

Lemma strip_qualifier_app (c : ascii) (m q : string) :
  has_char c q = false ->
  strip_qualifier c (m ++ String c q)%string = m.
Proof.
  intros Hq.
  rewrite <- (string_of_list_ascii_of_string (m ++ String c q)%string).
  rewrite list_ascii_app. cbn [list_ascii_of_string].
  rewrite strip_qualifier_last.
  - apply string_of_list_ascii_of_string.
  - intros Hin. apply has_char_In in Hin. congruence.
Qed.

(** X12. What follows the last '.' of a reject motive has no part in the
    name of the column: the name is the label of the status, then the
    label of the text before that '.', its quotes removed.  Motives that
    differ after their last '.' only give columns of the same name. *)
Theorem qualifier_is_ignored (s m q : string) :
  has_char "." q = false ->
  new_col_name (s, (m ++ "." ++ q)%string)
  = (label_or_empty STATUSES s
     ++ label_or_empty SUB_STATUSES (Py.remove_char "'" m))%string.
Proof.
  intros Hq. rewrite new_col_name_spec. unfold spec_column_name. cbn [fst snd].
  change ("." ++ q)%string with (String "." q).
  now rewrite strip_qualifier_app, remove_char_quotes.
Qed.

Lemma qualifier_is_ignored_witness :
  new_col_name ("Declined", ("Lack of funds" ++ "." ++ "1")%string)
  = (label_or_empty STATUSES "Declined"
     ++ label_or_empty SUB_STATUSES (Py.remove_char "'" "Lack of funds"))%string
  /\ new_col_name ("Declined", "Lack of funds.1") = "Declined Lack of Funds"
  /\ new_col_name ("Declined", "Lack of funds.2") = "Declined Lack of Funds".
Proof.
  split; [| split; reflexivity].
  apply (qualifier_is_ignored "Declined" "Lack of funds" "1"). reflexivity.
Defined.

(** ** The success percentage at its ends *)

Section SuccessEnds.

Local Open Scope Z_scope.

Lemma div_eucl_mul (a b : Z) : 0 < a -> Z.div_eucl (a * b) a = (b, 0).
Proof.
  intros Ha. pose proof (Z_div_mod (a * b) a ltac:(lia)) as H.
  destruct (Z.div_eucl (a * b) a) as [q r]. destruct H as [Heq Hr].
  assert (Hq : q = b) by nia. subst q. f_equal. lia.
Qed.

Lemma new_location_zero (n : Z) : new_location n 0 = loc_Exact.
Proof.
  unfold new_location, new_location_even, new_location_odd.
  now destruct (Z.even n).
Qed.

(** A float divided by itself is 1. *)
Lemma div_same (m : positive) (e : Z) :
  Zpos (digits2_pos m) = 53 ->
  F64.div (S754_finite false m e) (S754_finite false m e)
  = S754_finite false 4503599627370496 (-52).
Proof.
  intros Hd. unfold F64.div, SFdiv, SFdiv_core_binary.
  cbn [Zdigits2 xorb]. rewrite Hd.
  unfold fexp, emin, F64.prec, F64.emax.
  replace (53 + e - (53 + e)) with 0 by lia.
  replace (e - e) with 0 by lia.
  change (Z.min (Z.max (0 - 53) (3 - 1024 - 53)) 0) with (-53).
  change (0 - -53) with 53.
  rewrite Z.shiftl_mul_pow2 by lia.
  rewrite div_eucl_mul by lia. rewrite new_location_zero.
  vm_compute. reflexivity.
Qed.

Lemma success_of_none (g : Z) : 0 < g < 2 ^ 63 -> success_of 0 g = "0.00%"%string.
Proof.
  intros Hg. unfold success_of.
  destruct (of_Z_finite g Hg) as [m [e [-> _]]]. reflexivity.
Qed.

Lemma success_of_all (g : Z) : 0 < g < 2 ^ 63 -> success_of g g = "100.00%"%string.
Proof.
  intros Hg. unfold success_of.
  destruct (of_Z_finite g Hg) as [m [e [-> [Hd _]]]].
  rewrite (div_same m e Hd). vm_compute. reflexivity.
Qed.

End SuccessEnds.

(** X13. In a row of the creditor aggregate of a Unified Corpus whose grand
    total is within the range of a 64-bit count, "Success" is "0.00%" when
    no transaction of the creditor is posted, and "100.00%" when all are. *)
Theorem success_at_its_ends
    (fs : filesystem) (source_path : string) (files : list string)
    (corpus : list transaction) (agg : Pd.frame string) :
  merge_files fs source_path files = inr corpus ->
  extract_creditor_details corpus = inr agg ->
  exists posted grand_total success,
    Pd.getitem "Received Posted" agg = inr (Pd.Series posted) /\
    Pd.getitem "Grand Total" agg = inr (Pd.Series grand_total) /\
    Pd.getitem "Success" agg = inr (Pd.Series success) /\
    forall i, i < Pd.height agg ->
      exists p g,
        nth i (Pd.values posted) Pd.nan = Pd.num p /\
        nth i (Pd.values grand_total) Pd.nan = Pd.num g /\
        ((g < 2 ^ 63)%Z ->
         (p = 0%Z -> nth i (Pd.values success) Pd.nan = Pd.text "0.00%") /\
         (p = g -> nth i (Pd.values success) Pd.nan = Pd.text "100.00%")).
Proof.
  intros Hmerge H. pose proof (merge_files_filled _ _ _ _ Hmerge) as Hfilled.
  destruct (creditor_success_rows corpus agg H)
    as [posted [grand_total [success [Hp [Hg [Hs Hrows]]]]]].
  destruct (grand_total_filled corpus agg Hfilled H) as [gt [Hgt [Hlen Hpos]]].
  rewrite Hg in Hgt. injection Hgt as <-.
  exists posted, grand_total, success.
  split; [assumption |]. split; [assumption |]. split; [assumption |].
  intros i Hi. destruct (Hrows i Hi) as [p [g [H1 [H2 [H3 H4]]]]].
  exists p, g. split; [assumption |]. split; [assumption |].
  assert (Hge : (1 <= g)%Z).
  { destruct (Hpos (nth i (Pd.values grand_total) Pd.nan)) as [g' [E Hg']].
    - apply nth_In. now rewrite Hlen.
    - rewrite H2 in E. injection E as ->. assumption. }
  intros Hlt. rewrite H4. split.
  - intros ->. now rewrite success_of_none by lia.
  - intros ->. now rewrite success_of_all by lia.
Qed.

Lemma success_at_its_ends_witness :
  exists posted grand_total success,
    Pd.getitem "Received Posted" credit_a = inr (Pd.Series posted) /\
    Pd.getitem "Grand Total" credit_a = inr (Pd.Series grand_total) /\
    Pd.getitem "Success" credit_a = inr (Pd.Series success) /\
    forall i, i < Pd.height credit_a ->
      exists p g,
        nth i (Pd.values posted) Pd.nan = Pd.num p /\
        nth i (Pd.values grand_total) Pd.nan = Pd.num g /\
        ((g < 2 ^ 63)%Z ->
         (p = 0%Z -> nth i (Pd.values success) Pd.nan = Pd.text "0.00%") /\
         (p = g -> nth i (Pd.values success) Pd.nan = Pd.text "100.00%")).
Proof.
  apply (success_at_its_ends disk "/in" ["a.xlsx"] corpus_a credit_a); reflexivity.
Defined.

(** ** The rows of the report *)

Lemma position_None (n : string) (l : list string) :
  ~ In n l -> position n l = None.
Proof.
  induction l as [| x rest IH]; intros Hn; simpl; [reflexivity |].
  destruct (String.eqb_spec x n) as [-> | Hne].
  - exfalso. apply Hn. now left.
  - rewrite IH; [reflexivity |]. intros H. apply Hn. now right.
Qed.

Lemma position_Some (n : string) (l : list string) :
  In n l -> exists i, position n l = Some i.
Proof.
  induction l as [| x rest IH]; intros Hn; [destruct Hn |]. simpl.
  destruct (String.eqb_spec x n) as [-> | Hne]; [now exists 0 |].
  destruct Hn as [-> | Hn]; [congruence |].
  destruct (IH Hn) as [i ->]. now exists (S i).
Qed.

Lemma find_value_text (n : string) (l : list string) :
  find_value (Pd.text n) (map Pd.text l) = position n l.
Proof.
  induction l as [| x rest IH]; simpl; [reflexivity |]. now rewrite IH.
Qed.

Lemma positions_from_text (n : string) (l : list string) :
  NoDup l ->
  forall s, Pd.positions_from s (Pd.text n) (map Pd.text l)
            = match position n l with
              | Some i => [s + i]
              | None => []
              end.
Proof.
  induction 1 as [| x rest Hx Hnd IH]; intros s; simpl; [reflexivity |].
  destruct (String.eqb_spec x n) as [-> | Hne].
  - rewrite IH, (position_None n rest Hx). f_equal. lia.
  - rewrite IH. destruct (position n rest) as [i |]; simpl; [| reflexivity].
    f_equal. lia.
Qed.

Lemma nodup_text (l : list string) :
  nodup Pd.value_dec (map Pd.text l) = map Pd.text (nodup string_dec l).
Proof.
  induction l as [| x rest IH]; simpl; [reflexivity |].
  destruct (in_dec string_dec x rest) as [Hin | Hout];
    destruct (in_dec Pd.value_dec (Pd.text x) (map Pd.text rest)) as [Hin' | Hout'].
  - exact IH.
  - exfalso. apply Hout'. now apply in_map.
  - exfalso. apply Hout. apply in_map_iff in Hin'.
    destruct Hin' as [y [E Hy]]. injection E as ->. assumption.
  - simpl. now rewrite IH.
Qed.

Lemma insert_sorted_text (x : string) (l : list string) :
  insert_sorted Pd.value_leb (Pd.text x) (map Pd.text l)
  = map Pd.text (insert_sorted String.leb x l).
Proof.
  induction l as [| y rest IH]; simpl; [reflexivity |].
  destruct (String.leb x y); simpl; [reflexivity | now rewrite IH].
Qed.

Lemma sort_text (l : list string) :
  sort Pd.value_leb (map Pd.text l) = map Pd.text (sort String.leb l).
Proof.
  induction l as [| x rest IH]; simpl; [reflexivity |].
  now rewrite IH, insert_sorted_text.
Qed.

Lemma participants_In (left right : list string) (n : string) :
  In n (participants left right) <-> In n left \/ In n right.
Proof.
  unfold participants. now rewrite sort_In, nodup_In, in_app_iff.
Qed.

Lemma participants_ascending (left right : list string) :
  Sorted.StronglySorted ascending (participants left right).
Proof.
  apply sorted_ascending.
  - apply sort_sorted. apply String.leb_total.
  - apply sort_NoDup. apply NoDup_nodup.
Qed.

Lemma join_key_names (left right : list string) (n : string) :
  NoDup left -> NoDup right -> In n left \/ In n right ->
  Pd.join_key (map Pd.text left) (map Pd.text right) (Pd.text n)
  = [(Pd.text n, position n left, position n right)].
Proof.
  intros Hl Hr Hn. unfold Pd.join_key.
  rewrite (positions_from_text n left Hl 0), (positions_from_text n right Hr 0).
  destruct (position n left) as [i |] eqn:El;
    destruct (position n right) as [j |] eqn:Er; try reflexivity.
  exfalso. destruct Hn as [Hn | Hn]; apply position_Some in Hn;
    destruct Hn as [k Hk]; congruence.
Qed.

(** With names that do not repeat on either side, the outer join has one
    row for each participant. *)
Lemma join_rows_names (left right : list string) :
  NoDup left -> NoDup right ->
  Pd.join_rows (map Pd.text left) (map Pd.text right)
  = map (fun n => (Pd.text n, position n left, position n right))
        (participants left right).
Proof.
  intros Hl Hr. unfold Pd.join_rows.
  rewrite <- map_app, nodup_text, sort_text. fold (participants left right).
  assert (Hsub : forall n, In n (participants left right) ->
                           In n left \/ In n right).
  { intros n. apply participants_In. }
  induction (participants left right) as [| n rest IH]; [reflexivity |].
  cbn [map flat_map]. rewrite join_key_names; [| assumption | assumption |].
  - cbn [app]. f_equal. apply IH. intros m Hm. apply Hsub. now right.
  - apply Hsub. now left.
Qed.

(** ** The columns of the report *)

Lemma blank_zero_fill (v : Pd.value) :
  Pd.blank_zero (if Pd.is_nan v then Pd.num 0 else v) = Pd.blank_zero v.
Proof. now destruct v. Qed.

Lemma blank_zero_not_zero (v : Pd.value) : Pd.blank_zero v <> Pd.num 0.
Proof. destruct v as [| s | [| p | p]]; discriminate. Qed.

Lemma reported_set_last (v : Pd.value) (c c' : Pd.column string) :
  v <> Pd.num 0 -> reported c c' -> reported c (Pd.set_last_cell v c').
Proof.
  intros Hv [Hlab [x [Hx _]]]. split; [exact Hlab |].
  exists v. split; [| assumption].
  unfold Pd.set_last_cell, Pd.set_last. cbn [Pd.values].
  now rewrite Hx, removelast_last.
Qed.

Lemma Forall2_map_left {A B C} (R : B -> C -> Prop) (f : A -> B)
    (l : list A) (l' : list C) :
  Forall2 R (map f l) l' <-> Forall2 (fun a c => R (f a) c) l l'.
Proof.
  revert l'. induction l as [| a rest IH]; intros l'; simpl.
  - split; intros H; inversion H; constructor.
  - split; intros H; inversion H; subst; constructor;
      try assumption; now apply IH.
Qed.

Lemma Forall2_same {A B} (R : A -> B -> Prop) (f : A -> B) (l : list A) :
  (forall a, In a l -> R a (f a)) -> Forall2 R l (map f l).
Proof.
  induction l as [| a rest IH]; intros H; simpl; constructor.
  - apply H. now left.
  - apply IH. intros b Hb. apply H. now right.
Qed.

Lemma Forall2_In_right {A B} (R : A -> B -> Prop) (l : list A) (l' : list B) (b : B) :
  Forall2 R l l' -> In b l' -> exists a, In a l /\ R a b.
Proof.
  induction 1 as [| x y xs ys Hxy Hrest IH]; intros Hb; [destruct Hb |].
  destruct Hb as [<- | Hb]; [exists x; split; [now left | assumption] |].
  destruct (IH Hb) as [a [Ha HR]]. exists a. split; [now right | assumption].
Qed.

(** Every column of the report comes from a column of the merged frame, in
    the same place. *)
Lemma post_processing_columns (df1 df2 report : Pd.frame string) :
  post_processing df1 df2 = inr report ->
  exists merged,
    Pd.merge_outer "PARTICIPANT_NAME" df1 df2 = inr merged /\
    Forall2 reported merged report.
Proof.
  intros H. apply post_processing_inr in H.
  destruct H as [merged [cell [first [rest [front [last [success
                   [Hmerge [_ [Hnotext [Hm3 [Hm4 [_ ->]]]]]]]]]]]]].
  exists merged. split; [assumption |].
  assert (H1 : Forall2 reported merged (first :: rest)).
  { rewrite <- Hm3. unfold Pd.mask_zero, Pd.fillna, Pd.map_values.
    rewrite !map_map. apply Forall2_same. intros c _.
    split; [reflexivity |]. cbn [Pd.label Pd.dtype_of Pd.values].
    rewrite map_app, map_map. cbn [map]. eexists. split.
    - f_equal. apply map_ext. intros v. apply blank_zero_fill.
    - apply blank_zero_not_zero. }
  assert (H2 : Forall2 reported merged (front ++ [last])).
  { rewrite <- Hm4. inversion H1 as [| m f ms r Hf Hr]; subst.
    constructor; [| assumption]. apply reported_set_last; [discriminate | assumption]. }
  apply Forall2_app_inv_r in H2.
  destruct H2 as [mfront [mlast [Hfront [Hlast ->]]]].
  apply Forall2_app; [assumption |].
  inversion Hlast as [| m l ms ls Hl Hnil]; subst. inversion Hnil; subst.
  constructor; [| constructor]. apply reported_set_last; [discriminate | assumption].
Qed.

(** X14. No cell of a report is the number zero: a zero count is left
    blank, and so is a sum that is zero. *)
Theorem report_has_no_zero (df1 df2 report : Pd.frame string) :
  post_processing df1 df2 = inr report ->
  forall c v, In c report -> In v (Pd.values c) -> v <> Pd.num 0.
Proof.
  intros H c v Hc Hv.
  destruct (post_processing_columns df1 df2 report H) as [merged [_ Hall]].
  destruct (Forall2_In_right _ _ _ c Hall Hc) as [c0 [_ [_ [x [Hx Hne]]]]].
  rewrite Hx in Hv. apply in_app_or in Hv. destruct Hv as [Hv | [<- | []]].
  - apply in_map_iff in Hv. destruct Hv as [u [<- _]]. apply blank_zero_not_zero.
  - assumption.
Qed.

Lemma report_has_no_zero_witness :
  Forall (fun c => Forall (fun v => v <> Pd.num 0) (Pd.values c)) report_a.
Proof.
  apply Forall_forall. intros c Hc. apply Forall_forall. intros v Hv.
  exact (report_has_no_zero debit_a credit_a report_a eq_refl c v Hc Hv).
Defined.

Lemma select_nil_labels (name : string) (df : Pd.frame string) :
  Pd.select name df = [] -> forall c, In c df -> Pd.has_label name c = false.
Proof.
  intros H c Hc. destruct (Pd.has_label name c) eqn:E; [| reflexivity].
  assert (Hin : In c (Pd.select name df)) by (apply filter_In; now split).
  rewrite H in Hin. destruct Hin.
Qed.

Lemma drop_none (name : string) (df : Pd.frame string) :
  Pd.select name df = [] -> Pd.drop name df = df.
Proof.
  intros H. unfold Pd.drop. apply forallb_filter_id. apply forallb_forall.
  intros c Hc. now rewrite (select_nil_labels name df H c Hc).
Qed.

Lemma Forall2_impl_In {A B} (R S : A -> B -> Prop) (l : list A) (l' : list B) :
  (forall a b, In a l -> R a b -> S a b) -> Forall2 R l l' -> Forall2 S l l'.
Proof.
  intros H HR. induction HR as [| a b rest rest' Hab Hrest IH]; constructor.
  - apply H; [now left | assumption].
  - apply IH. intros x y Hx. apply H. now right.
Qed.

Lemma suffixed_fresh (others : list string) (suffix l : string) :
  Py.mem l others = false -> Pd.suffixed others suffix l = l.
Proof. intros H. unfold Pd.suffixed. now rewrite H. Qed.

(** The cells that a column of an aggregate gets in the report. *)
Lemma reported_shown (df : Pd.frame string) (keys names : list string)
    (key : Pd.column string) (rest : Pd.frame string)
    (c joined c' : Pd.column string) :
  df = key :: rest -> Pd.values key = map Pd.text keys ->
  Pd.label joined = Pd.label c ->
  Pd.values joined = map (fun n => Pd.take (Pd.values c) (position n keys)) names ->
  reported joined c' -> shown df names c c'.
Proof.
  intros -> Hkeys Hlab Hvals [Hlab' [x [Hx _]]]. split; [congruence |].
  rewrite Hx, Hvals, map_map. split.
  - rewrite length_app, length_map. cbn [List.length]. lia.
  - intros i Hi. rewrite app_nth1 by now rewrite length_map.
    rewrite (nth_map_lt _ names i Pd.nan "") by assumption.
    unfold cell_of, row_of. now rewrite Hkeys, find_value_text.
Qed.

(** The report of two frames keyed by names that do not repeat, whose other
    columns have different labels on the two sides. *)
Lemma report_of_keyed (df1 df2 report : Pd.frame string)
    (k1 k2 : Pd.column string) (rest1 rest2 : Pd.frame string)
    (left right : list string) :
  df1 = k1 :: rest1 -> df2 = k2 :: rest2 ->
  Pd.label k1 = "PARTICIPANT_NAME" -> Pd.label k2 = "PARTICIPANT_NAME" ->
  Pd.values k1 = map Pd.text left -> Pd.values k2 = map Pd.text right ->
  NoDup left -> NoDup right -> rest2 <> [] ->
  (forall c, In c rest1 -> Py.mem (Pd.label c) (Pd.labels rest2) = false) ->
  (forall c, In c rest2 -> Py.mem (Pd.label c) (Pd.labels rest1) = false) ->
  post_processing df1 df2 = inr report ->
  exists names cols1 cols2,
    report = names :: cols1 ++ cols2 /\
    Pd.label names = "PARTICIPANT_NAME" /\
    Pd.values names
    = map Pd.text (participants left right) ++ [Pd.text "GRAND TOTAL"] /\
    Forall2 (shown df1 (participants left right)) rest1 cols1 /\
    Forall2 (shown df2 (participants left right)) rest2 cols2.
Proof.
  intros E1 E2 Hl1 Hl2 Hv1 Hv2 Hnd1 Hnd2 Hne H12 H21 H.
  destruct (post_processing_columns df1 df2 report H) as [merged [Hmerge Hall]].
  destruct (report_last_row df1 df2 report H) as [names [rest [Er [_ [Hlast _]]]]].
  { exists k1, rest1. now split. }
  { assert (Hd : Pd.drop "PARTICIPANT_NAME" df2 <> []).
    { intros Hd. unfold Pd.merge_outer in Hmerge.
      apply bind_inr in Hmerge. destruct Hmerge as [lk [_ Hmerge]].
      apply bind_inr in Hmerge. destruct Hmerge as [rk [Hrk _]].
      apply key_column_inr in Hrk. subst df2.
      rewrite select_cons, Hl2, String.eqb_refl in Hrk. injection Hrk as _ Hrk.
      rewrite drop_cons, Hl2, String.eqb_refl, (drop_none _ _ Hrk) in Hd.
      contradiction. }
    destruct (exists_last Hd) as [front2 [c2 E]]. now exists front2, c2. }
  unfold Pd.merge_outer in Hmerge.
  apply bind_inr in Hmerge. destruct Hmerge as [lk [Hlk Hmerge]].
  apply bind_inr in Hmerge. destruct Hmerge as [rk [Hrk Hmerge]].
  apply key_column_inr in Hlk, Hrk. subst df1 df2.
  rewrite select_cons, Hl1, String.eqb_refl in Hlk. injection Hlk as -> Hlk.
  rewrite select_cons, Hl2, String.eqb_refl in Hrk. injection Hrk as -> Hrk.
  rewrite (drop_cons _ rk), Hl2, String.eqb_refl, (drop_none _ _ Hrk) in Hmerge.
  rewrite (drop_cons _ lk), Hl1, String.eqb_refl, (drop_none _ _ Hlk) in Hmerge.
  rewrite Hv1, Hv2, (join_rows_names left right Hnd1 Hnd2) in Hmerge.
  set (P := participants left right) in *.
  cbn [map] in Hmerge. unfold Pd.has_label at 1 in Hmerge.
  rewrite Hl1, String.eqb_refl in Hmerge. injection Hmerge as <-.
  rewrite !map_map in Hall. cbn [fst snd] in Hall.
  rewrite Er in Hall |- *. clear H Er.
  inversion Hall as [| m n' ms r' Hn Hrest]; subst m ms n' r'. clear Hall.
  apply Forall2_app_inv_l in Hrest.
  destruct Hrest as [cols1 [cols2 [Hc1 [Hc2 ->]]]].
  exists names, cols1, cols2. split; [reflexivity |].
  destruct Hn as [Hlab [x [Hx _]]]. cbn [Pd.label Pd.values] in Hlab, Hx.
  split; [assumption |]. split.
  - rewrite Hx in Hlast. rewrite last_last in Hlast. subst x.
    rewrite Hx, map_map. reflexivity.
  - split.
    + apply (proj1 (Forall2_map_left reported _ rest1 cols1)) in Hc1.
      revert Hc1. apply Forall2_impl_In.
      intros c c' Hc Hr. rewrite (select_nil_labels _ _ Hlk c Hc) in Hr.
      eapply reported_shown; [reflexivity | exact Hv1 | | | exact Hr];
        cbn [Pd.label Pd.values].
      * apply suffixed_fresh. now apply H12.
      * rewrite map_map. reflexivity.
    + apply (proj1 (Forall2_map_left reported _ rest2 cols2)) in Hc2.
      revert Hc2. apply Forall2_impl_In.
      intros c c' Hc Hr.
      eapply reported_shown; [reflexivity | exact Hv2 | | | exact Hr];
        cbn [Pd.label Pd.values].
      * apply suffixed_fresh. now apply H21.
      * rewrite map_map. reflexivity.
Qed.

Lemma derived_not_sent : Py.mem "Sent Posted" derived_names = false.
Proof. vm_compute. reflexivity. Qed.

(** The report of the two aggregates of a corpus. *)
Lemma report_of_aggregates (corpus : list transaction)
    (df1 df2 report : Pd.frame string) :
  extract_debitor_details corpus = inr df1 ->
  extract_creditor_details corpus = inr df2 ->
  post_processing df1 df2 = inr report ->
  let P := participants (debtors corpus) (creditors corpus) in
  exists names cols1 cols2,
    report = names :: cols1 ++ cols2 /\
    Pd.label names = "PARTICIPANT_NAME" /\
    Pd.values names = map Pd.text P ++ [Pd.text "GRAND TOTAL"] /\
    Forall2 (shown df1 P) (tl df1) cols1 /\
    Forall2 (shown df2 P) (tl df2) cols2.
Proof.
  intros Hdeb Hcred Hpost P.
  rewrite extract_debitor_details_eq in Hdeb.
  destruct (Py.mem "DB_PARTIC_NAME" (statuses corpus)); [discriminate |].
  destruct (Py.mem "Posted" (statuses corpus)); [| discriminate].
  injection Hdeb as <-.
  apply extract_creditor_details_inr in Hcred. destruct Hcred as [k0 [_ ->]].
  unfold creditor_frame in *.
  set (others := filter (fun k => negb (names_posted k)) (combinations corpus)) in *.
  match goal with
  | H : post_processing (?a :: ?r1) (?b :: ?r2) = _ |- _ =>
      assert (Hfresh : forall c, In c r2 -> String.eqb (Pd.label c) "Sent Posted" = false)
  end.
  { intros c [<- | Hc]; [reflexivity |].
    apply in_app_or in Hc. destruct Hc as [Hc | [<- | [<- | []]]];
      [| reflexivity | reflexivity].
    apply in_map_iff in Hc. destruct Hc as [k [<- _]]. cbn [Pd.label].
    apply renamed_not; [exact derived_not_sent | reflexivity | reflexivity]. }
  cbn [tl].
  eapply (report_of_keyed _ _ report _ _ _ _ (debtors corpus) (creditors corpus));
    try reflexivity; try exact Hpost.
  - apply index_labels_NoDup.
  - apply index_labels_NoDup.
  - discriminate.
  - intros c [<- | []]. cbn [Pd.label]. apply mem_false. intros Hin.
    apply in_map_iff in Hin. destruct Hin as [c' [E Hc']].
    specialize (Hfresh c' Hc'). rewrite E in Hfresh. discriminate.
  - intros c Hc. cbn [Pd.labels map Pd.label]. rewrite mem_cons.
    rewrite (Hfresh c Hc). reflexivity.
Qed.

(** X15. The report of a Unified Corpus has one row for each participant
    that is the debtor or the creditor of a row of the corpus, in ascending
    order of the name, and then the GRAND TOTAL row. *)
Theorem report_rows
    (fs : filesystem) (source_path : string) (files : list string)
    (corpus : list transaction) (df1 df2 report : Pd.frame string) :
  merge_files fs source_path files = inr corpus ->
  extract_debitor_details corpus = inr df1 ->
  extract_creditor_details corpus = inr df2 ->
  post_processing df1 df2 = inr report ->
  exists names rest participant_names,
    report = names :: rest /\
    Pd.label names = "PARTICIPANT_NAME" /\
    Pd.values names = map Pd.text participant_names ++ [Pd.text "GRAND TOTAL"] /\
    Sorted.StronglySorted ascending participant_names /\
    forall n, In n participant_names <->
              exists t, In t corpus
                        /\ (DB_PARTIC_NAME t = Str n \/ CR_PARTIC_NAME t = Str n).
Proof.
  intros Hmerge Hdeb Hcred Hpost.
  pose proof (merge_files_filled _ _ _ _ Hmerge) as Hfilled.
  destruct (report_of_aggregates corpus df1 df2 report Hdeb Hcred Hpost)
    as [names [cols1 [cols2 [E [Hlab [Hvals _]]]]]].
  exists names, (cols1 ++ cols2), (participants (debtors corpus) (creditors corpus)).
  split; [assumption |]. split; [assumption |]. split; [assumption |].
  split; [apply participants_ascending |].
  intros n. rewrite participants_In, (debtors_spec corpus Hfilled),
    (creditors_spec corpus Hfilled). split.
  - intros [[t [Ht Hn]] | [t [Ht Hn]]]; exists t; tauto.
  - intros [t [Ht [Hn | Hn]]]; [left | right]; now exists t.
Qed.

Lemma report_rows_witness :
  exists names rest participant_names,
    report_a = names :: rest /\
    Pd.label names = "PARTICIPANT_NAME" /\
    Pd.values names = map Pd.text participant_names ++ [Pd.text "GRAND TOTAL"] /\
    Sorted.StronglySorted ascending participant_names /\
    forall n, In n participant_names <->
              exists t, In t corpus_a
                        /\ (DB_PARTIC_NAME t = Str n \/ CR_PARTIC_NAME t = Str n).
Proof.
  apply (report_rows disk "/in" ["a.xlsx"] corpus_a debit_a credit_a report_a);
    reflexivity.
Defined.

(** X16. The columns of the report are the name column, then the other
    columns of the debtor aggregate, then those of the creditor aggregate,
    in their order and under their labels.  In the row of a participant, a
    cell is the cell that the aggregate has for that participant, blank
    when it is zero, and blank when the aggregate has no row for the
    participant. *)
Theorem report_columns
    (corpus : list transaction) (df1 df2 report : Pd.frame string) :
  extract_debitor_details corpus = inr df1 ->
  extract_creditor_details corpus = inr df2 ->
  post_processing df1 df2 = inr report ->
  exists names cols1 cols2 participant_names,
    report = names :: cols1 ++ cols2 /\
    Pd.values names = map Pd.text participant_names ++ [Pd.text "GRAND TOTAL"] /\
    Forall2 (shown df1 participant_names) (tl df1) cols1 /\
    Forall2 (shown df2 participant_names) (tl df2) cols2.
Proof.
  intros Hdeb Hcred Hpost.
  destruct (report_of_aggregates corpus df1 df2 report Hdeb Hcred Hpost)
    as [names [cols1 [cols2 [E [_ [Hvals [H1 H2]]]]]]].
  exists names, cols1, cols2, (participants (debtors corpus) (creditors corpus)).
  now repeat split.
Qed.

Lemma report_columns_witness :
  exists names cols1 cols2 participant_names,
    report_a = names :: cols1 ++ cols2 /\
    Pd.values names = map Pd.text participant_names ++ [Pd.text "GRAND TOTAL"] /\
    Forall2 (shown debit_a participant_names) (tl debit_a) cols1 /\
    Forall2 (shown credit_a participant_names) (tl credit_a) cols2.
Proof.
  apply (report_columns corpus_a debit_a credit_a report_a); reflexivity.
Defined.

(** ** Reading a percentage back *)

Lemma is_digit_not_percent (a : ascii) : is_digit a = true -> Ascii.eqb a "%" = false.
Proof.
  intros H. destruct (Ascii.eqb_spec a "%"%char) as [-> | Hne]; [discriminate | reflexivity].
Qed.

Lemma is_digit_digit_value (a : ascii) :
  is_digit a = true -> exists d, F64.digit_value a = Some d.
Proof.
  unfold is_digit. destruct (F64.digit_value a) as [d |]; [now exists d | discriminate].
Qed.

(** The digits of a two-decimal percentage, as [read_digits] reads them
    once the "%" is removed. *)
Lemma read_digits_shape (t : string) :
  forall seen acc count,
    digits_then_decimals seen t = true ->
    exists acc' count' a b,
      F64.read_digits (Py.remove_char "%" t) acc count
      = (acc', count', String "." (String a (String b ""))) /\
      is_digit a = true /\ is_digit b = true /\
      count <= count' /\ (seen = false -> count < count').
Proof.
  induction t as [| c rest IH]; intros seen acc count H; [discriminate |].
  simpl in H. destruct (Ascii.eqb_spec c "."%char) as [-> | Hc].
  - apply andb_true_iff in H. destruct H as [Hseen H].
    destruct rest as [| a [| b [| p [| ? ?]]]]; try discriminate.
    simpl in H. apply andb_true_iff in H. destruct H as [H Hp].
    apply andb_true_iff in H. destruct H as [Ha Hb].
    apply Ascii.eqb_eq in Hp. subst p.
    exists acc, count, a, b. cbn [Py.remove_char].
    rewrite (is_digit_not_percent a Ha), (is_digit_not_percent b Hb).
    change (Ascii.eqb "." "%") with false. change (Ascii.eqb "%" "%") with true.
    cbn iota. split; [reflexivity |]. split; [assumption |]. split; [assumption |].
    split; [lia |]. intros ->. discriminate.
  - apply andb_true_iff in H. destruct H as [Hd H].
    destruct (is_digit_digit_value c Hd) as [d Hdv].
    destruct (IH true (acc * 10 + d)%N (S count) H)
      as [acc' [count' [a [b [E [Ha [Hb [Hle _]]]]]]]].
    exists acc', count', a, b. cbn [Py.remove_char].
    rewrite (is_digit_not_percent c Hd). cbn [F64.read_digits]. rewrite Hdv.
    split; [exact E |]. split; [assumption |]. split; [assumption |].
    split; [lia |]. intros _. lia.
Qed.

Lemma is_digit_differs (a x : ascii) :
  is_digit a = true -> is_digit x = false -> Ascii.eqb a x = false.
Proof.
  intros Ha Hx. destruct (Ascii.eqb_spec a x) as [-> | Hne]; congruence.
Qed.

Lemma read_sign_digit (a : ascii) (rest : string) :
  is_digit a = true -> F64.read_sign (String a rest) = (false, String a rest).
Proof.
  intros Ha.
  destruct a as [[] [] [] [] [] [] [] []]; try discriminate Ha; reflexivity.
Qed.

(** A text of digits, a point and two decimals is a number for
    [float()], with or without a sign in front. *)
Lemma parse_two_decimals (negative : bool) (t : string) :
  two_decimal_percent t = true ->
  exists y, F64.parse (F64.sign negative ++ Py.remove_char "%" t)%string = Some y.
Proof.
  intros H. unfold two_decimal_percent in H.
  destruct (read_digits_shape t false 0%N 0 H)
    as [ip [ni [a [b [E [Ha [Hb [_ Hni]]]]]]]].
  specialize (Hni eq_refl).
  destruct t as [| c rest]; [discriminate |].
  simpl in H. destruct (Ascii.eqb c "."); [discriminate |].
  apply andb_true_iff in H. destruct H as [Hc _].
  cbn [Py.remove_char] in *. rewrite (is_digit_not_percent c Hc) in *.
  set (body' := Py.remove_char "%" rest) in *.
  assert (Hsign : F64.read_sign (F64.sign negative ++ String c body')%string
                  = (negative, String c body')).
  { destruct negative; [reflexivity | now apply read_sign_digit]. }
  unfold F64.parse. rewrite Hsign.
  assert (Hnan : String.eqb (String c body') "nan" = false).
  { cbn [String.eqb]. now rewrite (is_digit_differs c "n" Hc eq_refl). }
  assert (Hinf : String.eqb (String c body') "inf" = false).
  { cbn [String.eqb]. now rewrite (is_digit_differs c "i" Hc eq_refl). }
  rewrite Hnan, Hinf, E.
  destruct (is_digit_digit_value a Ha) as [da Hda].
  destruct (is_digit_digit_value b Hb) as [db Hdb].
  cbn [F64.read_digits]. rewrite Hda, Hdb. cbn [Nat.add].
  replace (Nat.eqb (ni + 2) 0) with false by (symmetry; apply Nat.eqb_neq; lia).
  eexists. reflexivity.
Qed.

Lemma remove_char_app (c : ascii) (s t : string) :
  Py.remove_char c (s ++ t)%string
  = (Py.remove_char c s ++ Py.remove_char c t)%string.
Proof.
  induction s as [| a s IH]; simpl; [reflexivity |].
  destruct (Ascii.eqb a c); simpl; now rewrite IH.
Qed.

(** Whatever the float, the percentage text that the program writes for it
    is read back, without its "%", as a float. *)
Lemma parse_percent (x : F64.float) :
  exists y, F64.parse (Py.remove_char "%" (percent x)) = Some y.
Proof.
  unfold percent. destruct x as [s | s | | s m e].
  - destruct s; eexists; reflexivity.
  - destruct s; eexists; reflexivity.
  - eexists; reflexivity.
  - unfold F64.format_2f. rewrite string_app_assoc, remove_char_app.
    replace (Py.remove_char "%" (F64.sign s)) with (F64.sign s) by now destruct s.
    apply parse_two_decimals. apply fixed2_percent.
Qed.

Lemma astype_float_percents (col : list Pd.value) :
  (forall s, In (Pd.text s) col -> exists x, s = percent x) ->
  exists xs, Pd.astype_float (Pd.str_replace "%" col) = inr xs.
Proof.
  induction col as [| v rest IH]; intros H; simpl; [eexists; reflexivity |].
  destruct IH as [xs Hxs]; [intros s Hs; apply H; now right |].
  destruct v as [| s | z]; cbn [Pd.to_float bind ret].
  - rewrite Hxs. eexists. reflexivity.
  - destruct (H s (or_introl eq_refl)) as [x ->].
    destruct (parse_percent x) as [y ->]. cbn [bind ret]. rewrite Hxs.
    eexists. reflexivity.
  - rewrite Hxs. eexists. reflexivity.
Qed.

(** ** When the report is produced *)

Lemma labels_map_values {L} (f : Pd.value -> Pd.value) (df : Pd.frame L) :
  Pd.labels (Pd.map_values f df) = Pd.labels df.
Proof. unfold Pd.labels, Pd.map_values. rewrite map_map. reflexivity. Qed.

Lemma numeric_map_values {L} (f : Pd.value -> Pd.value) (df : Pd.frame L) :
  Pd.numeric (Pd.map_values f df) = Pd.map_values f (Pd.numeric df).
Proof.
  unfold Pd.numeric, Pd.map_values.
  induction df as [| c rest IH]; simpl; [reflexivity |].
  destruct (Pd.is_number (Pd.dtype_of c)); simpl; now rewrite IH.
Qed.

Lemma sum_columns_labels (df : Pd.frame string) :
  map fst (Pd.sum_columns df) = Pd.labels (Pd.numeric df).
Proof. unfold Pd.sum_columns, Pd.labels. rewrite map_map. reflexivity. Qed.

Lemma select_label_preserved (name : string) (g : Pd.column string -> Pd.column string)
    (df : Pd.frame string) :
  (forall c, Pd.label (g c) = Pd.label c) ->
  Pd.select name (map g df) = map g (Pd.select name df).
Proof.
  intros Hg. unfold Pd.select. rewrite filter_map_swap. f_equal.
  apply filter_ext. intros c. unfold Pd.has_label. now rewrite Hg.
Qed.

(** The reconciler returns a report when the join does, the numeric columns
    of the merged frame have different labels, and its last column, and no
    other, is a "Success" column of percentage texts. *)
Lemma post_processing_returns (df1 df2 merged : Pd.frame string)
    (first : Pd.column string) (middle : Pd.frame string) (final : Pd.column string) :
  Pd.merge_outer "PARTICIPANT_NAME" df1 df2 = inr merged ->
  merged = first :: middle ++ [final] ->
  NoDup (Pd.labels (Pd.numeric merged)) ->
  Pd.label final = "Success" -> Pd.dtype_of final = Pd.object ->
  (forall c, In c (first :: middle) -> String.eqb (Pd.label c) "Success" = false) ->
  (forall s, In (Pd.text s) (Pd.values final) -> exists x, s = percent x) ->
  exists report, post_processing df1 df2 = inr report.
Proof.
  intros Hmerge -> Hnd Hlab Hobj Hfront Htexts.
  unfold post_processing. rewrite Hmerge. cbn [bind].
  unfold Pd.append_row. rewrite sum_columns_labels.
  unfold Pd.fillna at 1. rewrite numeric_map_values, labels_map_values.
  rewrite (proj2 (unique_NoDup _) Hnd). cbn [bind ret].
  set (sums := Pd.sum_columns (Pd.fillna (Pd.num 0) (first :: middle ++ [final]))).
  set (g := fun c : Pd.column string =>
              {| Pd.label := Pd.label c; Pd.dtype_of := Pd.dtype_of c;
                 Pd.values :=
                   map Pd.blank_zero
                     (map (fun x => if Pd.is_nan x then Pd.num 0 else x) (Pd.values c)
                      ++ [match Pd.lookup (Pd.label c) sums with
                          | Some z => Pd.num z
                          | None => Pd.nan
                          end]) |}).
  assert (Hg : Pd.mask_zero
                 (map (fun c => {| Pd.label := Pd.label c; Pd.dtype_of := Pd.dtype_of c;
                                   Pd.values := Pd.values c
                                                ++ [match Pd.lookup (Pd.label c) sums with
                                                    | Some z => Pd.num z
                                                    | None => Pd.nan
                                                    end] |})
                      (Pd.fillna (Pd.num 0) (first :: middle ++ [final])))
               = map g (first :: middle ++ [final])).
  { unfold Pd.mask_zero, Pd.fillna, Pd.map_values. rewrite !map_map. reflexivity. }
  rewrite Hg. clear Hg. cbn [map].
  assert (Hheight : forall v c more,
             Nat.eqb (Pd.height (Pd.set_last_cell v (g c) :: more)) 0 = false).
  { intros v c more. cbn [Pd.height Pd.set_last_cell Pd.values]. unfold Pd.set_last.
    rewrite length_app. cbn [List.length]. apply Nat.eqb_neq. lia. }
  unfold Pd.iloc_last_first.
  assert (Hh : Nat.eqb (Pd.height (g first :: map g (middle ++ [final]))) 0 = false).
  { cbn [Pd.height g Pd.values]. rewrite length_map, length_app. cbn [List.length].
    apply Nat.eqb_neq. lia. }
  rewrite Hh. cbn [bind ret].
  set (top := Pd.set_last_cell (Pd.text "GRAND TOTAL") (g first)).
  rewrite map_app. cbn [map].
  unfold Pd.getitem.
  change (top :: map g middle ++ [g final]) with ((top :: map g middle) ++ [g final]).
  rewrite select_app.
  rewrite (select_none "Success" (top :: map g middle)).
  2:{ apply mem_false. intros Hin. apply in_map_iff in Hin.
      destruct Hin as [c [E [<- | Hc]]].
      - cbn [top Pd.set_last_cell Pd.label g] in E.
        specialize (Hfront first (or_introl eq_refl)). rewrite E in Hfront. discriminate.
      - apply in_map_iff in Hc. destruct Hc as [c' [<- Hc']]. cbn [g Pd.label] in E.
        specialize (Hfront c' (or_intror Hc')). rewrite E in Hfront. discriminate. }
  rewrite select_cons. cbn [g Pd.label]. rewrite Hlab, String.eqb_refl.
  change (Pd.select "Success" []) with (@nil (Pd.column string)).
  cbn [app bind ret Pd.series]. unfold Pd.str. cbn [g Pd.dtype_of]. rewrite Hobj.
  cbn [bind ret Pd.values Pd.label]. rewrite ?Hlab.
  destruct (astype_float_percents
              (map Pd.blank_zero
                 (map (fun x => if Pd.is_nan x then Pd.num 0 else x) (Pd.values final)
                  ++ [match Pd.lookup "Success" sums with
                      | Some z => Pd.num z
                      | None => Pd.nan
                      end]))) as [xs Hxs].
  { intros s Hs. apply in_map_iff in Hs. destruct Hs as [v [Hv Hin]].
    apply in_app_or in Hin. destruct Hin as [Hin | [<- | []]].
    - apply in_map_iff in Hin. destruct Hin as [u [<- Hu]].
      apply Htexts. destruct u as [| t | [| p | p]]; try discriminate Hv.
      simpl in Hv. now injection Hv as <-.
    - destruct (Pd.lookup "Success" sums) as [[| p | p] |]; discriminate Hv. }
  replace (Pd.values (g final))
    with (map Pd.blank_zero
            (map (fun x => if Pd.is_nan x then Pd.num 0 else x) (Pd.values final)
             ++ [match Pd.lookup "Success" sums with
                 | Some z => Pd.num z
                 | None => Pd.nan
                 end]))
    by (unfold g; cbn [Pd.values Pd.label]; now rewrite Hlab).
  rewrite Hxs. cbn [bind].
  unfold Pd.iloc_last_last. cbn [rev]. rewrite rev_app_distr. cbn [rev app].
  unfold top at 1. rewrite Hheight. eexists. reflexivity.
Qed.

Lemma merge_outer_keyed (k1 k2 : Pd.column string) (rest1 rest2 : Pd.frame string) :
  Pd.label k1 = "PARTICIPANT_NAME" -> Pd.label k2 = "PARTICIPANT_NAME" ->
  Pd.select "PARTICIPANT_NAME" rest1 = [] ->
  Pd.select "PARTICIPANT_NAME" rest2 = [] ->
  (forall c, In c rest1 -> Py.mem (Pd.label c) (Pd.labels rest2) = false) ->
  (forall c, In c rest2 -> Py.mem (Pd.label c) (Pd.labels rest1) = false) ->
  let rows := Pd.join_rows (Pd.values k1) (Pd.values k2) in
  Pd.merge_outer "PARTICIPANT_NAME" (k1 :: rest1) (k2 :: rest2)
  = inr ({| Pd.label := "PARTICIPANT_NAME"; Pd.dtype_of := Pd.dtype_of k1;
            Pd.values := map (fun r => fst (fst r)) rows |}
         :: map (fun c => {| Pd.label := Pd.label c; Pd.dtype_of := Pd.dtype_of c;
                             Pd.values := map (fun r => Pd.take (Pd.values c) (snd (fst r)))
                                              rows |}) rest1
         ++ map (fun c => {| Pd.label := Pd.label c; Pd.dtype_of := Pd.dtype_of c;
                             Pd.values := map (fun r => Pd.take (Pd.values c) (snd r))
                                              rows |}) rest2).
Proof.
  intros Hl1 Hl2 Hs1 Hs2 H12 H21 rows.
  unfold Pd.merge_outer, Pd.key_column.
  rewrite !select_cons, Hl1, Hl2, String.eqb_refl, Hs1, Hs2. cbn [bind ret].
  rewrite !drop_cons, Hl1, Hl2, String.eqb_refl, (drop_none _ _ Hs1), (drop_none _ _ Hs2).
  fold rows. cbn [map]. unfold Pd.has_label at 1. rewrite Hl1, String.eqb_refl.
  unfold ret. cbn [app]. f_equal. f_equal. f_equal.
  - apply map_ext_in. intros c Hc.
    rewrite (select_nil_labels _ _ Hs1 c Hc).
    now rewrite (suffixed_fresh _ _ _ (H12 c Hc)).
  - apply map_ext_in. intros c Hc.
    now rewrite (suffixed_fresh _ _ _ (H21 c Hc)).
Qed.

Lemma filter_unique {A} (f : A -> string) (y : string) (l : list A) :
  NoDup (map f l) -> In y (map f l) ->
  exists x, filter (fun a => String.eqb (f a) y) l = [x].
Proof.
  induction l as [| a rest IH]; intros Hnd Hin; [destruct Hin |].
  cbn [map] in Hnd. inversion Hnd as [| ? ? Hnotin Hnd']; subst.
  cbn [filter]. destruct (String.eqb_spec (f a) y) as [E | Hne].
  - exists a. f_equal.
    assert (Hnone : forall b, In b rest -> String.eqb (f b) y = false).
    { intros b Hb. apply String.eqb_neq. intros Eb. apply Hnotin.
      rewrite E, <- Eb. now apply in_map. }
    clear -Hnone. induction rest as [| b rest IH]; [reflexivity |].
    cbn [filter]. rewrite (Hnone b (or_introl eq_refl)).
    apply IH. intros c Hc. apply Hnone. now right.
  - destruct Hin as [E | Hin]; [contradiction |]. now apply IH.
Qed.

Lemma filtered_names_NoDup {A} (keep : A -> bool) (name : A -> string)
    (items : list A) :
  NoDup (map name items) -> NoDup (map name (filter keep items)).
Proof.
  intros Hnd. induction items as [| a rest IH]; [constructor |].
  cbn [map] in Hnd. apply NoDup_cons_iff in Hnd. destruct Hnd as [Hnotin Hnd].
  cbn [filter]. destruct (keep a); [| now apply IH].
  cbn [map]. apply NoDup_cons; [| now apply IH].
  intros Hin. apply Hnotin. apply in_map_iff in Hin.
  destruct Hin as [b [E Hb]]. apply filter_In in Hb. rewrite <- E.
  apply in_map. tauto.
Qed.

Lemma take_text (col : list Pd.value) (sel : option nat) (s : string) :
  Pd.take col sel = Pd.text s -> In (Pd.text s) col.
Proof.
  destruct sel as [i |]; simpl; [| discriminate].
  intros H. destruct (Nat.lt_ge_cases i (List.length col)) as [Hi | Hi].
  - rewrite <- H. now apply nth_In.
  - rewrite nth_overflow in H by assumption. discriminate.
Qed.

Lemma derived_not_participant : Py.mem "PARTICIPANT_NAME" derived_names = false.
Proof. vm_compute. reflexivity. Qed.

(** The reconciler returns on the two aggregates of a corpus whose pivot
    columns get different names, none of them the name of the index. *)
Lemma post_processing_aggregates (corpus : list transaction) (k0 : string * string) :
  ~ In "CR_PARTIC_NAME" (map new_col_name (combinations corpus)) ->
  NoDup (map new_col_name (combinations corpus)) ->
  filter names_posted (combinations corpus) = [k0] ->
  exists report,
    post_processing
      [ {| Pd.label := "PARTICIPANT_NAME"; Pd.dtype_of := Pd.object;
           Pd.values := map Pd.text (debtors corpus) |};
        {| Pd.label := "Sent Posted"; Pd.dtype_of := Pd.number;
           Pd.values := map (fun n => Pd.num (debtor_count corpus n "Posted"))
                            (debtors corpus) |} ]
      (creditor_frame corpus k0
         (filter (fun k => negb (names_posted k)) (combinations corpus)))
    = inr report.
Proof.
  intros Hidx Hnd Hposted.
  set (others := filter (fun k => negb (names_posted k)) (combinations corpus)).
  assert (Hoth : forall k, In k others ->
             renamed (new_col_name k) = new_col_name k
             /\ In (new_col_name k) (map new_col_name (combinations corpus))).
  { intros k Hk. unfold others in Hk. apply filter_In in Hk. destruct Hk as [Hk Hn].
    apply negb_true_iff in Hn. unfold names_posted in Hn.
    assert (Hin : In (new_col_name k) (map new_col_name (combinations corpus)))
      by now apply in_map.
    split; [| assumption]. rewrite renamed_cases, Hn.
    destruct (String.eqb_spec (new_col_name k) "CR_PARTIC_NAME") as [E | _];
      [| reflexivity].
    exfalso. apply Hidx. now rewrite <- E. }
  unfold creditor_frame. fold others.
  set (idx := creditors corpus). set (cnt := creditor_count corpus).
  set (colf := fun k : string * string =>
                 {| Pd.label := renamed (new_col_name k); Pd.dtype_of := Pd.number;
                    Pd.values := map (fun n => Pd.num (cnt n k)) idx |}).
  set (sent := {| Pd.label := "Sent Posted"; Pd.dtype_of := Pd.number;
                  Pd.values := map (fun n => Pd.num (debtor_count corpus n "Posted"))
                                   (debtors corpus) |}).
  set (posted := {| Pd.label := "Received Posted"; Pd.dtype_of := Pd.number;
                    Pd.values := map (fun n => Pd.num (cnt n k0)) idx |}).
  set (total := {| Pd.label := "Grand Total"; Pd.dtype_of := Pd.number;
                   Pd.values := map (fun n => Pd.num (row_total cnt (k0 :: others) n)) idx |}).
  set (success := {| Pd.label := "Success"; Pd.dtype_of := Pd.object;
                     Pd.values := map (fun n => Pd.text (success_of (cnt n k0)
                                             (row_total cnt (k0 :: others) n))) idx |}).
  set (rest2 := posted :: map colf others ++ [total; success]).
  assert (Hlabels : forall c, In c rest2 ->
            c = posted \/ c = total \/ c = success
            \/ exists k, In k others /\ c = colf k).
  { intros c [<- | Hc]; [now left |].
    apply in_app_or in Hc. destruct Hc as [Hc | [<- | [<- | []]]]; [| tauto | tauto].
    apply in_map_iff in Hc. destruct Hc as [k [<- Hk]].
    right. right. right. now exists k. }
  assert (Hname : forall k name,
            Py.mem name derived_names = false -> In k others ->
            String.eqb (Pd.label (colf k)) name = false).
  { intros k name Hd Hk. cbn [colf Pd.label].
    rewrite (proj1 (Hoth k Hk)). now apply new_col_name_not. }
  assert (Hfresh : forall name,
            Py.mem name derived_names = false ->
            String.eqb "Received Posted" name = false ->
            String.eqb "Grand Total" name = false ->
            String.eqb "Success" name = false ->
            forall c, In c rest2 -> String.eqb (Pd.label c) name = false).
  { intros name Hd H1 H2 H3 c Hc.
    destruct (Hlabels c Hc) as [-> | [-> | [-> | [k [Hk ->]]]]];
      try assumption. now apply Hname. }
  pose proof (Hfresh "PARTICIPANT_NAME" derived_not_participant
                eq_refl eq_refl eq_refl) as Hkey.
  pose proof (Hfresh "Sent Posted" derived_not_sent eq_refl eq_refl eq_refl) as Hsent.
  assert (Hs2 : Pd.select "PARTICIPANT_NAME" rest2 = []).
  { apply select_none. apply mem_false. intros Hin. apply in_map_iff in Hin.
    destruct Hin as [c [E Hc]]. specialize (Hkey c Hc). rewrite E in Hkey.
    discriminate. }
  assert (H12 : forall c, In c [sent] -> Py.mem (Pd.label c) (Pd.labels rest2) = false).
  { intros c [<- | []]. apply mem_false. intros Hin. apply in_map_iff in Hin.
    destruct Hin as [c' [E Hc']]. specialize (Hsent c' Hc').
    cbn [sent Pd.label] in E. rewrite E in Hsent. discriminate. }
  assert (H21 : forall c, In c rest2 -> Py.mem (Pd.label c) (Pd.labels [sent]) = false).
  { intros c Hc. cbn [Pd.labels map sent Pd.label]. rewrite mem_cons.
    now rewrite (Hsent c Hc). }
  pose proof (merge_outer_keyed
                {| Pd.label := "PARTICIPANT_NAME"; Pd.dtype_of := Pd.object;
                   Pd.values := map Pd.text (debtors corpus) |}
                {| Pd.label := "PARTICIPANT_NAME"; Pd.dtype_of := Pd.object;
                   Pd.values := map Pd.text idx |}
                [sent] rest2 eq_refl eq_refl eq_refl Hs2 H12 H21) as Hmerge.
  cbn zeta in Hmerge. cbn [Pd.values Pd.dtype_of] in Hmerge.
  set (rows := Pd.join_rows (map Pd.text (debtors corpus)) (map Pd.text idx)) in Hmerge.
  set (J1 := fun c : Pd.column string =>
               {| Pd.label := Pd.label c; Pd.dtype_of := Pd.dtype_of c;
                  Pd.values := map (fun r => Pd.take (Pd.values c) (snd (fst r))) rows |})
    in Hmerge.
  set (J2 := fun c : Pd.column string =>
               {| Pd.label := Pd.label c; Pd.dtype_of := Pd.dtype_of c;
                  Pd.values := map (fun r => Pd.take (Pd.values c) (snd r)) rows |})
    in Hmerge.
  set (K := {| Pd.label := "PARTICIPANT_NAME"; Pd.dtype_of := Pd.object;
               Pd.values := map (fun r => fst (fst r)) rows |}) in Hmerge.
  eapply (post_processing_returns _ _ _ K
            (J1 sent :: J2 posted :: map J2 (map colf others) ++ [J2 total])
            (J2 success) Hmerge).
  - unfold rest2. cbn [map app]. rewrite map_app. cbn [map].
    rewrite <- app_assoc. reflexivity.
  - assert (Hnum : Pd.labels (Pd.numeric (K :: map J1 [sent] ++ map J2 rest2))
                   = "Sent Posted" :: "Received Posted"
                     :: map new_col_name others ++ ["Grand Total"]).
    { unfold Pd.numeric, rest2. cbn [map app filter K J1 J2 sent posted Pd.dtype_of
                                      Pd.is_number].
      rewrite map_app, filter_app. cbn [map filter total success Pd.dtype_of Pd.is_number].
      rewrite forallb_filter_id.
      2:{ apply forallb_forall. intros c Hc. apply in_map_iff in Hc.
          destruct Hc as [c' [<- Hc']]. apply in_map_iff in Hc'.
          destruct Hc' as [k [<- _]]. reflexivity. }
      unfold Pd.labels. cbn [map Pd.label]. rewrite map_app, !map_map.
      cbn [map Pd.label colf]. do 3 f_equal.
      apply map_ext_in. intros k Hk. exact (proj1 (Hoth k Hk)). }
    rewrite Hnum.
    assert (Hnot : forall name, Py.mem name derived_names = false ->
                     ~ In name (map new_col_name others)).
    { intros name Hd Hin. apply in_map_iff in Hin. destruct Hin as [k [E _]].
      pose proof (new_col_name_not name k Hd) as Hne. rewrite E, String.eqb_refl in Hne.
      discriminate. }
    constructor.
    { intros [E | Hin]; [discriminate |]. apply in_app_or in Hin.
      destruct Hin as [Hin | [E | []]]; [| discriminate].
      exact (Hnot _ derived_not_sent Hin). }
    constructor.
    { intros Hin. apply in_app_or in Hin.
      destruct Hin as [Hin | [E | []]]; [| discriminate].
      exact (Hnot _ derived_not_received Hin). }
    apply NoDup_app.
    + unfold others. now apply filtered_names_NoDup.
    + repeat constructor. intros [].
    + intros name Hin [<- | []]. exact (Hnot _ derived_not_grand_total Hin).
  - reflexivity.
  - reflexivity.
  - intros c [<- | [<- | [<- | Hc]]]; try reflexivity.
    apply in_app_or in Hc. destruct Hc as [Hc | [<- | []]]; [| reflexivity].
    apply in_map_iff in Hc. destruct Hc as [c' [<- Hc']].
    apply in_map_iff in Hc'. destruct Hc' as [k [<- Hk]].
    cbn [J2 Pd.label]. apply Hname; [exact derived_not_success | assumption].
  - intros s Hs. cbn [J2 Pd.values] in Hs. apply in_map_iff in Hs.
    destruct Hs as [r [Hr _]]. apply take_text in Hr. cbn [success Pd.values] in Hr.
    apply in_map_iff in Hr. destruct Hr as [n [E _]]. injection E as <-.
    unfold success_of. eexists. reflexivity.
Qed.

(** X17. The whole run returns a report when the corpus is built, no row
    has the status text "DB_PARTIC_NAME", the creditor pivot is built, and
    the names that the loop gives its columns are all different and
    include "Posted". *)
Theorem report_is_produced
    (fs : filesystem) (source_path : string) (files : list string)
    (corpus : list transaction) (pv : Pd.frame (string * string)) :
  merge_files fs source_path files = inr corpus ->
  (forall t, In t corpus -> TR_STATUS_NAME t <> Str "DB_PARTIC_NAME") ->
  creditor_pivot corpus = inr pv ->
  NoDup (rename_loop (Pd.labels pv)) ->
  In "Posted" (rename_loop (Pd.labels pv)) ->
  exists r, report fs source_path files = inr r.
Proof.
  intros Hmerge Hdb Hpv Hnd Hin.
  pose proof (merge_files_filled _ _ _ _ Hmerge) as Hfilled.
  rewrite creditor_pivot_eq in Hpv.
  destruct (existsb _ (combinations corpus)) eqn:Hclash; [discriminate |].
  injection Hpv as <-.
  rewrite labels_cons, labels_keys, rename_loop_map in Hnd, Hin by reflexivity.
  cbn [Pd.label map] in Hnd, Hin.
  change (new_col_name CR_INDEX) with "CR_PARTIC_NAME" in Hnd, Hin.
  inversion Hnd as [| ? ? Hidx Hnd']; subst.
  destruct Hin as [E | Hin]; [discriminate |].
  destruct (filter_unique new_col_name "Posted" (combinations corpus) Hnd' Hin)
    as [k0 Hposted].
  fold names_posted in Hposted.
  change (fun a => String.eqb (new_col_name a) "Posted") with names_posted in Hposted.
  assert (Hk0 : In k0 (filter names_posted (combinations corpus)))
    by (rewrite Hposted; now left).
  apply filter_In in Hk0. destruct Hk0 as [Hk0 Hname].
  apply String.eqb_eq in Hname. destruct k0 as [s0 m0].
  pose proof (posted_name_status s0 m0 Hname) as ->.
  apply combinations_In in Hk0. destruct Hk0 as [t [Ht [Hs _]]]. cbn [fst] in Hs.
  unfold report. rewrite Hmerge. cbn [bind].
  rewrite extract_debitor_details_eq, (no_index_status corpus Hdb).
  rewrite (proj2 (statuses_mem corpus "Posted" Hfilled)) by (now exists t).
  cbn [bind].
  rewrite extract_creditor_details_eq, Hclash, Hposted. cbn [bind].
  now apply post_processing_aggregates.
Qed.

Lemma report_is_produced_witness :
  exists r, report disk "/in" ["a.xlsx"] = inr r.
Proof.
  apply (report_is_produced disk "/in" ["a.xlsx"] corpus_a pivot_a).
  - reflexivity.
  - intros t [<- | [<- | [<- | []]]]; discriminate.
  - reflexivity.
  - vm_compute. repeat constructor; simpl; intuition discriminate.
  - vm_compute. tauto.
Defined.

(** ** The colouring of the success column *)

Lemma highlight_agrees_all : forallb highlight_agrees (seq 0 (Z.to_nat 10001)) = true.
Proof. vm_compute. reflexivity. Qed.

Lemma highlight_cell (q : Z) :
  (0 <= q <= 10000)%Z ->
  exists x, F64.parse (split_first "%" (F64.fixed2 q ++ "%")) = Some x /\
            float_gt x (F64.of_Z 97) = (9700 <? q)%Z.
Proof.
  intros Hq. pose proof highlight_agrees_all as Hall.
  rewrite forallb_forall in Hall. specialize (Hall (Z.to_nat q)).
  unfold highlight_agrees in Hall. rewrite Z2Nat.id in Hall by lia.
  destruct (F64.parse (split_first "%" (F64.fixed2 q ++ "%"))) as [x |].
  - exists x. split; [reflexivity |]. apply Bool.eqb_prop. apply Hall.
    apply in_seq. lia.
  - assert (H : false = true) by (apply Hall; apply in_seq; lia). discriminate.
Qed.

(** X18. On a column of percentages between 0.00% and 100.00%, written
    with two decimals, and of missing cells, [highlight] gives one style for
    each cell: red when the percentage is above 97, green when it is 97 or
    less, and green for a missing cell. *)
Theorem highlight_styles (name : string) (cells : list (option Z)) :
  (forall q, In (Some q) cells -> (0 <= q <= 10000)%Z) ->
  highlight {| Pd.label := name; Pd.dtype_of := Pd.object;
               Pd.values := map percentage_cell cells |}
  = inr (map style_of cells).
Proof.
  intros Hcells. unfold highlight. cbn [Pd.str Pd.dtype_of Pd.values bind ret].
  rewrite map_map.
  assert (H : Pd.astype_float
                (map (fun q => match percentage_cell q with
                               | Pd.text t => Pd.text (split_first "%" t)
                               | _ => Pd.nan
                               end) cells)
              = inr (map (fun q => match q with
                                   | Some q =>
                                       match F64.parse (split_first "%" (F64.fixed2 q ++ "%")) with
                                       | Some x => x
                                       | None => S754_nan
                                       end
                                   | None => S754_nan
                                   end) cells)).
  { induction cells as [| c rest IH]; [reflexivity |].
    cbn [map Pd.astype_float]. rewrite IH by (intros q Hq; apply Hcells; now right).
    destruct c as [q |]; cbn [percentage_cell Pd.to_float bind ret]; [| reflexivity].
    destruct (highlight_cell q (Hcells q (or_introl eq_refl))) as [x [-> _]].
    reflexivity. }
  rewrite H. cbn [bind]. unfold ret. f_equal. rewrite !map_map.
  apply map_ext_in. intros [q |] Hq; [| reflexivity].
  destruct (highlight_cell q (Hcells q Hq)) as [x [-> ->]].
  cbn [style_of]. now destruct (9700 <? q)%Z.
Qed.

Lemma highlight_styles_witness :
  highlight {| Pd.label := "Success"; Pd.dtype_of := Pd.object;
               Pd.values := [Pd.text "97.00%"; Pd.text "97.01%"; Pd.nan;
                             Pd.text "100.00%"; Pd.text "0.00%"] |}
  = inr ["background-color: green"; "background-color: red";
         "background-color: green"; "background-color: red";
         "background-color: green"].
Proof.
  apply (highlight_styles "Success" [Some 9700%Z; Some 9701%Z; None; Some 10000%Z; Some 0%Z]).
  intros q [E | [E | [E | [E | [E | []]]]]]; try discriminate E; injection E as <-; lia.
Defined.

(** ** The columns that the record filter does not read *)






